(** * The cryptographic engine of ipsec-vpn (pkg/crypto/crypto.go)

    A shallow embedding of the algorithm registry, of the four suite
    executors behind [TestAlgorithm] and of the default-algorithm setting,
    followed by the properties of the wire layouts, of the decryption
    self-test and of the error classes.

    What the Go code takes from other packages (crypto/rand, crypto/aes,
    crypto/cipher, chacha20poly1305, circl's kem.Scheme, viper) is not part
    of the repository: it enters the embedding as the interface [Runtime],
    and the contracts of those packages are stated as separate laws that a
    theorem assumes only where it needs them.

    Logging calls and the three wall-clock measurements of [TestResult]
    (KeyGenTime, EncryptTime, DecryptTime) neither steer the control flow
    nor touch the bytes; they are left out.

    The file goes on with the tunnel package: [Create], [Get], [ListAll],
    [Start], [Stop], [Delete] and their helpers are embedded over the
    interface [tunnel.Platform], and their properties follow those of the
    engine. *)

From Stdlib Require Import Strings.String Strings.Byte.
From stdpp Require Import base decidable option list strings gmap.

#[global] Instance byte_eq_decision : EqDecision byte := Byte.byte_eq_dec.

(** ** Values shared by the whole package *)

(** [[]byte] *)
Definition bytes := list byte.

(** Go's [error]: every error value the package builds comes from
    [errors.New] or [fmt.Errorf] and is its message. *)
Definition error := string.

Definition errors_New (text : string) : error := text.

(** [fmt.Errorf(format, arg)] for the one verb the package uses: the format
    strings all end in [%s]; [prefix] is the format without the verb. *)
Definition fmt_Errorf (prefix arg : string) : error := (prefix +:+ arg)%string.

(** The two results [(v, err)] of a call into a library. *)
Inductive res (A : Type) : Type :=
| Ok (v : A)
| Err (err : error).
Arguments Ok {A} v.
Arguments Err {A} err.

(** [type Algorithm struct] *)
Record Algorithm := {
  Name : string;
  Description : string;
  PostQuantum : bool;
}.

(** [type TestResult struct]; the field [Algorithm] is [result_Algorithm]
    here, since the struct [Algorithm] already has the name. *)
Record TestResult := {
  result_Algorithm : string;
  Encrypted : bytes;
  DecryptionSuccessful : bool;
}.

(** [result.Encrypted = b] *)
Definition set_Encrypted (b : bytes) (result : TestResult) : TestResult :=
  {| result_Algorithm := result_Algorithm result;
     Encrypted := b;
     DecryptionSuccessful := DecryptionSuccessful result |}.

(** [result.DecryptionSuccessful = ok] *)
Definition set_DecryptionSuccessful (ok : bool) (result : TestResult) : TestResult :=
  {| result_Algorithm := result_Algorithm result;
     Encrypted := Encrypted result;
     DecryptionSuccessful := ok |}.

(** What a call of an executor does: it returns its two values, a pointer to
    a [TestResult] and an [error], either of which may be nil, or the Go
    runtime panics. *)
Inductive returned : Type :=
| Return (result : option TestResult) (err : option error)
| Panic (msg : string).

(** [return nil, err] *)
Definition fatal (err : error) : returned := Return None (Some err).

(** [result.DecryptionSuccessful = false; return result, nil] *)
Definition soft (result : TestResult) : returned :=
  Return (Some (set_DecryptionSuccessful false result)) None.

(** [result.DecryptionSuccessful = string(plaintext) == string(data);
    return result, nil] *)
Definition verdict (plaintext data : bytes) (result : TestResult) : returned :=
  Return (Some (set_DecryptionSuccessful (bool_decide (plaintext = data)) result)) None.

(** [s[:n]]: the runtime panics when [n] exceeds the capacity, which for the
    slices built with [make] in this package is the length. *)
Definition slice_to (n : nat) (s : bytes) : option bytes :=
  if decide (n ≤ length s) then Some (take n s) else None.

(** ** The interfaces the package calls into *)

(** [io.ReadFull(r, buf)] on a buffer of [n] bytes: reads from [r] until the
    buffer is full or a read fails. *)
Fixpoint io_ReadFull {Reader : Type} (r : Reader → res byte * Reader)
    (n : nat) (w : Reader) : res bytes * Reader :=
  match n with
  | 0 => (Ok [], w)
  | S n' =>
      match r w with
      | (Err err, w) => (Err err, w)
      | (Ok b, w) =>
          match io_ReadFull r n' w with
          | (Err err, w) => (Err err, w)
          | (Ok buf, w) => (Ok (b :: buf), w)
          end
      end
  end.


(** [cipher.AEAD]. [Seal dst nonce plaintext additionalData] and
    [Open dst nonce ciphertext additionalData]. *)
Record cipher_AEAD := {
  NonceSize : nat;
  Overhead : nat;
  Seal : bytes → bytes → bytes → bytes → bytes;
  Open : bytes → bytes → bytes → bytes → res bytes;
}.

(** [kem.Scheme], for the methods the package calls. Key generation and
    encapsulation draw from crypto/rand, whose state is [Reader]. *)
Record kem_Scheme (Reader PublicKey PrivateKey : Type) := {
  GenerateKeyPair : Reader → res (PublicKey * PrivateKey) * Reader;
  Encapsulate : PublicKey → Reader → res (bytes * bytes) * Reader;
  Decapsulate : PrivateKey → bytes → res bytes;
  CiphertextSize : nat;
}.
Arguments GenerateKeyPair {_ _ _} _ _.
Arguments Encapsulate {_ _ _} _ _ _.
Arguments Decapsulate {_ _ _} _ _ _.
Arguments CiphertextSize {_ _ _} _.

(** Everything outside the repository that the package uses. *)
Class Runtime := {
  (** the state of [rand.Reader], and the reading of one byte from it *)
  Reader : Type;
  rand_Read : Reader → res byte * Reader;
  (** crypto/aes, crypto/cipher and x/crypto/chacha20poly1305 *)
  cipher_Block : Type;
  aes_NewCipher : bytes → res cipher_Block;
  cipher_NewGCM : cipher_Block → res cipher_AEAD;
  chacha20poly1305_New : bytes → res cipher_AEAD;
  (** circl: [kyber768.Scheme()] and [kyber1024.Scheme()] *)
  kem_PublicKey : Type;
  kem_PrivateKey : Type;
  kyber768_Scheme : kem_Scheme Reader kem_PublicKey kem_PrivateKey;
  kyber1024_Scheme : kem_Scheme Reader kem_PublicKey kem_PrivateKey;
  (** viper: the configuration file behind [viper.WriteConfig], which
      receives the settings held in memory *)
  ConfigFile : Type;
  viper_WriteConfig : gmap string string → ConfigFile → option error * ConfigFile;
}.

(** [chacha20poly1305.KeySize] *)
Definition chacha20poly1305_KeySize : nat := 32.

(** The sizes of the standard GCM mode that [cipher.NewGCM] builds, and of
    ChaCha20-Poly1305. *)
Definition gcmStandardNonceSize : nat := 12.
Definition gcmTagSize : nat := 16.
Definition chacha20poly1305_NonceSize : nat := 12.
Definition chacha20poly1305_Overhead : nat := 16.

(** The Go idiom [x, err := f(...); if err != nil { return nil, err }], for a
    call that has no effect ([try]) and for one that draws from the random
    source in state [w] ([draw]). *)
Notation "'try' x ← e ; k" :=
  (match e with
   | Err err => fatal err
   | Ok x => k
   end)
  (at level 10, x pattern, e at level 100, k at level 200, only parsing).

Notation "'try' x ← e 'in' w ; k" :=
  (match e with
   | Err err => (fatal err, w)
   | Ok x => k
   end)
  (at level 10, x pattern, e at level 100, w ident, k at level 200, only parsing).

Notation "'draw' x ← f 'from' w ; k" :=
  (match f w with
   | (Err err, w) => (fatal err, w)
   | (Ok x, w) => k
   end)
  (at level 10, x pattern, f at level 100, w ident, k at level 200, only parsing).

Section Engine.
Context `{RT : Runtime}.

Abbreviation Scheme := (kem_Scheme Reader kem_PublicKey kem_PrivateKey).

(** [rand.Reader] *)
Definition rand_Reader : Reader → res byte * Reader := rand_Read.

(** *** The registry *)

Definition ListClassicAlgorithms : list Algorithm :=
  [ {| Name := "aes256gcm";
       Description := "AES-256 in GCM mode - Strong symmetric encryption";
       PostQuantum := false |};
    {| Name := "chacha20poly1305";
       Description := "ChaCha20-Poly1305 - Fast and secure symmetric encryption";
       PostQuantum := false |} ].

Definition ListPostQuantumAlgorithms : list Algorithm :=
  [ {| Name := "kyber768";
       Description := "Kyber-768 - NIST selected post-quantum key encapsulation mechanism";
       PostQuantum := true |};
    {| Name := "kyber1024";
       Description := "Kyber-1024 - Higher security level post-quantum key encapsulation mechanism";
       PostQuantum := true |};
    {| Name := "hybrid-kyber768-aes256gcm";
       Description := "Hybrid Kyber-768 + AES-256-GCM - Post-quantum security with classical fallback";
       PostQuantum := true |} ].

(** *** testAES256GCM *)

(** The part of [testAES256GCM] from the comment [// Decrypt] to the end, as
    a function of the variables alive there; [result.Encrypted] already
    holds [ciphertext]. *)
Definition testAES256GCM_decrypt (aead : cipher_AEAD) (data ciphertext : bytes)
    (result : TestResult) : returned :=
  let nonceSize := NonceSize aead in
  if decide (length ciphertext < nonceSize) then
    fatal (errors_New "ciphertext too short")
  else
    let nonceDecrypt := take nonceSize ciphertext in
    let ciphertextDecrypt := drop nonceSize ciphertext in
    match Open aead [] nonceDecrypt ciphertextDecrypt [] with
    | Err _ => soft result
    | Ok plaintext => verdict plaintext data result
    end.

Definition testAES256GCM (data : bytes) (result : TestResult) (w : Reader)
    : returned * Reader :=
  (* Generate key: AES-256 uses a 32-byte key *)
  draw key ← io_ReadFull rand_Reader 32 from w;
  (* Create cipher *)
  try block ← aes_NewCipher key in w;
  try aead ← cipher_NewGCM block in w;
  (* Generate nonce *)
  draw nonce ← io_ReadFull rand_Reader (NonceSize aead) from w;
  (* Encrypt *)
  let ciphertext := Seal aead nonce nonce data [] in
  let result := set_Encrypted ciphertext result in
  (* Decrypt *)
  (testAES256GCM_decrypt aead data ciphertext result, w).

(** *** testChaCha20Poly1305 *)

(** The part of [testChaCha20Poly1305] from [// Decrypt] to the end. *)
Definition testChaCha20Poly1305_decrypt (aead : cipher_AEAD) (data ciphertext : bytes)
    (result : TestResult) : returned :=
  let nonceSize := NonceSize aead in
  if decide (length ciphertext < nonceSize) then
    fatal (errors_New "ciphertext too short")
  else
    let nonceDecrypt := take nonceSize ciphertext in
    let ciphertextDecrypt := drop nonceSize ciphertext in
    match Open aead [] nonceDecrypt ciphertextDecrypt [] with
    | Err _ => soft result
    | Ok plaintext => verdict plaintext data result
    end.

Definition testChaCha20Poly1305 (data : bytes) (result : TestResult) (w : Reader)
    : returned * Reader :=
  (* Generate key *)
  draw key ← io_ReadFull rand_Reader chacha20poly1305_KeySize from w;
  (* Create cipher *)
  try aead ← chacha20poly1305_New key in w;
  (* Generate nonce *)
  draw nonce ← io_ReadFull rand_Reader (NonceSize aead) from w;
  (* Encrypt *)
  let ciphertext := Seal aead nonce nonce data [] in
  let result := set_Encrypted ciphertext result in
  (* Decrypt *)
  (testChaCha20Poly1305_decrypt aead data ciphertext result, w).

(** *** testKyber *)

(** The part of [testKyber] from [// Decapsulate (decrypt)] to the end;
    [result.Encrypted] holds the serialized ciphertext. *)
Definition testKyber_decrypt (scheme : Scheme) (private : kem_PrivateKey)
    (data : bytes) (result : TestResult) : returned :=
  (* Extract Kyber ciphertext *)
  let kyberCiphertextSize := CiphertextSize scheme in
  if decide (length (Encrypted result) < kyberCiphertextSize) then
    fatal (errors_New "ciphertext too short")
  else
    let kyberCiphertext := take kyberCiphertextSize (Encrypted result) in
    let remaining := drop kyberCiphertextSize (Encrypted result) in
    (* Decapsulate to get shared secret *)
    match Decapsulate scheme private kyberCiphertext with
    | Err _ => soft result
    | Ok decapsulatedSecret =>
        (* Use shared secret to decrypt data *)
        try block ← aes_NewCipher decapsulatedSecret;
        try aead ← cipher_NewGCM block;
        let nonceSize := NonceSize aead in
        if decide (length remaining < nonceSize) then
          fatal (errors_New "remaining ciphertext too short")
        else
          let nonceDecrypt := take nonceSize remaining in
          let ciphertextDecrypt := drop nonceSize remaining in
          match Open aead [] nonceDecrypt ciphertextDecrypt [] with
          | Err _ => soft result
          | Ok plaintext => verdict plaintext data result
          end
    end.

Definition testKyber (scheme : Scheme) (data : bytes) (result : TestResult)
    (w : Reader) : returned * Reader :=
  (* Generate key pair *)
  draw (public, private) ← GenerateKeyPair scheme from w;
  (* Encapsulate (encrypt) *)
  draw (ciphertext, sharedSecret) ← Encapsulate scheme public from w;
  (* Use shared secret to encrypt data with AES-GCM *)
  try block ← aes_NewCipher sharedSecret in w;
  try aead ← cipher_NewGCM block in w;
  draw nonce ← io_ReadFull rand_Reader (NonceSize aead) from w;
  let encryptedData := Seal aead [] nonce data [] in
  (* Combine ciphertext, nonce, and encrypted data *)
  let result := set_Encrypted (ciphertext ++ (nonce ++ encryptedData)) result in
  (* Decapsulate (decrypt) *)
  (testKyber_decrypt scheme private data result, w).

(** *** testHybridKyberAES *)

(** The part of [testHybridKyberAES] from [// Decapsulate and decrypt] to the
    end; [result.Encrypted] holds the serialized ciphertext. *)
Definition testHybridKyberAES_decrypt (scheme : Scheme) (private : kem_PrivateKey)
    (data : bytes) (result : TestResult) : returned :=
  (* Extract Kyber ciphertext *)
  let kyberCiphertextSize := CiphertextSize scheme in
  if decide (length (Encrypted result) < kyberCiphertextSize) then
    fatal (errors_New "ciphertext too short")
  else
    let kyberCiphertext := take kyberCiphertextSize (Encrypted result) in
    let remaining := drop kyberCiphertextSize (Encrypted result) in
    (* Decapsulate to get shared secret *)
    match Decapsulate scheme private kyberCiphertext with
    | Err _ => soft result
    | Ok decapsulatedSecret =>
        (* Extract AES key nonce and encrypted AES key *)
        try aesKeyBlock ← aes_NewCipher decapsulatedSecret;
        try aesKeyAead ← cipher_NewGCM aesKeyBlock;
        let aesKeyNonceSize := NonceSize aesKeyAead in
        if decide (length remaining < aesKeyNonceSize) then
          fatal (errors_New "remaining ciphertext too short")
        else
          let aesKeyNonceDecrypt := take aesKeyNonceSize remaining in
          let remaining := drop aesKeyNonceSize remaining in
          (* the size of the encrypted AES key: AES-256 key + GCM tag *)
          let encryptedAesKeySize := 32 + 16 in
          if decide (length remaining < encryptedAesKeySize) then
            fatal (errors_New "remaining ciphertext too short for AES key")
          else
            let encryptedAesKeyDecrypt := take encryptedAesKeySize remaining in
            let remaining := drop encryptedAesKeySize remaining in
            (* Decrypt the AES key *)
            match Open aesKeyAead [] aesKeyNonceDecrypt encryptedAesKeyDecrypt [] with
            | Err _ => soft result
            | Ok decryptedAesKey =>
                (* Combine Kyber shared secret with decrypted AES key *)
                let hybridKeyDecrypt := decapsulatedSecret ++ decryptedAesKey in
                (* Use hybrid key to decrypt data: first 32 bytes for AES-256 *)
                match slice_to 32 hybridKeyDecrypt with
                | None => Panic "slice bounds out of range"
                | Some hybridKeyDecrypt32 =>
                    try blockDecrypt ← aes_NewCipher hybridKeyDecrypt32;
                    try aeadDecrypt ← cipher_NewGCM blockDecrypt;
                    let nonceSize := NonceSize aeadDecrypt in
                    if decide (length remaining < nonceSize) then
                      fatal (errors_New "remaining ciphertext too short for data nonce")
                    else
                      let nonceDecrypt := take nonceSize remaining in
                      let ciphertextDecrypt := drop nonceSize remaining in
                      match Open aeadDecrypt [] nonceDecrypt ciphertextDecrypt [] with
                      | Err _ => soft result
                      | Ok plaintext => verdict plaintext data result
                      end
                end
            end
    end.

Definition testHybridKyberAES (scheme : Scheme) (data : bytes) (result : TestResult)
    (w : Reader) : returned * Reader :=
  (* Generate key pair for Kyber *)
  draw (public, private) ← GenerateKeyPair scheme from w;
  (* Generate AES key: AES-256 *)
  draw aesKey ← io_ReadFull rand_Reader 32 from w;
  (* Encapsulate with Kyber *)
  draw (ciphertext, sharedSecret) ← Encapsulate scheme public from w;
  (* Combine Kyber shared secret with AES key *)
  let hybridKey := sharedSecret ++ aesKey in
  (* Use hybrid key to encrypt data with AES-GCM: first 32 bytes for AES-256 *)
  match slice_to 32 hybridKey with
  | None => (Panic "slice bounds out of range", w)
  | Some hybridKey32 =>
      try block ← aes_NewCipher hybridKey32 in w;
      try aead ← cipher_NewGCM block in w;
      draw nonce ← io_ReadFull rand_Reader (NonceSize aead) from w;
      let encryptedData := Seal aead [] nonce data [] in
      (* Encrypt AES key with Kyber shared secret *)
      try aesKeyBlock ← aes_NewCipher sharedSecret in w;
      try aesKeyAead ← cipher_NewGCM aesKeyBlock in w;
      draw aesKeyNonce ← io_ReadFull rand_Reader (NonceSize aesKeyAead) from w;
      let encryptedAesKey := Seal aesKeyAead [] aesKeyNonce aesKey [] in
      (* Combine all components *)
      let result :=
        set_Encrypted
          (ciphertext ++ (aesKeyNonce ++ (encryptedAesKey ++ (nonce ++ encryptedData))))
          result in
      (* Decapsulate and decrypt *)
      (testHybridKyberAES_decrypt scheme private data result, w)
  end.

(** *** TestAlgorithm *)

Definition TestAlgorithm (algorithm : string) (data : bytes) (w : Reader)
    : returned * Reader :=
  let result :=
    {| result_Algorithm := algorithm; Encrypted := []; DecryptionSuccessful := false |} in
  (* Test the algorithm based on its type *)
  if decide (algorithm = "aes256gcm") then testAES256GCM data result w
  else if decide (algorithm = "chacha20poly1305") then testChaCha20Poly1305 data result w
  else if decide (algorithm = "kyber768") then testKyber kyber768_Scheme data result w
  else if decide (algorithm = "kyber1024") then testKyber kyber1024_Scheme data result w
  else if decide (algorithm = "hybrid-kyber768-aes256gcm") then
    testHybridKyberAES kyber768_Scheme data result w
  else (fatal (fmt_Errorf "unsupported algorithm: " algorithm), w).

(** *** SetDefaultAlgorithm *)

(** [viper.Set(key, value)] on the settings held in memory. *)
Definition viper_Set (key value : string) (settings : gmap string string)
    : gmap string string :=
  <[key := value]> settings.

(** [for _, algo := range list { if algo.Name == algorithm { valid = true; break } }] *)
Definition name_listed (algorithm : string) (list : list Algorithm) : bool :=
  existsb (λ algo, bool_decide (Name algo = algorithm)) list.

Definition SetDefaultAlgorithm (algorithm : string) (postQuantum : bool)
    (settings : gmap string string) (file : ConfigFile)
    : option error * (gmap string string * ConfigFile) :=
  (* Validate algorithm *)
  let valid :=
    if postQuantum then name_listed algorithm ListPostQuantumAlgorithms
    else name_listed algorithm ListClassicAlgorithms in
  if negb valid then
    (Some (fmt_Errorf "invalid algorithm: " algorithm), (settings, file))
  else
    (* Set default algorithm in configuration *)
    let settings :=
      if postQuantum then viper_Set "crypto.default_post_quantum" algorithm settings
      else viper_Set "crypto.default_classic" algorithm settings in
    (* Save configuration *)
    let '(err, file) := viper_WriteConfig settings file in
    (err, (settings, file)).

(** ** The specification's side *)

(** The names the registry lists, classic first. *)
Definition registered_names : list string :=
  Name <$> (ListClassicAlgorithms ++ ListPostQuantumAlgorithms).

(** The [TestResult] that [TestAlgorithm] allocates before it dispatches. *)
Definition blank (algorithm : string) : TestResult :=
  {| result_Algorithm := algorithm; Encrypted := []; DecryptionSuccessful := false |}.

(** The key under which the default of a category is kept. *)
Definition default_key (postQuantum : bool) : string :=
  if postQuantum then "crypto.default_post_quantum" else "crypto.default_classic".

(** The wire layouts of the specification (section 6), field by field. *)
Definition spec_classic_layout (nonce sealed : bytes) : bytes :=
  nonce ++ sealed.

Definition spec_kem_layout (kemCiphertext nonce sealed : bytes) : bytes :=
  kemCiphertext ++ nonce ++ sealed.

Definition spec_hybrid_layout
    (kemCiphertext keyNonce wrappedKey dataNonce dataCiphertext : bytes) : bytes :=
  kemCiphertext ++ keyNonce ++ wrappedKey ++ dataNonce ++ dataCiphertext.

(** Their lengths, from the fixed sizes K (KEM ciphertext), N (nonce),
    S (symmetric key), T (tag) and the length [n] of the plaintext. *)
Definition spec_classic_length (N T n : nat) : nat := N + n + T.
Definition spec_kem_length (K N T n : nat) : nat := K + N + n + T.
Definition spec_hybrid_length (K N S T n : nat) : nat := K + 2 * N + S + 2 * T + n.

(** Step 3 of the hybrid composer: the first AEAD-key-size bytes of
    [sharedSecret ∥ symmetricKey]. *)
Definition spec_payload_key (sharedSecret symmetricKey : bytes) : bytes :=
  take 32 (sharedSecret ++ symmetricKey).

(** The decryption of the hybrid composer as the specification words it, on
    the five fields of the layout: decapsulate, unwrap the symmetric key
    under the shared secret, rebuild the payload key, open the data. An
    unusable key is fatal; a combined key shorter than the AEAD key cannot
    be cut. *)
Definition spec_hybrid_open (scheme : Scheme) (private : kem_PrivateKey)
    (data : bytes) (result : TestResult)
    (kemCiphertext keyNonce wrappedKey dataNonce dataCiphertext : bytes) : returned :=
  match Decapsulate scheme private kemCiphertext with
  | Err _ => soft result
  | Ok sharedSecret =>
      try keyBlock ← aes_NewCipher sharedSecret;
      try keyAead ← cipher_NewGCM keyBlock;
      match Open keyAead [] keyNonce wrappedKey [] with
      | Err _ => soft result
      | Ok symmetricKey =>
          if decide (32 ≤ length (sharedSecret ++ symmetricKey)) then
            try block ← aes_NewCipher (spec_payload_key sharedSecret symmetricKey);
            try aead ← cipher_NewGCM block;
            match Open aead [] dataNonce dataCiphertext [] with
            | Err _ => soft result
            | Ok plaintext => verdict plaintext data result
            end
          else Panic "slice bounds out of range"
      end
  end.

(** *** What the encryption half of each executor has computed

    Each relation holds of the values an executor has in hand when it
    reaches its decryption half: every call into the runtime before that
    point has succeeded, with these results. *)

Inductive testAES256GCM_encrypts (w : Reader)
    : cipher_AEAD → bytes → Reader → Prop :=
| testAES256GCM_encrypts_intro key w1 block aead nonce w2 :
    io_ReadFull rand_Reader 32 w = (Ok key, w1) →
    aes_NewCipher key = Ok block →
    cipher_NewGCM block = Ok aead →
    io_ReadFull rand_Reader (NonceSize aead) w1 = (Ok nonce, w2) →
    testAES256GCM_encrypts w aead nonce w2.

Inductive testChaCha20Poly1305_encrypts (w : Reader)
    : cipher_AEAD → bytes → Reader → Prop :=
| testChaCha20Poly1305_encrypts_intro key w1 aead nonce w2 :
    io_ReadFull rand_Reader chacha20poly1305_KeySize w = (Ok key, w1) →
    chacha20poly1305_New key = Ok aead →
    io_ReadFull rand_Reader (NonceSize aead) w1 = (Ok nonce, w2) →
    testChaCha20Poly1305_encrypts w aead nonce w2.

Inductive testKyber_encrypts (scheme : Scheme) (w : Reader)
    : kem_PrivateKey → bytes → bytes → cipher_AEAD → bytes → Reader → Prop :=
| testKyber_encrypts_intro public private w1 ciphertext sharedSecret w2
      block aead nonce w3 :
    GenerateKeyPair scheme w = (Ok (public, private), w1) →
    Encapsulate scheme public w1 = (Ok (ciphertext, sharedSecret), w2) →
    aes_NewCipher sharedSecret = Ok block →
    cipher_NewGCM block = Ok aead →
    io_ReadFull rand_Reader (NonceSize aead) w2 = (Ok nonce, w3) →
    testKyber_encrypts scheme w private ciphertext sharedSecret aead nonce w3.

(** The hybrid executor: [aead] protects the data and is keyed with the
    payload key, [aesKeyAead] wraps [aesKey] and is keyed with the shared
    secret alone. *)
Inductive testHybridKyberAES_encrypts (scheme : Scheme) (w : Reader)
    : kem_PrivateKey → bytes → bytes → bytes → cipher_AEAD → bytes →
      cipher_AEAD → bytes → Reader → Prop :=
| testHybridKyberAES_encrypts_intro public private w1 aesKey w2
      ciphertext sharedSecret w3 block aead nonce w4
      aesKeyBlock aesKeyAead aesKeyNonce w5 :
    GenerateKeyPair scheme w = (Ok (public, private), w1) →
    io_ReadFull rand_Reader 32 w1 = (Ok aesKey, w2) →
    Encapsulate scheme public w2 = (Ok (ciphertext, sharedSecret), w3) →
    aes_NewCipher (spec_payload_key sharedSecret aesKey) = Ok block →
    cipher_NewGCM block = Ok aead →
    io_ReadFull rand_Reader (NonceSize aead) w3 = (Ok nonce, w4) →
    aes_NewCipher sharedSecret = Ok aesKeyBlock →
    cipher_NewGCM aesKeyBlock = Ok aesKeyAead →
    io_ReadFull rand_Reader (NonceSize aesKeyAead) w4 = (Ok aesKeyNonce, w5) →
    testHybridKyberAES_encrypts scheme w private aesKey ciphertext sharedSecret
      aead nonce aesKeyAead aesKeyNonce w5.

(** *** The two error classes of the decryption self-test

    The cryptographic failures and the framing failures of a decryption
    half, as conditions on the buffer [buf] it parses. A condition names
    the fields that the parser has cut off so far and what the runtime
    answered on them. *)

(** An AEAD layer that protects the payload fails cryptographically on
    [nonce] and [sealed]: the tag does not verify, or what comes out is not
    the input. *)
Inductive payload_fails (aead : cipher_AEAD) (data nonce sealed : bytes) : Prop :=
| authentication_fails err :
    Open aead [] nonce sealed [] = Err err →
    payload_fails aead data nonce sealed
| plaintext_differs plaintext :
    Open aead [] nonce sealed [] = Ok plaintext →
    plaintext ≠ data →
    payload_fails aead data nonce sealed.

(** A classic executor on [nonce ∥ sealed]. *)
Inductive classic_fails (aead : cipher_AEAD) (data buf : bytes) : Prop :=
| classic_payload_fails nonce sealed :
    buf = nonce ++ sealed →
    length nonce = NonceSize aead →
    payload_fails aead data nonce sealed →
    classic_fails aead data buf.

(** The KEM executor on [kemCiphertext ∥ nonce ∥ sealed]. *)
Inductive testKyber_fails (scheme : Scheme) (private : kem_PrivateKey)
    (data buf : bytes) : Prop :=
| testKyber_decapsulation_fails kemCiphertext rest err :
    buf = kemCiphertext ++ rest →
    length kemCiphertext = CiphertextSize scheme →
    Decapsulate scheme private kemCiphertext = Err err →
    testKyber_fails scheme private data buf
| testKyber_payload_fails kemCiphertext nonce sealed sharedSecret block aead :
    buf = kemCiphertext ++ nonce ++ sealed →
    length kemCiphertext = CiphertextSize scheme →
    Decapsulate scheme private kemCiphertext = Ok sharedSecret →
    aes_NewCipher sharedSecret = Ok block →
    cipher_NewGCM block = Ok aead →
    length nonce = NonceSize aead →
    payload_fails aead data nonce sealed →
    testKyber_fails scheme private data buf.

(** The hybrid executor on
    [kemCiphertext ∥ keyNonce ∥ wrappedKey ∥ dataNonce ∥ sealed]. *)
Inductive testHybridKyberAES_fails (scheme : Scheme) (private : kem_PrivateKey)
    (data buf : bytes) : Prop :=
| testHybridKyberAES_decapsulation_fails kemCiphertext rest err :
    buf = kemCiphertext ++ rest →
    length kemCiphertext = CiphertextSize scheme →
    Decapsulate scheme private kemCiphertext = Err err →
    testHybridKyberAES_fails scheme private data buf
| testHybridKyberAES_unwrap_fails kemCiphertext keyNonce wrappedKey rest
      sharedSecret keyBlock keyAead err :
    buf = kemCiphertext ++ keyNonce ++ wrappedKey ++ rest →
    length kemCiphertext = CiphertextSize scheme →
    Decapsulate scheme private kemCiphertext = Ok sharedSecret →
    aes_NewCipher sharedSecret = Ok keyBlock →
    cipher_NewGCM keyBlock = Ok keyAead →
    length keyNonce = NonceSize keyAead →
    length wrappedKey = 32 + 16 →
    Open keyAead [] keyNonce wrappedKey [] = Err err →
    testHybridKyberAES_fails scheme private data buf
| testHybridKyberAES_payload_fails kemCiphertext keyNonce wrappedKey dataNonce sealed
      sharedSecret keyBlock keyAead symmetricKey block aead :
    buf = spec_hybrid_layout kemCiphertext keyNonce wrappedKey dataNonce sealed →
    length kemCiphertext = CiphertextSize scheme →
    Decapsulate scheme private kemCiphertext = Ok sharedSecret →
    aes_NewCipher sharedSecret = Ok keyBlock →
    cipher_NewGCM keyBlock = Ok keyAead →
    length keyNonce = NonceSize keyAead →
    length wrappedKey = 32 + 16 →
    Open keyAead [] keyNonce wrappedKey [] = Ok symmetricKey →
    32 ≤ length (sharedSecret ++ symmetricKey) →
    aes_NewCipher (spec_payload_key sharedSecret symmetricKey) = Ok block →
    cipher_NewGCM block = Ok aead →
    length dataNonce = NonceSize aead →
    payload_fails aead data dataNonce sealed →
    testHybridKyberAES_fails scheme private data buf.

(** A run of [TestAlgorithm] whose encryption half goes through, leaves the
    random source in [w'] and serializes [buf], on which the decryption
    self-test then fails cryptographically. *)
Inductive TestAlgorithm_fails (data : bytes) (w : Reader)
    : string → bytes → Reader → Prop :=
| aes256gcm_fails aead nonce w' :
    testAES256GCM_encrypts w aead nonce w' →
    classic_fails aead data (Seal aead nonce nonce data []) →
    TestAlgorithm_fails data w "aes256gcm" (Seal aead nonce nonce data []) w'
| chacha20poly1305_fails aead nonce w' :
    testChaCha20Poly1305_encrypts w aead nonce w' →
    classic_fails aead data (Seal aead nonce nonce data []) →
    TestAlgorithm_fails data w "chacha20poly1305" (Seal aead nonce nonce data []) w'
| kyber768_fails private ciphertext sharedSecret aead nonce w' buf :
    testKyber_encrypts kyber768_Scheme w private ciphertext sharedSecret aead nonce w' →
    buf = spec_kem_layout ciphertext nonce (Seal aead [] nonce data []) →
    testKyber_fails kyber768_Scheme private data buf →
    TestAlgorithm_fails data w "kyber768" buf w'
| kyber1024_fails private ciphertext sharedSecret aead nonce w' buf :
    testKyber_encrypts kyber1024_Scheme w private ciphertext sharedSecret aead nonce w' →
    buf = spec_kem_layout ciphertext nonce (Seal aead [] nonce data []) →
    testKyber_fails kyber1024_Scheme private data buf →
    TestAlgorithm_fails data w "kyber1024" buf w'
| hybrid_fails private aesKey ciphertext sharedSecret aead nonce
      aesKeyAead aesKeyNonce w' buf :
    testHybridKyberAES_encrypts kyber768_Scheme w private aesKey ciphertext
      sharedSecret aead nonce aesKeyAead aesKeyNonce w' →
    buf = spec_hybrid_layout ciphertext aesKeyNonce
            (Seal aesKeyAead [] aesKeyNonce aesKey []) nonce
            (Seal aead [] nonce data []) →
    testHybridKyberAES_fails kyber768_Scheme private data buf →
    TestAlgorithm_fails data w "hybrid-kyber768-aes256gcm" buf w'.




(** ** The contracts of the libraries *)

(** [rand.Reader] delivers. *)
Definition rand_delivers : Prop :=
  ∀ w, ∃ b w', rand_Read w = (Ok b, w').

(** An AEAD with nonce size [N] and tag size [T]: [Seal] appends to [dst]
    the sealed plaintext, [T] bytes longer than the plaintext, and [Open]
    under the same nonce gives the plaintext back. *)
Record AEAD_law (aead : cipher_AEAD) (N T : nat) : Prop := {
  law_NonceSize : NonceSize aead = N;
  law_Overhead : Overhead aead = T;
  law_Seal_dst : ∀ dst nonce plaintext ad,
    Seal aead dst nonce plaintext ad = dst ++ Seal aead [] nonce plaintext ad;
  law_Seal_length : ∀ nonce plaintext ad,
    length (Seal aead [] nonce plaintext ad) = length plaintext + T;
  law_Open_Seal : ∀ nonce plaintext ad,
    length nonce = N →
    Open aead [] nonce (Seal aead [] nonce plaintext ad) ad = Ok plaintext;
}.

(** AES-256 in GCM mode: a 32-byte key is accepted and gives such an AEAD. *)
Definition aes_gcm_law : Prop :=
  ∀ key, length key = 32 →
    ∃ block aead, aes_NewCipher key = Ok block ∧ cipher_NewGCM block = Ok aead ∧
      AEAD_law aead gcmStandardNonceSize gcmTagSize.

(** Every AEAD that [cipher.NewGCM] builds has the standard nonce size. *)
Definition gcm_nonce_law : Prop :=
  ∀ key block aead, aes_NewCipher key = Ok block → cipher_NewGCM block = Ok aead →
    NonceSize aead = gcmStandardNonceSize.

Definition chacha20poly1305_law : Prop :=
  ∀ key, length key = chacha20poly1305_KeySize →
    ∃ aead, chacha20poly1305_New key = Ok aead ∧
      AEAD_law aead chacha20poly1305_NonceSize chacha20poly1305_Overhead.

(** A KEM: key generation and encapsulation succeed, the KEM ciphertext has
    the size the scheme announces, the shared secret has 32 bytes, and
    decapsulation with the matching private key recovers it. *)
Definition kem_law (scheme : Scheme) : Prop :=
  ∀ w, ∃ public private w1,
    GenerateKeyPair scheme w = (Ok (public, private), w1) ∧
    ∀ w2, ∃ ciphertext sharedSecret w3,
      Encapsulate scheme public w2 = (Ok (ciphertext, sharedSecret), w3) ∧
      length ciphertext = CiphertextSize scheme ∧
      length sharedSecret = 32 ∧
      Decapsulate scheme private ciphertext = Ok sharedSecret.

End Engine.

(** ** A reference runtime

    A small runtime that honours the contracts above, to run the engine on
    concrete inputs. It protects nothing: the "cipher" masks every byte
    with the first byte of the key, the tag is cut from key and nonce, and
    the "KEM" ships the masked secret followed by zero padding. Two faulty
    ciphers stand for libraries that break their contract. *)
Module Toy.

Definition bxor (a b : byte) : byte :=
  let '(a0, (a1, (a2, (a3, (a4, (a5, (a6, a7))))))) := Byte.to_bits a in
  let '(b0, (b1, (b2, (b3, (b4, (b5, (b6, b7))))))) := Byte.to_bits b in
  Byte.of_bits
    (xorb a0 b0, (xorb a1 b1, (xorb a2 b2, (xorb a3 b3,
      (xorb a4 b4, (xorb a5 b5, (xorb a6 b6, xorb a7 b7))))))).

Definition mask (key : bytes) : byte := hd x00 key.

Definition tag (key nonce : bytes) : bytes :=
  take 16 (key ++ nonce ++ replicate 16 x00).

Definition authentication_failed : error := "cipher: message authentication failed".

Definition aead (key : bytes) : cipher_AEAD := {|
  NonceSize := 12;
  Overhead := 16;
  Seal dst nonce plaintext _ := dst ++ (bxor (mask key) <$> plaintext) ++ tag key nonce;
  Open dst nonce ciphertext _ :=
    if decide (16 ≤ length ciphertext) then
      let body := take (length ciphertext - 16) ciphertext in
      if decide (drop (length ciphertext - 16) ciphertext = tag key nonce) then
        Ok (dst ++ (bxor (mask key) <$> body))
      else Err authentication_failed
    else Err authentication_failed;
|}.

(** A cipher that rejects every tag. *)
Definition deaf (key : bytes) : cipher_AEAD := {|
  NonceSize := 12;
  Overhead := 16;
  Seal := Seal (aead key);
  Open _ _ _ _ := Err authentication_failed;
|}.

(** A cipher that opens everything to the empty plaintext. *)
Definition forgetful (key : bytes) : cipher_AEAD := {|
  NonceSize := 12;
  Overhead := 16;
  Seal := Seal (aead key);
  Open _ _ _ _ := Ok [];
|}.

(** A cipher that seals to nothing. *)
Definition mute (key : bytes) : cipher_AEAD := {|
  NonceSize := 12;
  Overhead := 16;
  Seal _ _ _ _ := [];
  Open := Open (aead key);
|}.

(** The random source: a tape of bytes to deliver first, then a counter
    read modulo 256. *)
Definition read (w : bytes * nat) : res byte * (bytes * nat) :=
  match w with
  | (b :: tape, n) => (Ok b, (tape, n))
  | ([], n) => (Ok (default x00 (Byte.of_nat (n mod 256))), ([], S n))
  end.

Definition NewCipher (key : bytes) : res bytes :=
  if decide (length key = 16 ∨ length key = 24 ∨ length key = 32) then Ok key
  else Err "crypto/aes: invalid key size".

Definition New (cipher : bytes → cipher_AEAD) (key : bytes) : res cipher_AEAD :=
  if decide (length key = 32) then Ok (cipher key)
  else Err "chacha20poly1305: bad key length".

(** A KEM with ciphertexts of [K] bytes and secrets of 32 bytes. The key
    pair is twice the same seed. Encapsulation pads with [pad],
    decapsulation insists on zero padding: any other [pad] gives a KEM that
    cannot decapsulate what it encapsulated. *)
Definition scheme (pad : byte) (K : nat) : kem_Scheme (bytes * nat) bytes bytes := {|
  GenerateKeyPair w :=
    match io_ReadFull read 32 w with
    | (Err err, w) => (Err err, w)
    | (Ok seed, w) => (Ok (seed, seed), w)
    end;
  Encapsulate public w :=
    match io_ReadFull read 32 w with
    | (Err err, w) => (Err err, w)
    | (Ok secret, w) =>
        (Ok ((bxor (mask public) <$> secret) ++ replicate (K - 32) pad, secret), w)
    end;
  Decapsulate private ciphertext :=
    if decide (drop 32 ciphertext = replicate (K - 32) x00) then
      Ok (bxor (mask private) <$> take 32 ciphertext)
    else Err "kem: decapsulation failed";
  CiphertextSize := K;
|}.

(** The runtime around a cipher and a KEM padding. *)
Definition runtime_with (cipher : bytes → cipher_AEAD) (pad : byte) : Runtime := {|
  Reader := bytes * nat;
  rand_Read := read;
  cipher_Block := bytes;
  aes_NewCipher := NewCipher;
  cipher_NewGCM block := Ok (cipher block);
  chacha20poly1305_New := New cipher;
  kem_PublicKey := bytes;
  kem_PrivateKey := bytes;
  kyber768_Scheme := scheme pad 1088;
  kyber1024_Scheme := scheme pad 1568;
  ConfigFile := gmap string string;
  viper_WriteConfig settings _ := (None, settings);
|}.

Definition runtime : Runtime := runtime_with aead x00.

(** Four runtimes that break a contract: a cipher that rejects every tag,
    one that opens to nothing, one that seals to nothing, and a KEM that
    cannot decapsulate. *)
Definition deaf_runtime : Runtime := runtime_with deaf x00.
Definition forgetful_runtime : Runtime := runtime_with forgetful x00.
Definition mute_runtime : Runtime := runtime_with mute x00.
Definition unpadded_runtime : Runtime := runtime_with aead xff.

(** Three plaintexts and a fresh random source. *)
Definition empty : bytes := [].
Definition hello : bytes := ["h"; "e"; "l"; "l"; "o"]%byte.
Definition kilobyte : bytes := replicate 1024 "a"%byte.
Definition fresh : bytes * nat := ([], 0).

(** A random source that first delivers 32 zero bytes and 32 bytes 255,
    then counts from 64 as [fresh] does after its first 64 bytes. *)
Definition other : bytes * nat := (replicate 32 x00 ++ replicate 32 xff, 64).

End Toy.

(** * The rest of the crypto package *)

(** ** GetDefaultAlgorithm *)

Section Defaults.

(** What viper finds for a key below the values given with [viper.Set]: in
    flags, the environment, the configuration file and the defaults; the
    empty string when the key is nowhere. *)
Variable below : string → string.

(** [viper.GetString(key)]: a value given with [viper.Set] comes first. *)
Definition viper_GetString (key : string) (settings : gmap string string) : string :=
  match settings !! key with
  | Some value => value
  | None => below key
  end.

Definition GetDefaultAlgorithm (postQuantum : bool) (settings : gmap string string)
    : string :=
  if postQuantum then
    let defaultAlgo := viper_GetString "crypto.default_post_quantum" settings in
    if decide (defaultAlgo = "") then
      "kyber768" (* Default post-quantum algorithm *)
    else defaultAlgo
  else
    let defaultAlgo := viper_GetString "crypto.default_classic" settings in
    if decide (defaultAlgo = "") then
      "aes256gcm" (* Default classic algorithm *)
    else defaultAlgo.

End Defaults.

(** ** The outcomes of a decryption self-test, continued *)

Section Outcomes.
Context `{RT : Runtime}.

Abbreviation Scheme := (kem_Scheme Reader kem_PublicKey kem_PrivateKey).

(** [return result, nil] with the flag set. *)
Definition success (result : TestResult) : returned :=
  Return (Some (set_DecryptionSuccessful true result)) None.

(** A classic executor opens [buf = nonce ∥ sealed] to the input. *)
Inductive classic_recovers (aead : cipher_AEAD) (data buf : bytes) : Prop :=
| classic_recovers_intro nonce sealed :
    buf = nonce ++ sealed →
    length nonce = NonceSize aead →
    Open aead [] nonce sealed [] = Ok data →
    classic_recovers aead data buf.

(** The KEM executor decapsulates the first field of
    [buf = kemCiphertext ∥ nonce ∥ sealed] and opens the rest to the input. *)
Inductive testKyber_recovers (scheme : Scheme) (private : kem_PrivateKey)
    (data buf : bytes) : Prop :=
| testKyber_recovers_intro kemCiphertext nonce sealed sharedSecret block aead :
    buf = kemCiphertext ++ nonce ++ sealed →
    length kemCiphertext = CiphertextSize scheme →
    Decapsulate scheme private kemCiphertext = Ok sharedSecret →
    aes_NewCipher sharedSecret = Ok block →
    cipher_NewGCM block = Ok aead →
    length nonce = NonceSize aead →
    Open aead [] nonce sealed [] = Ok data →
    testKyber_recovers scheme private data buf.

(** The hybrid executor decapsulates, unwraps the symmetric key and opens
    the data of [buf] to the input. *)
Inductive testHybridKyberAES_recovers (scheme : Scheme) (private : kem_PrivateKey)
    (data buf : bytes) : Prop :=
| testHybridKyberAES_recovers_intro kemCiphertext keyNonce wrappedKey dataNonce sealed
      sharedSecret keyBlock keyAead symmetricKey block aead :
    buf = spec_hybrid_layout kemCiphertext keyNonce wrappedKey dataNonce sealed →
    length kemCiphertext = CiphertextSize scheme →
    Decapsulate scheme private kemCiphertext = Ok sharedSecret →
    aes_NewCipher sharedSecret = Ok keyBlock →
    cipher_NewGCM keyBlock = Ok keyAead →
    length keyNonce = NonceSize keyAead →
    length wrappedKey = 32 + 16 →
    Open keyAead [] keyNonce wrappedKey [] = Ok symmetricKey →
    32 ≤ length (sharedSecret ++ symmetricKey) →
    aes_NewCipher (spec_payload_key sharedSecret symmetricKey) = Ok block →
    cipher_NewGCM block = Ok aead →
    length dataNonce = NonceSize aead →
    Open aead [] dataNonce sealed [] = Ok data →
    testHybridKyberAES_recovers scheme private data buf.

(** The hybrid executor decapsulates and unwraps, and the secret and the
    unwrapped key together are too short for [hybridKeyDecrypt[:32]]. *)
Inductive testHybridKyberAES_overruns (scheme : Scheme) (private : kem_PrivateKey)
    (buf : bytes) : Prop :=
| testHybridKyberAES_overruns_intro kemCiphertext keyNonce wrappedKey rest
      sharedSecret keyBlock keyAead symmetricKey :
    buf = kemCiphertext ++ keyNonce ++ wrappedKey ++ rest →
    length kemCiphertext = CiphertextSize scheme →
    Decapsulate scheme private kemCiphertext = Ok sharedSecret →
    aes_NewCipher sharedSecret = Ok keyBlock →
    cipher_NewGCM keyBlock = Ok keyAead →
    length keyNonce = NonceSize keyAead →
    length wrappedKey = 32 + 16 →
    Open keyAead [] keyNonce wrappedKey [] = Ok symmetricKey →
    length (sharedSecret ++ symmetricKey) < 32 →
    testHybridKyberAES_overruns scheme private buf.

(** A run of [TestAlgorithm] whose encryption half goes through, leaves the
    random source in [w'] and serializes [buf]. *)
Inductive TestAlgorithm_serializes (data : bytes) (w : Reader)
    : string → bytes → Reader → Prop :=
| aes256gcm_serializes aead nonce w' :
    testAES256GCM_encrypts w aead nonce w' →
    TestAlgorithm_serializes data w "aes256gcm" (Seal aead nonce nonce data []) w'
| chacha20poly1305_serializes aead nonce w' :
    testChaCha20Poly1305_encrypts w aead nonce w' →
    TestAlgorithm_serializes data w "chacha20poly1305"
      (Seal aead nonce nonce data []) w'
| kyber768_serializes private ciphertext sharedSecret aead nonce w' :
    testKyber_encrypts kyber768_Scheme w private ciphertext sharedSecret aead nonce w' →
    TestAlgorithm_serializes data w "kyber768"
      (spec_kem_layout ciphertext nonce (Seal aead [] nonce data [])) w'
| kyber1024_serializes private ciphertext sharedSecret aead nonce w' :
    testKyber_encrypts kyber1024_Scheme w private ciphertext sharedSecret aead nonce w' →
    TestAlgorithm_serializes data w "kyber1024"
      (spec_kem_layout ciphertext nonce (Seal aead [] nonce data [])) w'
| hybrid_serializes private aesKey ciphertext sharedSecret aead nonce
      aesKeyAead aesKeyNonce w' :
    testHybridKyberAES_encrypts kyber768_Scheme w private aesKey ciphertext
      sharedSecret aead nonce aesKeyAead aesKeyNonce w' →
    TestAlgorithm_serializes data w "hybrid-kyber768-aes256gcm"
      (spec_hybrid_layout ciphertext aesKeyNonce
         (Seal aesKeyAead [] aesKeyNonce aesKey []) nonce
         (Seal aead [] nonce data [])) w'.

(** Such a run, whose decryption self-test then gets the input back. *)
Inductive TestAlgorithm_recovers (data : bytes) (w : Reader)
    : string → bytes → Reader → Prop :=
| aes256gcm_recovers aead nonce w' :
    testAES256GCM_encrypts w aead nonce w' →
    classic_recovers aead data (Seal aead nonce nonce data []) →
    TestAlgorithm_recovers data w "aes256gcm" (Seal aead nonce nonce data []) w'
| chacha20poly1305_recovers aead nonce w' :
    testChaCha20Poly1305_encrypts w aead nonce w' →
    classic_recovers aead data (Seal aead nonce nonce data []) →
    TestAlgorithm_recovers data w "chacha20poly1305" (Seal aead nonce nonce data []) w'
| kyber768_recovers private ciphertext sharedSecret aead nonce w' buf :
    testKyber_encrypts kyber768_Scheme w private ciphertext sharedSecret aead nonce w' →
    buf = spec_kem_layout ciphertext nonce (Seal aead [] nonce data []) →
    testKyber_recovers kyber768_Scheme private data buf →
    TestAlgorithm_recovers data w "kyber768" buf w'
| kyber1024_recovers private ciphertext sharedSecret aead nonce w' buf :
    testKyber_encrypts kyber1024_Scheme w private ciphertext sharedSecret aead nonce w' →
    buf = spec_kem_layout ciphertext nonce (Seal aead [] nonce data []) →
    testKyber_recovers kyber1024_Scheme private data buf →
    TestAlgorithm_recovers data w "kyber1024" buf w'
| hybrid_recovers private aesKey ciphertext sharedSecret aead nonce
      aesKeyAead aesKeyNonce w' buf :
    testHybridKyberAES_encrypts kyber768_Scheme w private aesKey ciphertext
      sharedSecret aead nonce aesKeyAead aesKeyNonce w' →
    buf = spec_hybrid_layout ciphertext aesKeyNonce
            (Seal aesKeyAead [] aesKeyNonce aesKey []) nonce
            (Seal aead [] nonce data []) →
    testHybridKyberAES_recovers kyber768_Scheme private data buf →
    TestAlgorithm_recovers data w "hybrid-kyber768-aes256gcm" buf w'.

(** A run of the hybrid executor that serializes [buf] and then overruns
    the combined key. *)
Inductive testHybridKyberAES_panics (scheme : Scheme) (data : bytes) (w : Reader)
    : Reader → Prop :=
| testHybridKyberAES_panics_intro private aesKey ciphertext sharedSecret aead nonce
      aesKeyAead aesKeyNonce w' :
    testHybridKyberAES_encrypts scheme w private aesKey ciphertext
      sharedSecret aead nonce aesKeyAead aesKeyNonce w' →
    testHybridKyberAES_overruns scheme private
      (spec_hybrid_layout ciphertext aesKeyNonce
         (Seal aesKeyAead [] aesKeyNonce aesKey []) nonce
         (Seal aead [] nonce data [])) →
    testHybridKyberAES_panics scheme data w w'.

End Outcomes.

(** * The tunnel package (second half of the file)

    The tunnels are kept as files and as network interfaces; both are
    reached through libraries (os, os/user, path/filepath, viper, netlink,
    net, time), which enter as the interface [Platform] with the state of
    the machine, [World]. A function that changes the machine returns the
    new one; a function that only looks at it returns its answer alone.

    [getConfigDir] calls [user.Lookup], of os/user, which the import list
    of the file does not name; the call is read as that function. The calls
    of the logger package write lines to the console and to the log file
    and return nothing; they are left out, and the log is no part of
    [World]. *)

Module tunnel.

(** [type Status string] and its four constants *)
Definition Status := string.
Definition StatusDown : Status := "DOWN".
Definition StatusUp : Status := "UP".
Definition StatusError : Status := "ERROR".
Definition StatusUnknown : Status := "UNKNOWN".

(** [type Config struct] *)
Record Config := {
  Name : string;
  LocalIP : string;
  RemoteIP : string;
  LocalSubnet : string;
  RemoteSubnet : string;
  Encryption : string;
  PostQuantum : bool;
}.

(** [config.Encryption = value], on the callee's copy of the struct *)
Definition set_Encryption (value : string) (config : Config) : Config :=
  {| Name := Name config; LocalIP := LocalIP config; RemoteIP := RemoteIP config;
     LocalSubnet := LocalSubnet config; RemoteSubnet := RemoteSubnet config;
     Encryption := value; PostQuantum := PostQuantum config |}.

(** ** validateConfig *)

Definition validateConfig (config : Config) : option error :=
  if decide (Name config = "") then Some (errors_New "tunnel name cannot be empty")
  else if decide (LocalIP config = "") then
    Some (errors_New "local IP cannot be empty")
  else if decide (RemoteIP config = "") then
    Some (errors_New "remote IP cannot be empty")
  else if decide (LocalSubnet config = "") then
    Some (errors_New "local subnet cannot be empty")
  else if decide (RemoteSubnet config = "") then
    Some (errors_New "remote subnet cannot be empty")
  else
    (* Validate encryption algorithm *)
    if decide (Encryption config = "") then
      (* Default, assigned to the parameter: the caller's struct keeps its field *)
      let config := set_Encryption "aes256gcm" config in
      None
    else
      let valid := name_listed (Encryption config) ListClassicAlgorithms in
      let valid :=
        if negb valid && PostQuantum config then
          name_listed (Encryption config) ListPostQuantumAlgorithms
        else valid in
      if negb valid then
        Some (fmt_Errorf "invalid encryption algorithm: " (Encryption config))
      else None.

(** ** The platform *)

(** A value given to [v.Set]. *)
Inductive Value (T : Type) : Type :=
| VString (s : string)
| VBool (b : bool)
| VTime (t : T).
Arguments VString {T} s.
Arguments VBool {T} b.
Arguments VTime {T} t.

(** [netlink.Vti], for the fields the package fills in; [LinkName] is
    [LinkAttrs.Name]. *)
Record Vti (IP : Type) := {
  LinkName : string;
  IKey : Z;
  OKey : Z;
  Local : IP;
  Remote : IP;
}.
Arguments LinkName {IP} _.
Arguments IKey {IP} _.
Arguments OKey {IP} _.
Arguments Local {IP} _.
Arguments Remote {IP} _.

Class Platform := {
  World : Type;
  (** time *)
  time_Time : Type;
  time_Now : World → time_Time * World;
  (** runtime *)
  runtime_GOOS : string;
  (** os, os/user, path/filepath *)
  os_Getenv : string → World → string;
  os_UserHomeDir : World → res string;
  user_Lookup_HomeDir : string → World → res string;
  os_MkdirAll : string → World → option error * World;
  os_Stat : string → World → option error;
  os_IsNotExist : option error → bool;
  os_Remove : string → World → option error * World;
  os_Geteuid : World → Z;
  filepath_Join : list string → string;
  filepath_Glob : string → World → res (list string);
  filepath_Base : string → string;
  (** viper: the global instance, and an instance read from a file *)
  global_GetString : string → World → string;
  viper_WriteConfigAs :
    list (string * Value time_Time) → string → World → option error * World;
  Loaded : Type;
  viper_ReadInConfig : string → World → res Loaded;
  GetString : Loaded → string → string;
  GetBool : Loaded → string → bool;
  IsSet : Loaded → string → bool;
  GetTime : Loaded → string → time_Time;
  (** net and netlink *)
  net_IP : Type;
  net_ParseIP : string → option net_IP;
  netlink_Link : Type;
  FlagUp : netlink_Link → bool;
  netlink_LinkByName : string → World → res netlink_Link;
  netlink_LinkAdd : Vti net_IP → World → option error * World;
  netlink_LinkDel : netlink_Link → World → option error * World;
  netlink_LinkSetUp : netlink_Link → World → option error * World;
  netlink_LinkSetDown : netlink_Link → World → option error * World;
}.

(** [h := fnv.New32a(); h.Write([]byte(s)); h.Sum32()] *)
Definition fnv32a (s : string) : Z :=
  fold_left
    (λ h b, (Z.lxor h (Z.of_N (Byte.to_N b)) * 16777619) mod 2 ^ 32)%Z
    (list_byte_of_string s) 2166136261%Z.

Section Tunnels.
Context `{P : Platform}.

(** [type Tunnel struct] *)
Record Tunnel := {
  tunnel_Name : string;
  tunnel_LocalIP : string;
  tunnel_RemoteIP : string;
  tunnel_LocalSubnet : string;
  tunnel_RemoteSubnet : string;
  tunnel_Encryption : string;
  tunnel_PostQuantum : bool;
  tunnel_Status : Status;
  CreatedAt : time_Time;
  UpdatedAt : time_Time;
}.

(** [tunnel.Status = status] *)
Definition set_Status (status : Status) (tunnel : Tunnel) : Tunnel :=
  {| tunnel_Name := tunnel_Name tunnel; tunnel_LocalIP := tunnel_LocalIP tunnel;
     tunnel_RemoteIP := tunnel_RemoteIP tunnel;
     tunnel_LocalSubnet := tunnel_LocalSubnet tunnel;
     tunnel_RemoteSubnet := tunnel_RemoteSubnet tunnel;
     tunnel_Encryption := tunnel_Encryption tunnel;
     tunnel_PostQuantum := tunnel_PostQuantum tunnel;
     tunnel_Status := status;
     CreatedAt := CreatedAt tunnel; UpdatedAt := UpdatedAt tunnel |}.

(** [tunnel.UpdatedAt = t] *)
Definition set_UpdatedAt (t : time_Time) (tunnel : Tunnel) : Tunnel :=
  {| tunnel_Name := tunnel_Name tunnel; tunnel_LocalIP := tunnel_LocalIP tunnel;
     tunnel_RemoteIP := tunnel_RemoteIP tunnel;
     tunnel_LocalSubnet := tunnel_LocalSubnet tunnel;
     tunnel_RemoteSubnet := tunnel_RemoteSubnet tunnel;
     tunnel_Encryption := tunnel_Encryption tunnel;
     tunnel_PostQuantum := tunnel_PostQuantum tunnel;
     tunnel_Status := tunnel_Status tunnel;
     CreatedAt := CreatedAt tunnel; UpdatedAt := t |}.

(** ** Helper functions *)

Definition getConfigDir (w : World) : res string * World :=
  (* Check if config directory is set in viper *)
  let configDir := global_GetString "config_dir" w in
  if decide (configDir ≠ "") then (Ok configDir, w)
  else
    (* Use default config directory; check if running with sudo *)
    let sudoUser := os_Getenv "SUDO_USER" w in
    let home :=
      if decide (sudoUser ≠ "") then user_Lookup_HomeDir sudoUser w
      else os_UserHomeDir w in
    match home with
    | Err err => (Err err, w)
    | Ok home =>
        let configDir := filepath_Join [home; ".ipsec-vpn"] in
        (* Create config directory if it doesn't exist *)
        match os_MkdirAll (filepath_Join [configDir; "tunnels"]) w with
        | (Some err, w) => (Err err, w)
        | (None, w) => (Ok configDir, w)
        end
    end.

Definition saveTunnel (tunnel : Tunnel) (w : World) : option error * World :=
  match getConfigDir w with
  | (Err err, w) => (Some err, w)
  | (Ok configDir, w) =>
      (* Create tunnels directory if it doesn't exist *)
      let tunnelsDir := filepath_Join [configDir; "tunnels"] in
      match os_MkdirAll tunnelsDir w with
      | (Some err, w) => (Some err, w)
      | (None, w) =>
          (* Set tunnel configuration on a new viper instance *)
          let v :=
            [ ("name", VString (tunnel_Name tunnel));
              ("local_ip", VString (tunnel_LocalIP tunnel));
              ("remote_ip", VString (tunnel_RemoteIP tunnel));
              ("local_subnet", VString (tunnel_LocalSubnet tunnel));
              ("remote_subnet", VString (tunnel_RemoteSubnet tunnel));
              ("encryption", VString (tunnel_Encryption tunnel));
              ("post_quantum", VBool (tunnel_PostQuantum tunnel));
              ("status", VString (tunnel_Status tunnel));
              ("created_at", VTime (CreatedAt tunnel));
              ("updated_at", VTime (UpdatedAt tunnel)) ] in
          (* Save configuration to file *)
          let configFile := filepath_Join [tunnelsDir; tunnel_Name tunnel +:+ ".json"] in
          viper_WriteConfigAs v configFile w
      end
  end.

Definition loadTunnel (name : string) (w : World) : res Tunnel * World :=
  match getConfigDir w with
  | (Err err, w) => (Err err, w)
  | (Ok configDir, w) =>
      (* Check if tunnel config exists *)
      let configFile := filepath_Join [configDir; "tunnels"; name +:+ ".json"] in
      if os_IsNotExist (os_Stat configFile w) then
        (Err ("tunnel '" +:+ name +:+ "' not found"), w)
      else
        (* Read configuration *)
        match viper_ReadInConfig configFile w with
        | Err err => (Err err, w)
        | Ok v =>
            (* Parse timestamps *)
            let '(createdAt, w) :=
              if IsSet v "created_at" then (GetTime v "created_at", w)
              else time_Now w in
            let '(updatedAt, w) :=
              if IsSet v "updated_at" then (GetTime v "updated_at", w)
              else time_Now w in
            (Ok {| tunnel_Name := GetString v "name";
                   tunnel_LocalIP := GetString v "local_ip";
                   tunnel_RemoteIP := GetString v "remote_ip";
                   tunnel_LocalSubnet := GetString v "local_subnet";
                   tunnel_RemoteSubnet := GetString v "remote_subnet";
                   tunnel_Encryption := GetString v "encryption";
                   tunnel_PostQuantum := GetBool v "post_quantum";
                   tunnel_Status := GetString v "status";
                   CreatedAt := createdAt;
                   UpdatedAt := updatedAt |}, w)
        end
  end.

Definition deleteTunnelConfig (name : string) (w : World) : option error * World :=
  match getConfigDir w with
  | (Err err, w) => (Some err, w)
  | (Ok configDir, w) =>
      (* Delete tunnel config file *)
      let configFile := filepath_Join [configDir; "tunnels"; name +:+ ".json"] in
      if os_IsNotExist (os_Stat configFile w) then
        (None, w) (* File doesn't exist, nothing to delete *)
      else os_Remove configFile w
  end.

Definition createTunnelInterface (tunnel : Tunnel) (w : World)
    : option error * World :=
  (* Check if running on macOS *)
  if decide (runtime_GOOS = "darwin") then (None, w)
  (* Check for root privileges *)
  else if decide (os_Geteuid w ≠ 0%Z) then
    (Some "must run as root to create tunnel interfaces", w)
  (* Check if ip_vti kernel module is loaded *)
  else if os_IsNotExist (os_Stat "/proc/net/vti" w) then
    (Some "ip_vti kernel module not loaded. Run 'sudo modprobe ip_vti'", w)
  else
    (* Validate IP addresses *)
    match net_ParseIP (tunnel_LocalIP tunnel), net_ParseIP (tunnel_RemoteIP tunnel) with
    | Some localIP, Some remoteIP =>
        (* Generate a unique key for the tunnel based on its name *)
        let key := fnv32a (tunnel_Name tunnel) in
        let vti :=
          {| LinkName := "ipsec-" +:+ tunnel_Name tunnel;
             IKey := key; OKey := key; Local := localIP; Remote := remoteIP |} in
        (* Add the tunnel interface *)
        match netlink_LinkAdd vti w with
        | (Some err, w) => (Some ("failed to create tunnel interface: " +:+ err), w)
        | (None, w) => (None, w)
        end
    | _, _ =>
        (Some ("invalid LocalIP or RemoteIP for tunnel: " +:+ tunnel_LocalIP tunnel
               +:+ ", " +:+ tunnel_RemoteIP tunnel), w)
    end.

Definition deleteTunnelInterface (tunnel : Tunnel) (w : World)
    : option error * World :=
  if decide (runtime_GOOS = "darwin") then (None, w)
  else
    match netlink_LinkByName ("ipsec-" +:+ tunnel_Name tunnel) w with
    | Err _ => (None, w) (* Interface doesn't exist, nothing to delete *)
    | Ok link =>
        match netlink_LinkDel link w with
        | (Some err, w) => (Some ("failed to delete tunnel interface: " +:+ err), w)
        | (None, w) => (None, w)
        end
    end.

Definition startTunnel (tunnel : Tunnel) (w : World) : option error * World :=
  if decide (runtime_GOOS = "darwin") then (None, w)
  else
    match netlink_LinkByName ("ipsec-" +:+ tunnel_Name tunnel) w with
    | Err err => (Some ("tunnel interface not found: " +:+ err), w)
    | Ok link =>
        (* Bring the interface up *)
        match netlink_LinkSetUp link w with
        | (Some err, w) => (Some ("failed to bring tunnel interface up: " +:+ err), w)
        | (None, w) => (None, w)
        end
    end.

Definition stopTunnel (tunnel : Tunnel) (w : World) : option error * World :=
  if decide (runtime_GOOS = "darwin") then (None, w)
  else
    match netlink_LinkByName ("ipsec-" +:+ tunnel_Name tunnel) w with
    | Err _ => (None, w) (* Interface doesn't exist, nothing to stop *)
    | Ok link =>
        (* Bring the interface down *)
        match netlink_LinkSetDown link w with
        | (Some err, w) =>
            (Some ("failed to bring tunnel interface down: " +:+ err), w)
        | (None, w) => (None, w)
        end
    end.

Definition getTunnelStatus (tunnel : Tunnel) (w : World) : Status * option error :=
  (* For macOS, the stored status *)
  if decide (runtime_GOOS = "darwin") then (tunnel_Status tunnel, None)
  else
    match netlink_LinkByName ("ipsec-" +:+ tunnel_Name tunnel) w with
    | Err _ => (StatusDown, None) (* Interface doesn't exist, tunnel is down *)
    | Ok link =>
        (* Check if the interface is up *)
        if FlagUp link then (StatusUp, None) else (StatusDown, None)
    end.

(** ** The operations on tunnels *)

Definition Get (name : string) (w : World) : res Tunnel * World :=
  (* Load tunnel configuration *)
  match loadTunnel name w with
  | (Err err, w) => (Err err, w)
  | (Ok tunnel, w) =>
      (* Update status *)
      match getTunnelStatus tunnel w with
      | (_, Some _) => (Ok (set_Status StatusUnknown tunnel), w)
      | (status, None) => (Ok (set_Status status tunnel), w)
      end
  end.

Definition Create (config : Config) (w : World)
    : (option Tunnel * option error) * World :=
  (* Validate configuration *)
  match validateConfig config with
  | Some err => ((None, Some err), w)
  | None =>
      (* Check if tunnel already exists *)
      match Get (Name config) w with
      | (Ok _, w) =>
          ((None, Some ("tunnel with name '" +:+ Name config +:+ "' already exists")), w)
      | (Err _, w) =>
          (* Create tunnel object *)
          let '(createdAt, w) := time_Now w in
          let '(updatedAt, w) := time_Now w in
          let tunnel :=
            {| tunnel_Name := Name config;
               tunnel_LocalIP := LocalIP config;
               tunnel_RemoteIP := RemoteIP config;
               tunnel_LocalSubnet := LocalSubnet config;
               tunnel_RemoteSubnet := RemoteSubnet config;
               tunnel_Encryption := Encryption config;
               tunnel_PostQuantum := PostQuantum config;
               tunnel_Status := StatusDown;
               CreatedAt := createdAt;
               UpdatedAt := updatedAt |} in
          (* Save tunnel configuration *)
          match saveTunnel tunnel w with
          | (Some err, w) => ((None, Some err), w)
          | (None, w) =>
              (* Create the actual tunnel interface *)
              match createTunnelInterface tunnel w with
              | (Some err, w) =>
                  (* Cleanup on failure *)
                  let '(_, w) := deleteTunnelConfig (Name config) w in
                  ((None, Some err), w)
              | (None, w) =>
                  (* Start the tunnel *)
                  match startTunnel tunnel w with
                  | (Some err, w) =>
                      (* Cleanup on failure *)
                      let '(_, w) := deleteTunnelInterface tunnel w in
                      let '(_, w) := deleteTunnelConfig (Name config) w in
                      ((None, Some err), w)
                  | (None, w) =>
                      (* Update status *)
                      let tunnel := set_Status StatusUp tunnel in
                      match saveTunnel tunnel w with
                      | (Some err, w) => ((None, Some err), w)
                      | (None, w) => ((Some tunnel, None), w)
                      end
                  end
              end
          end
      end
  end.

Definition Start (name : string) (w : World) : option error * World :=
  match Get name w with
  | (Err err, w) => (Some err, w)
  | (Ok tunnel, w) =>
      (* Check if tunnel is already up *)
      if decide (tunnel_Status tunnel = StatusUp) then (None, w)
      else
        match startTunnel tunnel w with
        | (Some err, w) => (Some err, w)
        | (None, w) =>
            (* Update status *)
            let tunnel := set_Status StatusUp tunnel in
            let '(now, w) := time_Now w in
            let tunnel := set_UpdatedAt now tunnel in
            match saveTunnel tunnel w with
            | (Some err, w) => (Some err, w)
            | (None, w) => (None, w)
            end
        end
  end.

Definition Stop (name : string) (w : World) : option error * World :=
  match Get name w with
  | (Err err, w) => (Some err, w)
  | (Ok tunnel, w) =>
      (* Check if tunnel is already down *)
      if decide (tunnel_Status tunnel = StatusDown) then (None, w)
      else
        match stopTunnel tunnel w with
        | (Some err, w) => (Some err, w)
        | (None, w) =>
            (* Update status *)
            let tunnel := set_Status StatusDown tunnel in
            let '(now, w) := time_Now w in
            let tunnel := set_UpdatedAt now tunnel in
            match saveTunnel tunnel w with
            | (Some err, w) => (Some err, w)
            | (None, w) => (None, w)
            end
        end
  end.

Definition Delete (name : string) (force : bool) (w : World) : option error * World :=
  match Get name w with
  | (Err err, w) =>
      if force then
        (* If forced, try to delete config even if tunnel doesn't exist *)
        deleteTunnelConfig name w
      else (Some err, w)
  | (Ok tunnel, w) =>
      (* Stop the tunnel if it's running *)
      if bool_decide (tunnel_Status tunnel = StatusUp) && negb force then
        (Some (errors_New "tunnel is active, stop it first or use --force"), w)
      else
        let w :=
          if decide (tunnel_Status tunnel = StatusUp) then (stopTunnel tunnel w).2
          else w in
        (* Delete tunnel interface *)
        match deleteTunnelInterface tunnel w with
        | (Some err, w) =>
            if negb force then (Some err, w)
            else deleteTunnelConfig name w
        | (None, w) =>
            (* Delete tunnel configuration *)
            deleteTunnelConfig name w
        end
  end.

(** [name[:len(name)-5]]: out of range when the name has fewer than five
    bytes. *)
Definition drop_extension (name : string) : option string :=
  if decide (5 ≤ String.length name) then
    Some (String.substring 0 (String.length name - 5) name)
  else None.

(** What [ListAll] does: it returns, or the slice above is out of range. *)
Inductive listed : Type :=
| Listed (tunnels : list Tunnel) (err : option error)
| ListPanic (msg : string).

(** The loop of [ListAll] over the files that are left. *)
Fixpoint ListAll_loop (files : list string) (tunnels : list Tunnel) (w : World)
    : listed * World :=
  match files with
  | [] => (Listed tunnels None, w)
  | file :: files =>
      let name := filepath_Base file in
      match drop_extension name with
      | None => (ListPanic "slice bounds out of range", w)
      | Some name =>
          match Get name w with
          | (Err _, w) => ListAll_loop files tunnels w (* Skip tunnels with errors *)
          | (Ok tunnel, w) => ListAll_loop files (tunnels ++ [tunnel]) w
          end
      end
  end.

Definition ListAll (w : World) : listed * World :=
  match getConfigDir w with
  | (Err err, w) => (Listed [] (Some err), w)
  | (Ok configDir, w) =>
      (* List all tunnel config files *)
      let pattern := filepath_Join [configDir; "tunnels"; "*.json"] in
      match filepath_Glob pattern w with
      | Err err => (Listed [] (Some err), w)
      | Ok files => ListAll_loop files [] w
      end
  end.

End Tunnels.

End tunnel.

(** ** Runtimes that break more contracts *)

Module Faults.

(** A KEM with secrets of 16 bytes, an AES-128 key for [aes.NewCipher];
    its decapsulation never fails. *)
Definition short_scheme (K : nat) : kem_Scheme (bytes * nat) bytes bytes := {|
  GenerateKeyPair := GenerateKeyPair (Toy.scheme x00 K);
  Encapsulate public w :=
    match io_ReadFull Toy.read 16 w with
    | (Err err, w) => (Err err, w)
    | (Ok secret, w) =>
        (Ok ((Toy.bxor (Toy.mask public) <$> secret) ++ replicate (K - 16) x00,
             secret), w)
    end;
  Decapsulate private ciphertext :=
    Ok (Toy.bxor (Toy.mask private) <$> take 16 ciphertext);
  CiphertextSize := K;
|}.

(** This KEM with the cipher that opens everything to the empty plaintext:
    the decapsulated secret and the unwrapped key have 16 bytes together. *)
Definition short_runtime : Runtime := {|
  Reader := bytes * nat;
  rand_Read := Toy.read;
  cipher_Block := bytes;
  aes_NewCipher := Toy.NewCipher;
  cipher_NewGCM block := Ok (Toy.forgetful block);
  chacha20poly1305_New := Toy.New Toy.forgetful;
  kem_PublicKey := bytes;
  kem_PrivateKey := bytes;
  kyber768_Scheme := short_scheme 1088;
  kyber1024_Scheme := short_scheme 1568;
  ConfigFile := gmap string string;
  viper_WriteConfig settings _ := (None, settings);
|}.

(** The reference runtime with a configuration file that cannot be
    written. *)
Definition readonly_runtime : Runtime := {|
  Reader := bytes * nat;
  rand_Read := Toy.read;
  cipher_Block := bytes;
  aes_NewCipher := Toy.NewCipher;
  cipher_NewGCM block := Ok (Toy.aead block);
  chacha20poly1305_New := Toy.New Toy.aead;
  kem_PublicKey := bytes;
  kem_PrivateKey := bytes;
  kyber768_Scheme := Toy.scheme x00 1088;
  kyber1024_Scheme := Toy.scheme x00 1568;
  ConfigFile := gmap string string;
  viper_WriteConfig _ file := (Some "read-only file system", file);
|}.

(** Viper with nothing below the values given with [viper.Set]. *)
Definition nothing_below (key : string) : string := "".

End Faults.

(** ** A reference machine

    A small machine to run the tunnel package on: the files are the tunnel
    files with what viper wrote to them, an interface is a name with its up
    flag, the clock ticks at every reading. The process is root and the vti
    module is loaded. *)
Module Host.

Record Machine := {
  files : list (string * list (string * tunnel.Value nat));
  links : list (string * bool);
  clock : nat;
}.

Fixpoint lookup_key {A : Type} (key : string) (l : list (string * A)) : option A :=
  match l with
  | [] => None
  | (k, v) :: l => if decide (k = key) then Some v else lookup_key key l
  end.

Fixpoint remove_key {A : Type} (key : string) (l : list (string * A))
    : list (string * A) :=
  match l with
  | [] => []
  | (k, v) :: l =>
      if decide (k = key) then remove_key key l else (k, v) :: remove_key key l
  end.

Definition put {A : Type} (key : string) (v : A) (l : list (string * A))
    : list (string * A) :=
  remove_key key l ++ [(key, v)].

Definition not_found : error := "no such file or directory".

(** The last element of a path. *)
Fixpoint base_from (acc path : string) : string :=
  match path with
  | EmptyString => acc
  | String c path =>
      if decide (String c "" = "/") then base_from "" path
      else base_from (acc +:+ String c "") path
  end.

Definition platform_on (goos : string) : tunnel.Platform := {|
  tunnel.World := Machine;
  tunnel.time_Time := nat;
  tunnel.time_Now w :=
    (clock w, {| files := files w; links := links w; clock := S (clock w) |});
  tunnel.runtime_GOOS := goos;
  tunnel.os_Getenv _ _ := "";
  tunnel.os_UserHomeDir _ := Ok "/root";
  tunnel.user_Lookup_HomeDir username _ := Ok ("/home/" +:+ username);
  tunnel.os_MkdirAll _ w := (None, w);
  tunnel.os_Stat path w :=
    if decide (path = "/proc/net/vti") then None
    else match lookup_key path (files w) with
         | Some _ => None
         | None => Some not_found
         end;
  tunnel.os_IsNotExist err := bool_decide (err = Some not_found);
  tunnel.os_Remove path w :=
    (None, {| files := remove_key path (files w); links := links w;
              clock := clock w |});
  tunnel.os_Geteuid _ := 0%Z;
  tunnel.filepath_Join elem := String.concat "/" elem;
  tunnel.filepath_Glob _ w := Ok (fst <$> files w);
  tunnel.filepath_Base path := base_from "" path;
  tunnel.global_GetString _ _ := "";
  tunnel.viper_WriteConfigAs v path w :=
    (None, {| files := put path v (files w); links := links w; clock := clock w |});
  tunnel.Loaded := list (string * tunnel.Value nat);
  tunnel.viper_ReadInConfig path w :=
    match lookup_key path (files w) with
    | Some v => Ok v
    | None => Err not_found
    end;
  tunnel.GetString v key :=
    match lookup_key key v with
    | Some (tunnel.VString s) => s
    | _ => ""
    end;
  tunnel.GetBool v key :=
    match lookup_key key v with
    | Some (tunnel.VBool b) => b
    | _ => false
    end;
  tunnel.IsSet v key := bool_decide (is_Some (lookup_key key v));
  tunnel.GetTime v key :=
    match lookup_key key v with
    | Some (tunnel.VTime t) => t
    | _ => 0
    end;
  tunnel.net_IP := string;
  tunnel.net_ParseIP s := if decide (s = "") then None else Some s;
  tunnel.netlink_Link := string * bool;
  tunnel.FlagUp link := link.2;
  tunnel.netlink_LinkByName name w :=
    match lookup_key name (links w) with
    | Some up => Ok (name, up)
    | None => Err "Link not found"
    end;
  tunnel.netlink_LinkAdd vti w :=
    match lookup_key (tunnel.LinkName vti) (links w) with
    | Some _ => (Some "file exists", w)
    | None =>
        (None, {| files := files w;
                  links := links w ++ [(tunnel.LinkName vti, false)];
                  clock := clock w |})
    end;
  tunnel.netlink_LinkDel link w :=
    (None, {| files := files w; links := remove_key link.1 (links w);
              clock := clock w |});
  tunnel.netlink_LinkSetUp link w :=
    (None, {| files := files w; links := put link.1 true (links w);
              clock := clock w |});
  tunnel.netlink_LinkSetDown link w :=
    (None, {| files := files w; links := put link.1 false (links w);
              clock := clock w |});
|}.

Definition platform : tunnel.Platform := platform_on "linux".

(** The machine before the first tunnel. *)
Definition boot : Machine := {| files := []; links := []; clock := 0 |}.

(** Two configurations: one that leaves the encryption to the default, one
    with a post-quantum name. *)
Definition office : tunnel.Config := {|
  tunnel.Name := "office";
  tunnel.LocalIP := "203.0.113.1";
  tunnel.RemoteIP := "198.51.100.1";
  tunnel.LocalSubnet := "10.1.0.0/16";
  tunnel.RemoteSubnet := "10.2.0.0/16";
  tunnel.Encryption := "";
  tunnel.PostQuantum := false;
|}.

Definition lab (postQuantum : bool) : tunnel.Config := {|
  tunnel.Name := "lab";
  tunnel.LocalIP := "203.0.113.1";
  tunnel.RemoteIP := "198.51.100.7";
  tunnel.LocalSubnet := "10.1.0.0/16";
  tunnel.RemoteSubnet := "10.3.0.0/16";
  tunnel.Encryption := "kyber1024";
  tunnel.PostQuantum := postQuantum;
|}.


(** The machine after [Create] of the first, and of both. *)
Definition one_tunnel : Machine := (@tunnel.Create platform office boot).2.
Definition two_tunnels : Machine := (@tunnel.Create platform (lab true) one_tunnel).2.

(** The machine with the first tunnel, after its interface has gone. *)
Definition unplugged : Machine :=
  {| files := files one_tunnel; links := []; clock := clock one_tunnel |}.

End Host.

(** * Properties *)

Arguments io_ReadFull : simpl never.

Section Properties.
Context `{RT : Runtime}.

Implicit Types (data buf nonce sealed kemCiphertext : bytes).
Implicit Types (result : TestResult) (w : Reader).
Implicit Types (scheme : kem_Scheme Reader kem_PublicKey kem_PrivateKey).

(** ** The random source *)

Lemma io_ReadFull_length {R : Type} (r : R → res byte * R) n (w w' : R) buf :
  io_ReadFull r n w = (Ok buf, w') → length buf = n.
Proof.
  revert w w' buf.
  induction n as [|n IH]; intros w w' buf; unfold io_ReadFull; fold (@io_ReadFull R).
  - by intros [= <- _].
  - destruct (r w) as [[b|?] w1]; [|done].
    destruct (io_ReadFull r n w1) as [[tail|?] w2] eqn:Htail; [|done].
    intros [= <- _]. simpl. f_equal. by eapply IH.
Qed.

Lemma io_ReadFull_delivers n w :
  rand_delivers →
  ∃ buf w', io_ReadFull rand_Reader n w = (Ok buf, w') ∧ length buf = n.
Proof.
  intros Hrand. revert w.
  induction n as [|n IH]; intros w; unfold io_ReadFull; fold (@io_ReadFull Reader).
  - by exists [], w.
  - unfold rand_Reader at 1. destruct (Hrand w) as (b & w1 & ->).
    destruct (IH w1) as (tail & w2 & -> & Hlen).
    exists (b :: tail), w2. simpl. by rewrite Hlen.
Qed.

(** ** Slices *)

Lemma slice_to_Some n (s : bytes) :
  n ≤ length s → slice_to n s = Some (take n s).
Proof. intros. unfold slice_to. by rewrite decide_True. Qed.

Lemma slice_to_None n (s : bytes) :
  length s < n → slice_to n s = None.
Proof. intros. unfold slice_to. rewrite decide_False; [done | lia]. Qed.

(** The payload key is cut from a buffer that is long enough as soon as the
    symmetric key alone has 32 bytes. *)
Lemma slice_to_payload_key (sharedSecret symmetricKey : bytes) :
  32 ≤ length (sharedSecret ++ symmetricKey) →
  slice_to 32 (sharedSecret ++ symmetricKey)
  = Some (spec_payload_key sharedSecret symmetricKey).
Proof. apply slice_to_Some. Qed.

(** ** Verdicts *)

Lemma verdict_same data result :
  verdict data data result = Return (Some (set_DecryptionSuccessful true result)) None.
Proof. unfold verdict. by rewrite bool_decide_eq_true_2. Qed.

Lemma verdict_differs plaintext data result :
  plaintext ≠ data → verdict plaintext data result = soft result.
Proof. intros. unfold verdict, soft. by rewrite bool_decide_eq_false_2. Qed.

(** ** The encryption halves

    Each executor, once its encryption half has gone through, is its
    decryption half run on the buffer it has just serialized. *)

Lemma testAES256GCM_runs_decrypt data result w aead nonce w' :
  testAES256GCM_encrypts w aead nonce w' →
  testAES256GCM data result w
  = (testAES256GCM_decrypt aead data (Seal aead nonce nonce data [])
       (set_Encrypted (Seal aead nonce nonce data []) result), w').
Proof.
  intros [key w1 block aead' nonce' w2 Hkey Hblock Haead Hnonce].
  unfold testAES256GCM. by rewrite Hkey, Hblock, Haead, Hnonce.
Qed.

Lemma testChaCha20Poly1305_runs_decrypt data result w aead nonce w' :
  testChaCha20Poly1305_encrypts w aead nonce w' →
  testChaCha20Poly1305 data result w
  = (testChaCha20Poly1305_decrypt aead data (Seal aead nonce nonce data [])
       (set_Encrypted (Seal aead nonce nonce data []) result), w').
Proof.
  intros [key w1 aead' nonce' w2 Hkey Haead Hnonce].
  unfold testChaCha20Poly1305. by rewrite Hkey, Haead, Hnonce.
Qed.

Lemma testKyber_runs_decrypt scheme data result w private ciphertext sharedSecret
    aead nonce w' :
  testKyber_encrypts scheme w private ciphertext sharedSecret aead nonce w' →
  testKyber scheme data result w
  = (testKyber_decrypt scheme private data
       (set_Encrypted
          (spec_kem_layout ciphertext nonce (Seal aead [] nonce data [])) result), w').
Proof.
  intros [public private' w1 ct ss w2 block aead' nonce' w3
            Hpair Hencaps Hblock Haead Hnonce].
  unfold testKyber. by rewrite Hpair, Hencaps, Hblock, Haead, Hnonce.
Qed.

Lemma testHybridKyberAES_runs_decrypt scheme data result w private aesKey
    ciphertext sharedSecret aead nonce aesKeyAead aesKeyNonce w' :
  testHybridKyberAES_encrypts scheme w private aesKey ciphertext sharedSecret
    aead nonce aesKeyAead aesKeyNonce w' →
  testHybridKyberAES scheme data result w
  = (testHybridKyberAES_decrypt scheme private data
       (set_Encrypted
          (spec_hybrid_layout ciphertext aesKeyNonce
             (Seal aesKeyAead [] aesKeyNonce aesKey [])
             nonce (Seal aead [] nonce data []))
          result), w').
Proof.
  intros [public private' w1 aesKey' w2 ct ss w3 block aead' nonce' w4
            keyBlock keyAead keyNonce w5
            Hpair Hkey Hencaps Hblock Haead Hnonce HkeyBlock HkeyAead HkeyNonce].
  unfold testHybridKyberAES. rewrite Hpair, Hkey, Hencaps.
  rewrite slice_to_payload_key.
  - by rewrite Hblock, Haead, Hnonce, HkeyBlock, HkeyAead, HkeyNonce.
  - apply io_ReadFull_length in Hkey. rewrite length_app. lia.
Qed.

(** ** The decryption halves on a buffer laid out in fields *)

(** Rewriting with the results of runtime calls that are among the
    hypotheses, and cutting fields of known length off a concatenation. *)
Ltac use_calls :=
  repeat match goal with
    | H : ?call = Ok _ |- context [?call] => rewrite H
    | H : ?call = Err _ |- context [?call] => rewrite H
    end.

Ltac cut_field :=
  first
    [ rewrite decide_False by (rewrite ?length_app; lia)
    | rewrite decide_True by (rewrite ?length_app; lia) ];
  rewrite ?take_app_length', ?drop_app_length' by congruence.

Lemma testAES256GCM_decrypt_fields aead data nonce sealed result :
  length nonce = NonceSize aead →
  testAES256GCM_decrypt aead data (spec_classic_layout nonce sealed) result
  = match Open aead [] nonce sealed [] with
    | Err _ => soft result
    | Ok plaintext => verdict plaintext data result
    end.
Proof.
  intros Hnonce. unfold testAES256GCM_decrypt, spec_classic_layout.
  by cut_field.
Qed.

Lemma testChaCha20Poly1305_decrypt_fields aead data nonce sealed result :
  length nonce = NonceSize aead →
  testChaCha20Poly1305_decrypt aead data (spec_classic_layout nonce sealed) result
  = match Open aead [] nonce sealed [] with
    | Err _ => soft result
    | Ok plaintext => verdict plaintext data result
    end.
Proof.
  intros Hnonce. unfold testChaCha20Poly1305_decrypt, spec_classic_layout.
  by cut_field.
Qed.

Lemma testKyber_decrypt_fields scheme private data result
    kemCiphertext nonce sealed sharedSecret block aead :
  Encrypted result = spec_kem_layout kemCiphertext nonce sealed →
  length kemCiphertext = CiphertextSize scheme →
  Decapsulate scheme private kemCiphertext = Ok sharedSecret →
  aes_NewCipher sharedSecret = Ok block →
  cipher_NewGCM block = Ok aead →
  length nonce = NonceSize aead →
  testKyber_decrypt scheme private data result
  = match Open aead [] nonce sealed [] with
    | Err _ => soft result
    | Ok plaintext => verdict plaintext data result
    end.
Proof.
  intros Hbuf Hkem Hdecaps Hblock Haead Hnonce.
  unfold testKyber_decrypt. rewrite Hbuf. unfold spec_kem_layout.
  cut_field. use_calls. by cut_field.
Qed.

(** After the KEM ciphertext, the unwrapping of the symmetric key. *)
Lemma testHybridKyberAES_decrypt_unwraps scheme private data result
    kemCiphertext keyNonce wrappedKey rest sharedSecret keyBlock keyAead :
  Encrypted result = kemCiphertext ++ keyNonce ++ wrappedKey ++ rest →
  length kemCiphertext = CiphertextSize scheme →
  Decapsulate scheme private kemCiphertext = Ok sharedSecret →
  aes_NewCipher sharedSecret = Ok keyBlock →
  cipher_NewGCM keyBlock = Ok keyAead →
  length keyNonce = NonceSize keyAead →
  length wrappedKey = 32 + 16 →
  testHybridKyberAES_decrypt scheme private data result
  = match Open keyAead [] keyNonce wrappedKey [] with
    | Err _ => soft result
    | Ok symmetricKey =>
        match slice_to 32 (sharedSecret ++ symmetricKey) with
        | None => Panic "slice bounds out of range"
        | Some payloadKey =>
            try block ← aes_NewCipher payloadKey;
            try aead ← cipher_NewGCM block;
            if decide (length rest < NonceSize aead) then
              fatal (errors_New "remaining ciphertext too short for data nonce")
            else
              match Open aead [] (take (NonceSize aead) rest)
                      (drop (NonceSize aead) rest) [] with
              | Err _ => soft result
              | Ok plaintext => verdict plaintext data result
              end
        end
    end.
Proof.
  intros Hbuf Hkem Hdecaps HkeyBlock HkeyAead HkeyNonce Hwrapped.
  unfold testHybridKyberAES_decrypt. rewrite Hbuf.
  cut_field. use_calls. cut_field. by cut_field.
Qed.

Lemma testHybridKyberAES_decrypt_fields scheme private data result
    kemCiphertext keyNonce wrappedKey dataNonce sealed
    sharedSecret keyBlock keyAead symmetricKey block aead :
  Encrypted result
  = spec_hybrid_layout kemCiphertext keyNonce wrappedKey dataNonce sealed →
  length kemCiphertext = CiphertextSize scheme →
  Decapsulate scheme private kemCiphertext = Ok sharedSecret →
  aes_NewCipher sharedSecret = Ok keyBlock →
  cipher_NewGCM keyBlock = Ok keyAead →
  length keyNonce = NonceSize keyAead →
  length wrappedKey = 32 + 16 →
  Open keyAead [] keyNonce wrappedKey [] = Ok symmetricKey →
  32 ≤ length (sharedSecret ++ symmetricKey) →
  aes_NewCipher (spec_payload_key sharedSecret symmetricKey) = Ok block →
  cipher_NewGCM block = Ok aead →
  length dataNonce = NonceSize aead →
  testHybridKyberAES_decrypt scheme private data result
  = match Open aead [] dataNonce sealed [] with
    | Err _ => soft result
    | Ok plaintext => verdict plaintext data result
    end.
Proof.
  intros Hbuf Hkem Hdecaps HkeyBlock HkeyAead HkeyNonce Hwrapped Hunwrap
    Hlong Hblock Haead HdataNonce.
  erewrite testHybridKyberAES_decrypt_unwraps by eauto.
  rewrite Hunwrap, slice_to_payload_key by done.
  use_calls. by cut_field.
Qed.

(** ** The dispatcher *)

Lemma TestAlgorithm_aes256gcm data w :
  TestAlgorithm "aes256gcm" data w = testAES256GCM data (blank "aes256gcm") w.
Proof. reflexivity. Qed.

Lemma TestAlgorithm_chacha20poly1305 data w :
  TestAlgorithm "chacha20poly1305" data w
  = testChaCha20Poly1305 data (blank "chacha20poly1305") w.
Proof. reflexivity. Qed.

Lemma TestAlgorithm_kyber768 data w :
  TestAlgorithm "kyber768" data w
  = testKyber kyber768_Scheme data (blank "kyber768") w.
Proof. reflexivity. Qed.

Lemma TestAlgorithm_kyber1024 data w :
  TestAlgorithm "kyber1024" data w
  = testKyber kyber1024_Scheme data (blank "kyber1024") w.
Proof. reflexivity. Qed.

Lemma TestAlgorithm_hybrid data w :
  TestAlgorithm "hybrid-kyber768-aes256gcm" data w
  = testHybridKyberAES kyber768_Scheme data (blank "hybrid-kyber768-aes256gcm") w.
Proof. reflexivity. Qed.

Lemma registered_names_cases (algorithm : string) :
  algorithm ∈ registered_names ↔
  algorithm = "aes256gcm" ∨ algorithm = "chacha20poly1305" ∨
  algorithm = "kyber768" ∨ algorithm = "kyber1024" ∨
  algorithm = "hybrid-kyber768-aes256gcm".
Proof.
  unfold registered_names. simpl.
  rewrite !elem_of_cons, elem_of_nil. tauto.
Qed.

Lemma TestAlgorithm_unregistered algorithm data w :
  algorithm ∉ registered_names →
  TestAlgorithm algorithm data w
  = (fatal (fmt_Errorf "unsupported algorithm: " algorithm), w).
Proof.
  rewrite registered_names_cases. intros Hnot.
  unfold TestAlgorithm. repeat case_decide; naive_solver.
Qed.

(** ** The executors over libraries that keep their contracts *)

Section Lawful.
Hypothesis rand_ok : rand_delivers.
Hypothesis gcm_ok : aes_gcm_law.

(** A GCM cipher for a 32-byte key, with a fresh nonce. *)
Lemma gcm_with_nonce key w :
  length key = 32 →
  ∃ block aead nonce w',
    aes_NewCipher key = Ok block ∧ cipher_NewGCM block = Ok aead ∧
    AEAD_law aead gcmStandardNonceSize gcmTagSize ∧
    io_ReadFull rand_Reader (NonceSize aead) w = (Ok nonce, w') ∧
    length nonce = NonceSize aead.
Proof.
  intros Hkey. destruct (gcm_ok key Hkey) as (block & aead & Hblock & Haead & Hlaw).
  destruct (io_ReadFull_delivers (NonceSize aead) w rand_ok)
    as (nonce & w' & Hnonce & Hlen).
  by exists block, aead, nonce, w'.
Qed.

Lemma testAES256GCM_lawful data result w :
  ∃ nonce sealed w',
    length nonce = gcmStandardNonceSize ∧
    length sealed = length data + gcmTagSize ∧
    testAES256GCM data result w
    = (Return (Some (set_DecryptionSuccessful true
                       (set_Encrypted (spec_classic_layout nonce sealed) result)))
         None, w').
Proof.
  destruct (io_ReadFull_delivers 32 w rand_ok) as (key & w1 & Hkey & Hlen).
  destruct (gcm_with_nonce key w1 Hlen)
    as (block & aead & nonce & w2 & Hblock & Haead & Hlaw & Hnonce & Hn).
  exists nonce, (Seal aead [] nonce data []), w2.
  split; [by rewrite Hn, (law_NonceSize _ _ _ Hlaw)|].
  split; [apply (law_Seal_length _ _ _ Hlaw)|].
  erewrite testAES256GCM_runs_decrypt by (econstructor; eauto).
  rewrite (law_Seal_dst _ _ _ Hlaw).
  fold (spec_classic_layout nonce (Seal aead [] nonce data [])).
  rewrite testAES256GCM_decrypt_fields by done.
  rewrite (law_Open_Seal _ _ _ Hlaw) by (by rewrite Hn, (law_NonceSize _ _ _ Hlaw)).
  by rewrite verdict_same.
Qed.

Lemma testKyber_lawful scheme data result w :
  kem_law scheme →
  ∃ kemCiphertext nonce sealed w',
    length kemCiphertext = CiphertextSize scheme ∧
    length nonce = gcmStandardNonceSize ∧
    length sealed = length data + gcmTagSize ∧
    testKyber scheme data result w
    = (Return (Some (set_DecryptionSuccessful true
                       (set_Encrypted (spec_kem_layout kemCiphertext nonce sealed) result)))
         None, w').
Proof.
  intros Hkem.
  destruct (Hkem w) as (public & private & w1 & Hpair & Hencaps).
  destruct (Hencaps w1) as (ct & ss & w2 & Henc & Hct & Hss & Hdecaps).
  destruct (gcm_with_nonce ss w2 Hss)
    as (block & aead & nonce & w3 & Hblock & Haead & Hlaw & Hnonce & Hn).
  exists ct, nonce, (Seal aead [] nonce data []), w3.
  split; [done|].
  split; [by rewrite Hn, (law_NonceSize _ _ _ Hlaw)|].
  split; [apply (law_Seal_length _ _ _ Hlaw)|].
  erewrite testKyber_runs_decrypt by (econstructor; eauto).
  erewrite testKyber_decrypt_fields by eauto.
  rewrite (law_Open_Seal _ _ _ Hlaw) by (by rewrite Hn, (law_NonceSize _ _ _ Hlaw)).
  by rewrite verdict_same.
Qed.

Lemma testHybridKyberAES_lawful scheme data result w :
  kem_law scheme →
  ∃ kemCiphertext keyNonce wrappedKey dataNonce sealed w',
    length kemCiphertext = CiphertextSize scheme ∧
    length keyNonce = gcmStandardNonceSize ∧
    length wrappedKey = 32 + gcmTagSize ∧
    length dataNonce = gcmStandardNonceSize ∧
    length sealed = length data + gcmTagSize ∧
    testHybridKyberAES scheme data result w
    = (Return (Some (set_DecryptionSuccessful true
                       (set_Encrypted
                          (spec_hybrid_layout kemCiphertext keyNonce wrappedKey
                             dataNonce sealed) result)))
         None, w').
Proof.
  intros Hkem.
  destruct (Hkem w) as (public & private & w1 & Hpair & Hencaps).
  destruct (io_ReadFull_delivers 32 w1 rand_ok) as (aesKey & w2 & Hkey & Hlen).
  destruct (Hencaps w2) as (ct & ss & w3 & Henc & Hct & Hss & Hdecaps).
  assert (Hlong : 32 ≤ length (ss ++ aesKey)) by (rewrite length_app; lia).
  assert (Hpayload : length (spec_payload_key ss aesKey) = 32).
  { unfold spec_payload_key. rewrite length_take. lia. }
  destruct (gcm_with_nonce _ w3 Hpayload)
    as (block & aead & nonce & w4 & Hblock & Haead & Hlaw & Hnonce & Hn).
  destruct (gcm_with_nonce ss w4 Hss)
    as (keyBlock & keyAead & keyNonce & w5
        & HkeyBlock & HkeyAead & HkeyLaw & HkeyNonce & Hkn).
  pose proof (law_NonceSize _ _ _ Hlaw) as HN.
  pose proof (law_NonceSize _ _ _ HkeyLaw) as HkN.
  assert (Hwrapped : length (Seal keyAead [] keyNonce aesKey []) = 32 + 16).
  { by rewrite (law_Seal_length _ _ _ HkeyLaw), Hlen. }
  exists ct, keyNonce, (Seal keyAead [] keyNonce aesKey []), nonce,
    (Seal aead [] nonce data []), w5.
  split; [done|].
  split; [congruence|].
  split; [done|].
  split; [congruence|].
  split; [apply (law_Seal_length _ _ _ Hlaw)|].
  erewrite testHybridKyberAES_runs_decrypt by (econstructor; eauto).
  erewrite testHybridKyberAES_decrypt_fields; eauto.
  - rewrite (law_Open_Seal _ _ _ Hlaw) by congruence. by rewrite verdict_same.
  - apply (law_Open_Seal _ _ _ HkeyLaw). congruence.
Qed.

End Lawful.

Lemma testChaCha20Poly1305_lawful data result w :
  rand_delivers → chacha20poly1305_law →
  ∃ nonce sealed w',
    length nonce = chacha20poly1305_NonceSize ∧
    length sealed = length data + chacha20poly1305_Overhead ∧
    testChaCha20Poly1305 data result w
    = (Return (Some (set_DecryptionSuccessful true
                       (set_Encrypted (spec_classic_layout nonce sealed) result)))
         None, w').
Proof.
  intros rand_ok chacha_ok.
  destruct (io_ReadFull_delivers chacha20poly1305_KeySize w rand_ok)
    as (key & w1 & Hkey & Hlen).
  destruct (chacha_ok key Hlen) as (aead & Haead & Hlaw).
  destruct (io_ReadFull_delivers (NonceSize aead) w1 rand_ok)
    as (nonce & w2 & Hnonce & Hn).
  exists nonce, (Seal aead [] nonce data []), w2.
  split; [by rewrite Hn, (law_NonceSize _ _ _ Hlaw)|].
  split; [apply (law_Seal_length _ _ _ Hlaw)|].
  erewrite testChaCha20Poly1305_runs_decrypt by (econstructor; eauto).
  rewrite (law_Seal_dst _ _ _ Hlaw).
  fold (spec_classic_layout nonce (Seal aead [] nonce data [])).
  rewrite testChaCha20Poly1305_decrypt_fields by done.
  rewrite (law_Open_Seal _ _ _ Hlaw) by (by rewrite Hn, (law_NonceSize _ _ _ Hlaw)).
  by rewrite verdict_same.
Qed.

(** ** Round trip, lengths and the unsupported name *)

Section Registered.
Hypothesis rand_ok : rand_delivers.
Hypothesis gcm_ok : aes_gcm_law.
Hypothesis chacha_ok : chacha20poly1305_law.
Hypothesis kyber768_ok : kem_law kyber768_Scheme.
Hypothesis kyber1024_ok : kem_law kyber1024_Scheme.

(** Over libraries that keep their contracts every registered name gets a
    result whose flag is true. *)
Lemma TestAlgorithm_lawful algorithm data w :
  algorithm ∈ registered_names →
  ∃ buf w',
    TestAlgorithm algorithm data w
    = (Return (Some {| result_Algorithm := algorithm; Encrypted := buf;
                       DecryptionSuccessful := true |}) None, w').
Proof.
  rewrite registered_names_cases. intros [-> | [-> | [-> | [-> | ->]]]].
  - destruct (testAES256GCM_lawful rand_ok gcm_ok data (blank "aes256gcm") w)
      as (nonce & sealed & w' & _ & _ & Hrun).
    rewrite TestAlgorithm_aes256gcm, Hrun. by eexists _, _.
  - destruct (testChaCha20Poly1305_lawful data (blank "chacha20poly1305") w
                rand_ok chacha_ok)
      as (nonce & sealed & w' & _ & _ & Hrun).
    rewrite TestAlgorithm_chacha20poly1305, Hrun. by eexists _, _.
  - destruct (testKyber_lawful rand_ok gcm_ok kyber768_Scheme data
                (blank "kyber768") w kyber768_ok)
      as (kemCiphertext & nonce & sealed & w' & _ & _ & _ & Hrun).
    rewrite TestAlgorithm_kyber768, Hrun. by eexists _, _.
  - destruct (testKyber_lawful rand_ok gcm_ok kyber1024_Scheme data
                (blank "kyber1024") w kyber1024_ok)
      as (kemCiphertext & nonce & sealed & w' & _ & _ & _ & Hrun).
    rewrite TestAlgorithm_kyber1024, Hrun. by eexists _, _.
  - destruct (testHybridKyberAES_lawful rand_ok gcm_ok kyber768_Scheme data
                (blank "hybrid-kyber768-aes256gcm") w kyber768_ok)
      as (kemCiphertext & keyNonce & wrappedKey & dataNonce & sealed & w'
          & _ & _ & _ & _ & _ & Hrun).
    rewrite TestAlgorithm_hybrid, Hrun. by eexists _, _.
Qed.


(** C2. A name that is not registered gets, whatever the data, a nil result
    and the error "unsupported algorithm: <name>", and the random source is
    left as it was. It is the only rejection of an input: over libraries
    that keep their contracts, [TestAlgorithm] returns an error only for a
    name that is not registered. *)
Theorem TestAlgorithm_unsupported algorithm data w :
  (algorithm ∉ registered_names →
   TestAlgorithm algorithm data w
   = (Return None (Some ("unsupported algorithm: " +:+ algorithm)), w)) ∧
  (∀ (returned_result : option TestResult) err w',
     TestAlgorithm algorithm data w = (Return returned_result (Some err), w') →
     algorithm ∉ registered_names).
Proof.
  split.
  - apply TestAlgorithm_unregistered.
  - intros returned_result err w' Hrun Hin.
    destruct (TestAlgorithm_lawful algorithm data w Hin) as (buf & w1 & Hok).
    congruence.
Qed.

(** C4. The length of the serialized ciphertext is fixed by the length of
    the plaintext and the sizes of the algorithm: N + n + T for the two
    classic schemes, K + N + n + T for the two KEM schemes, and
    K + 2N + S + 2T + n for the hybrid scheme, with S = 32. *)
Theorem Encrypted_length data w :
  let n := length data in
  let produces algorithm size :=
    ∃ result w',
      TestAlgorithm algorithm data w = (Return (Some result) None, w') ∧
      length (Encrypted result) = size in
  produces "aes256gcm" (spec_classic_length gcmStandardNonceSize gcmTagSize n) ∧
  produces "chacha20poly1305"
    (spec_classic_length chacha20poly1305_NonceSize chacha20poly1305_Overhead n) ∧
  produces "kyber768"
    (spec_kem_length (CiphertextSize kyber768_Scheme)
       gcmStandardNonceSize gcmTagSize n) ∧
  produces "kyber1024"
    (spec_kem_length (CiphertextSize kyber1024_Scheme)
       gcmStandardNonceSize gcmTagSize n) ∧
  produces "hybrid-kyber768-aes256gcm"
    (spec_hybrid_length (CiphertextSize kyber768_Scheme)
       gcmStandardNonceSize 32 gcmTagSize n).
Proof.
  intros n produces. subst n produces. cbv beta.
  unfold spec_classic_length, spec_kem_length, spec_hybrid_length.
  split; [|split; [|split; [|split]]].
  - destruct (testAES256GCM_lawful rand_ok gcm_ok data (blank "aes256gcm") w)
      as (nonce & sealed & w' & Hn & Hs & Hrun).
    rewrite TestAlgorithm_aes256gcm, Hrun. eexists _, _. split; [done|].
    cbn [Encrypted set_DecryptionSuccessful set_Encrypted].
    unfold spec_classic_layout. rewrite length_app, Hn, Hs. lia.
  - destruct (testChaCha20Poly1305_lawful data (blank "chacha20poly1305") w
                rand_ok chacha_ok)
      as (nonce & sealed & w' & Hn & Hs & Hrun).
    rewrite TestAlgorithm_chacha20poly1305, Hrun. eexists _, _. split; [done|].
    cbn [Encrypted set_DecryptionSuccessful set_Encrypted].
    unfold spec_classic_layout. rewrite length_app, Hn, Hs. lia.
  - destruct (testKyber_lawful rand_ok gcm_ok kyber768_Scheme data
                (blank "kyber768") w kyber768_ok)
      as (kemCiphertext & nonce & sealed & w' & Hk & Hn & Hs & Hrun).
    rewrite TestAlgorithm_kyber768, Hrun. eexists _, _. split; [done|].
    cbn [Encrypted set_DecryptionSuccessful set_Encrypted].
    unfold spec_kem_layout. rewrite !length_app, Hk, Hn, Hs. lia.
  - destruct (testKyber_lawful rand_ok gcm_ok kyber1024_Scheme data
                (blank "kyber1024") w kyber1024_ok)
      as (kemCiphertext & nonce & sealed & w' & Hk & Hn & Hs & Hrun).
    rewrite TestAlgorithm_kyber1024, Hrun. eexists _, _. split; [done|].
    cbn [Encrypted set_DecryptionSuccessful set_Encrypted].
    unfold spec_kem_layout. rewrite !length_app, Hk, Hn, Hs. lia.
  - destruct (testHybridKyberAES_lawful rand_ok gcm_ok kyber768_Scheme data
                (blank "hybrid-kyber768-aes256gcm") w kyber768_ok)
      as (kemCiphertext & keyNonce & wrappedKey & dataNonce & sealed & w'
          & Hk & Hkn & Hw & Hn & Hs & Hrun).
    rewrite TestAlgorithm_hybrid, Hrun. eexists _, _. split; [done|].
    cbn [Encrypted set_DecryptionSuccessful set_Encrypted].
    unfold spec_hybrid_layout. rewrite !length_app, Hk, Hkn, Hw, Hn, Hs. lia.
Qed.

(** C5. For one plaintext, the hybrid scheme's serialized ciphertext is
    strictly longer than the one of the KEM-only scheme on the same KEM
    (kyber768) and than the one of either classic scheme; the random
    sources of the four runs are arbitrary. *)
Theorem hybrid_is_longest data w_hybrid w_kem w_aes w_chacha :
  ∃ hybrid kem aes chacha w1 w2 w3 w4,
    TestAlgorithm "hybrid-kyber768-aes256gcm" data w_hybrid
    = (Return (Some hybrid) None, w1) ∧
    TestAlgorithm "kyber768" data w_kem = (Return (Some kem) None, w2) ∧
    TestAlgorithm "aes256gcm" data w_aes = (Return (Some aes) None, w3) ∧
    TestAlgorithm "chacha20poly1305" data w_chacha = (Return (Some chacha) None, w4) ∧
    length (Encrypted kem) < length (Encrypted hybrid) ∧
    length (Encrypted aes) < length (Encrypted hybrid) ∧
    length (Encrypted chacha) < length (Encrypted hybrid).
Proof.
  destruct (testHybridKyberAES_lawful rand_ok gcm_ok kyber768_Scheme data
              (blank "hybrid-kyber768-aes256gcm") w_hybrid kyber768_ok)
    as (kemCiphertext & keyNonce & wrappedKey & dataNonce & sealed & w1
        & Hk & Hkn & Hw & Hn & Hs & Hhybrid).
  destruct (testKyber_lawful rand_ok gcm_ok kyber768_Scheme data
              (blank "kyber768") w_kem kyber768_ok)
    as (kemCiphertext' & nonce' & sealed' & w2 & Hk' & Hn' & Hs' & Hkem).
  destruct (testAES256GCM_lawful rand_ok gcm_ok data (blank "aes256gcm") w_aes)
    as (nonce_a & sealed_a & w3 & Hna & Hsa & Haes).
  destruct (testChaCha20Poly1305_lawful data (blank "chacha20poly1305") w_chacha
              rand_ok chacha_ok)
    as (nonce_c & sealed_c & w4 & Hnc & Hsc & Hchacha).
  rewrite TestAlgorithm_hybrid, TestAlgorithm_kyber768, TestAlgorithm_aes256gcm,
    TestAlgorithm_chacha20poly1305, Hhybrid, Hkem, Haes, Hchacha.
  eexists _, _, _, _, _, _, _, _. repeat (split; [reflexivity|]).
  cbn [Encrypted set_DecryptionSuccessful set_Encrypted].
  unfold spec_hybrid_layout, spec_kem_layout, spec_classic_layout.
  rewrite !length_app.
  unfold gcmStandardNonceSize, gcmTagSize, chacha20poly1305_NonceSize,
    chacha20poly1305_Overhead in *.
  lia.
Qed.

End Registered.

(** ** The default algorithm *)

Lemma name_listed_elem_of (algorithm : string) (algorithms : list Algorithm) :
  name_listed algorithm algorithms = true ↔ algorithm ∈ Name <$> algorithms.
Proof.
  unfold name_listed. rewrite existsb_exists, list_elem_of_fmap. split.
  - intros (algo & Hin & Heq). apply bool_decide_eq_true in Heq.
    apply list_elem_of_In in Hin. by exists algo.
  - intros (algo & -> & Hin). exists algo. apply list_elem_of_In in Hin.
    split; [done|]. by apply bool_decide_eq_true.
Qed.

(** C9. [SetDefaultAlgorithm] looks the name up in the list of its category
    first. A name that is not there gives the error
    "invalid algorithm: <name>"; neither the settings in memory nor the
    configuration file change. A name that is there is set under the key of
    the category and the configuration is written. *)
Theorem SetDefaultAlgorithm_validates (algorithm : string) (postQuantum : bool)
    (settings : gmap string string) (file : ConfigFile) :
  let listed :=
    Name <$> (if postQuantum then ListPostQuantumAlgorithms
              else ListClassicAlgorithms) in
  (algorithm ∉ listed →
   SetDefaultAlgorithm algorithm postQuantum settings file
   = (Some ("invalid algorithm: " +:+ algorithm), (settings, file))) ∧
  (algorithm ∈ listed →
   SetDefaultAlgorithm algorithm postQuantum settings file
   = let settings' := <[default_key postQuantum := algorithm]> settings in
     ((viper_WriteConfig settings' file).1,
      (settings', (viper_WriteConfig settings' file).2))).
Proof.
  intros listed. subst listed. unfold SetDefaultAlgorithm, default_key, viper_Set.
  split; intros Hin.
  - destruct postQuantum.
    + destruct (name_listed algorithm ListPostQuantumAlgorithms) eqn:Hvalid;
        [by apply name_listed_elem_of in Hvalid | done].
    + destruct (name_listed algorithm ListClassicAlgorithms) eqn:Hvalid;
        [by apply name_listed_elem_of in Hvalid | done].
  - destruct postQuantum; apply name_listed_elem_of in Hin; rewrite Hin; simpl;
      by destruct (viper_WriteConfig _ file).
Qed.

(** ** Soft and fatal outcomes of the decryption halves *)

Lemma payload_fails_soft (aead : cipher_AEAD) data nonce sealed result :
  payload_fails aead data nonce sealed →
  match Open aead [] nonce sealed [] with
  | Err _ => soft result
  | Ok plaintext => verdict plaintext data result
  end = soft result.
Proof.
  intros [err Hopen | plaintext Hopen Hdiff]; rewrite Hopen; [done|].
  by apply verdict_differs.
Qed.

Lemma testAES256GCM_decrypt_fails (aead : cipher_AEAD) data buf result :
  classic_fails aead data buf →
  testAES256GCM_decrypt aead data buf result = soft result.
Proof.
  intros [nonce sealed -> Hnonce Hfails].
  fold (spec_classic_layout nonce sealed).
  rewrite testAES256GCM_decrypt_fields by done. by apply payload_fails_soft.
Qed.

Lemma testChaCha20Poly1305_decrypt_fails (aead : cipher_AEAD) data buf result :
  classic_fails aead data buf →
  testChaCha20Poly1305_decrypt aead data buf result = soft result.
Proof.
  intros [nonce sealed -> Hnonce Hfails].
  fold (spec_classic_layout nonce sealed).
  rewrite testChaCha20Poly1305_decrypt_fields by done. by apply payload_fails_soft.
Qed.

Lemma testKyber_decrypt_fails scheme private data result :
  testKyber_fails scheme private data (Encrypted result) →
  testKyber_decrypt scheme private data result = soft result.
Proof.
  intros [kemCiphertext rest err Hbuf Hkem Hdecaps
         | kemCiphertext nonce sealed sharedSecret block aead
             Hbuf Hkem Hdecaps Hblock Haead Hnonce Hfails].
  - unfold testKyber_decrypt. rewrite Hbuf. cut_field. by use_calls.
  - erewrite testKyber_decrypt_fields by eauto. by apply payload_fails_soft.
Qed.

Lemma testHybridKyberAES_decrypt_fails scheme private data result :
  testHybridKyberAES_fails scheme private data (Encrypted result) →
  testHybridKyberAES_decrypt scheme private data result = soft result.
Proof.
  intros [kemCiphertext rest err Hbuf Hkem Hdecaps
         | kemCiphertext keyNonce wrappedKey rest sharedSecret keyBlock keyAead err
             Hbuf Hkem Hdecaps HkeyBlock HkeyAead HkeyNonce Hwrapped Hunwrap
         | kemCiphertext keyNonce wrappedKey dataNonce sealed
             sharedSecret keyBlock keyAead symmetricKey block aead
             Hbuf Hkem Hdecaps HkeyBlock HkeyAead HkeyNonce Hwrapped Hunwrap
             Hlong Hblock Haead HdataNonce Hfails].
  - unfold testHybridKyberAES_decrypt. rewrite Hbuf. cut_field. by use_calls.
  - erewrite testHybridKyberAES_decrypt_unwraps by eauto. by rewrite Hunwrap.
  - erewrite testHybridKyberAES_decrypt_fields by eauto. by apply payload_fails_soft.
Qed.

Lemma testAES256GCM_decrypt_truncated (aead : cipher_AEAD) data buf result :
  length buf < NonceSize aead →
  testAES256GCM_decrypt aead data buf result = fatal "ciphertext too short".
Proof. intros. unfold testAES256GCM_decrypt. by rewrite decide_True. Qed.

Lemma testChaCha20Poly1305_decrypt_truncated (aead : cipher_AEAD) data buf result :
  length buf < NonceSize aead →
  testChaCha20Poly1305_decrypt aead data buf result = fatal "ciphertext too short".
Proof. intros. unfold testChaCha20Poly1305_decrypt. by rewrite decide_True. Qed.



(** C6. In every executor, a failure of the KEM decapsulation, of an AEAD
    authentication (of the wrapped key or of the data), or a decrypted
    plaintext that differs from the input ends the call with the result
    object, its flag false, and a nil error; the result carries the buffer
    that was serialized. The rule is the same for the five names. *)
Theorem cryptographic_failure_is_soft data w algorithm buf w' :
  TestAlgorithm_fails data w algorithm buf w' →
  TestAlgorithm algorithm data w
  = (Return
       (Some {| result_Algorithm := algorithm;
                Encrypted := buf;
                DecryptionSuccessful := false |})
       None, w').
Proof.
  intros [aead nonce w1 Hrun Hfails
         | aead nonce w1 Hrun Hfails
         | private ciphertext sharedSecret aead nonce w1 buf' Hrun -> Hfails
         | private ciphertext sharedSecret aead nonce w1 buf' Hrun -> Hfails
         | private aesKey ciphertext sharedSecret aead nonce aesKeyAead aesKeyNonce
             w1 buf' Hrun -> Hfails].
  - rewrite TestAlgorithm_aes256gcm.
    erewrite testAES256GCM_runs_decrypt by done.
    by rewrite testAES256GCM_decrypt_fails.
  - rewrite TestAlgorithm_chacha20poly1305.
    erewrite testChaCha20Poly1305_runs_decrypt by done.
    by rewrite testChaCha20Poly1305_decrypt_fails.
  - rewrite TestAlgorithm_kyber768.
    erewrite testKyber_runs_decrypt by done.
    by rewrite testKyber_decrypt_fails.
  - rewrite TestAlgorithm_kyber1024.
    erewrite testKyber_runs_decrypt by done.
    by rewrite testKyber_decrypt_fails.
  - rewrite TestAlgorithm_hybrid.
    erewrite testHybridKyberAES_runs_decrypt by done.
    by rewrite testHybridKyberAES_decrypt_fails.
Qed.


(** ** The hybrid layout and the payload key *)

(** The decryption half of the hybrid executor on a buffer laid out in five
    fields of the fixed sizes is the decryption of the specification on
    those fields. *)
Lemma testHybridKyberAES_decrypt_refines scheme private data result
    kemCiphertext keyNonce wrappedKey dataNonce dataCiphertext :
  gcm_nonce_law →
  Encrypted result
  = spec_hybrid_layout kemCiphertext keyNonce wrappedKey dataNonce dataCiphertext →
  length kemCiphertext = CiphertextSize scheme →
  length keyNonce = gcmStandardNonceSize →
  length wrappedKey = 32 + gcmTagSize →
  length dataNonce = gcmStandardNonceSize →
  testHybridKyberAES_decrypt scheme private data result
  = spec_hybrid_open scheme private data result
      kemCiphertext keyNonce wrappedKey dataNonce dataCiphertext.
Proof.
  intros Hgcm Hbuf Hkem HkeyNonce Hwrapped HdataNonce.
  unfold spec_hybrid_open.
  destruct (Decapsulate scheme private kemCiphertext) as [sharedSecret|err] eqn:Hdecaps.
  2: { unfold testHybridKyberAES_decrypt. rewrite Hbuf. unfold spec_hybrid_layout.
       cut_field. by use_calls. }
  destruct (aes_NewCipher sharedSecret) as [keyBlock|err] eqn:HkeyBlock.
  2: { unfold testHybridKyberAES_decrypt. rewrite Hbuf. unfold spec_hybrid_layout.
       cut_field. by use_calls. }
  destruct (cipher_NewGCM keyBlock) as [keyAead|err] eqn:HkeyAead.
  2: { unfold testHybridKyberAES_decrypt. rewrite Hbuf. unfold spec_hybrid_layout.
       cut_field. by use_calls. }
  pose proof (Hgcm _ _ _ HkeyBlock HkeyAead) as HkN.
  erewrite testHybridKyberAES_decrypt_unwraps; eauto; [|congruence].
  destruct (Open keyAead [] keyNonce wrappedKey []) as [symmetricKey|err]; [|done].
  case_decide as Hlong.
  2: { rewrite slice_to_None by lia. done. }
  rewrite slice_to_payload_key by done.
  destruct (aes_NewCipher (spec_payload_key sharedSecret symmetricKey))
    as [block|err] eqn:Hblock; [|done].
  destruct (cipher_NewGCM block) as [aead|err] eqn:Haead; [|done].
  pose proof (Hgcm _ _ _ Hblock Haead) as HN.
  rewrite HN. by cut_field.
Qed.

(** C3. The hybrid executor serializes the KEM ciphertext, the key-wrap
    nonce, the wrapped symmetric key with its tag, the data nonce and the
    data ciphertext with its tag, in this order, and hands that buffer to
    its decryption half. With a KEM ciphertext of the announced size and a
    GCM tag of 16 bytes the five fields have the sizes K, 12, 32 + 16, 12
    and whatever remains, and on every buffer laid out with these sizes the
    decryption half takes the fields off in the same order. *)
Theorem hybrid_wire_layout scheme data result w private aesKey ciphertext
    sharedSecret (aead : cipher_AEAD) nonce (aesKeyAead : cipher_AEAD) aesKeyNonce w' :
  testHybridKyberAES_encrypts scheme w private aesKey ciphertext sharedSecret
    aead nonce aesKeyAead aesKeyNonce w' →
  gcm_nonce_law →
  length ciphertext = CiphertextSize scheme →
  Overhead aesKeyAead = gcmTagSize →
  length (Seal aesKeyAead [] aesKeyNonce aesKey []) = length aesKey + Overhead aesKeyAead →
  let encryptedAesKey := Seal aesKeyAead [] aesKeyNonce aesKey [] in
  let encryptedData := Seal aead [] nonce data [] in
  testHybridKyberAES scheme data result w
  = (testHybridKyberAES_decrypt scheme private data
       (set_Encrypted
          (ciphertext ++ aesKeyNonce ++ encryptedAesKey ++ nonce ++ encryptedData)
          result), w') ∧
  length aesKeyNonce = gcmStandardNonceSize ∧
  length encryptedAesKey = 32 + gcmTagSize ∧
  length nonce = gcmStandardNonceSize ∧
  ∀ buffer kemCiphertext keyNonce wrappedKey dataNonce dataCiphertext,
    Encrypted buffer
    = kemCiphertext ++ keyNonce ++ wrappedKey ++ dataNonce ++ dataCiphertext →
    length kemCiphertext = CiphertextSize scheme →
    length keyNonce = gcmStandardNonceSize →
    length wrappedKey = 32 + gcmTagSize →
    length dataNonce = gcmStandardNonceSize →
    testHybridKyberAES_decrypt scheme private data buffer
    = spec_hybrid_open scheme private data buffer
        kemCiphertext keyNonce wrappedKey dataNonce dataCiphertext.
Proof.
  intros Hrun Hgcm Hkem Htag Hsealed encryptedAesKey encryptedData.
  split; [by eapply testHybridKyberAES_runs_decrypt|].
  destruct Hrun as [public private' w1 aesKey' w2 ct ss w3 block aead' nonce' w4
                      keyBlock keyAead keyNonce w5
                      Hpair Hkey Hencaps Hblock Haead Hnonce
                      HkeyBlock HkeyAead HkeyNonce].
  apply io_ReadFull_length in Hkey, Hnonce, HkeyNonce.
  rewrite (Hgcm _ _ _ Hblock Haead) in Hnonce.
  rewrite (Hgcm _ _ _ HkeyBlock HkeyAead) in HkeyNonce.
  split; [done|]. split; [subst encryptedAesKey; congruence|]. split; [done|].
  intros buffer kemCiphertext keyNonce' wrappedKey dataNonce dataCiphertext
    Hbuf HK HkN Hw HdN.
  by apply testHybridKyberAES_decrypt_refines.
Qed.

(** C8. In the hybrid executor the AEAD that seals the data is keyed with
    the first 32 bytes of [sharedSecret ∥ aesKey]. The decryption half, once
    it has decapsulated a secret and unwrapped a symmetric key, keys the
    AEAD that opens the data in the same way, with the first 32 bytes of
    [decapsulatedSecret ∥ decryptedAesKey]. *)
Theorem hybrid_payload_key scheme data result w private aesKey ciphertext
    sharedSecret (aead : cipher_AEAD) nonce (aesKeyAead : cipher_AEAD) aesKeyNonce w' :
  testHybridKyberAES_encrypts scheme w private aesKey ciphertext sharedSecret
    aead nonce aesKeyAead aesKeyNonce w' →
  (∃ block,
     aes_NewCipher (take 32 (sharedSecret ++ aesKey)) = Ok block ∧
     cipher_NewGCM block = Ok aead) ∧
  (∃ header,
     testHybridKyberAES scheme data result w
     = (testHybridKyberAES_decrypt scheme private data
          (set_Encrypted (header ++ nonce ++ Seal aead [] nonce data []) result), w')) ∧
  ∀ buffer kemCiphertext keyNonce wrappedKey dataNonce dataCiphertext
    decapsulatedSecret keyBlock (keyAead : cipher_AEAD) decryptedAesKey
    blockDecrypt (aeadDecrypt : cipher_AEAD),
    Encrypted buffer
    = kemCiphertext ++ keyNonce ++ wrappedKey ++ dataNonce ++ dataCiphertext →
    length kemCiphertext = CiphertextSize scheme →
    Decapsulate scheme private kemCiphertext = Ok decapsulatedSecret →
    aes_NewCipher decapsulatedSecret = Ok keyBlock →
    cipher_NewGCM keyBlock = Ok keyAead →
    length keyNonce = NonceSize keyAead →
    length wrappedKey = 32 + 16 →
    Open keyAead [] keyNonce wrappedKey [] = Ok decryptedAesKey →
    32 ≤ length (decapsulatedSecret ++ decryptedAesKey) →
    aes_NewCipher (take 32 (decapsulatedSecret ++ decryptedAesKey)) = Ok blockDecrypt →
    cipher_NewGCM blockDecrypt = Ok aeadDecrypt →
    length dataNonce = NonceSize aeadDecrypt →
    testHybridKyberAES_decrypt scheme private data buffer
    = match Open aeadDecrypt [] dataNonce dataCiphertext [] with
      | Err _ => soft buffer
      | Ok plaintext => verdict plaintext data buffer
      end.
Proof.
  intros Hrun. split; [|split].
  - destruct Hrun. by eexists.
  - exists (ciphertext ++ aesKeyNonce ++ Seal aesKeyAead [] aesKeyNonce aesKey []).
    erewrite testHybridKyberAES_runs_decrypt by done.
    unfold spec_hybrid_layout. by rewrite <- !(assoc_L (++)).
  - intros. by eapply testHybridKyberAES_decrypt_fields.
Qed.

(** With a shared secret of 32 bytes the payload key is the shared secret. *)
Lemma spec_payload_key_secret (sharedSecret symmetricKey : bytes) :
  length sharedSecret = 32 →
  spec_payload_key sharedSecret symmetricKey = sharedSecret.
Proof. intros. unfold spec_payload_key. by rewrite take_app_length'. Qed.

(** A decryption half may change the flag of the result, never the bytes. *)
Lemma testHybridKyberAES_decrypt_Encrypted scheme private data result r err :
  testHybridKyberAES_decrypt scheme private data result = Return (Some r) err →
  Encrypted r = Encrypted result.
Proof.
  unfold testHybridKyberAES_decrypt, soft, verdict, fatal.
  repeat case_match; by intros [= <- _].
Qed.

(** C10. In the registered hybrid algorithm, when the Kyber768 shared secret
    has 32 bytes, the payload key is the shared secret and the symmetric
    key plays no part in it: two runs with the same shared secret and data
    nonce, whatever their symmetric keys, seal the data under the same AEAD
    and serialize the same data ciphertext as the last field. *)
Theorem hybrid_symmetric_key_has_no_influence data sharedSecret nonce
    w1 private1 aesKey1 ciphertext1 (aead1 : cipher_AEAD) aesKeyAead1 aesKeyNonce1 w1'
    w2 private2 aesKey2 ciphertext2 (aead2 : cipher_AEAD) aesKeyAead2 aesKeyNonce2 w2' :
  testHybridKyberAES_encrypts kyber768_Scheme w1 private1 aesKey1 ciphertext1
    sharedSecret aead1 nonce aesKeyAead1 aesKeyNonce1 w1' →
  testHybridKyberAES_encrypts kyber768_Scheme w2 private2 aesKey2 ciphertext2
    sharedSecret aead2 nonce aesKeyAead2 aesKeyNonce2 w2' →
  length sharedSecret = 32 →
  let dataCiphertext := Seal aead1 [] nonce data [] in
  let serialized1 :=
    spec_hybrid_layout ciphertext1 aesKeyNonce1
      (Seal aesKeyAead1 [] aesKeyNonce1 aesKey1 []) nonce dataCiphertext in
  let serialized2 :=
    spec_hybrid_layout ciphertext2 aesKeyNonce2
      (Seal aesKeyAead2 [] aesKeyNonce2 aesKey2 []) nonce dataCiphertext in
  take 32 (sharedSecret ++ aesKey1) = sharedSecret ∧
  take 32 (sharedSecret ++ aesKey2) = sharedSecret ∧
  aead1 = aead2 ∧
  TestAlgorithm "hybrid-kyber768-aes256gcm" data w1
  = (testHybridKyberAES_decrypt kyber768_Scheme private1 data
       (set_Encrypted serialized1 (blank "hybrid-kyber768-aes256gcm")), w1') ∧
  TestAlgorithm "hybrid-kyber768-aes256gcm" data w2
  = (testHybridKyberAES_decrypt kyber768_Scheme private2 data
       (set_Encrypted serialized2 (blank "hybrid-kyber768-aes256gcm")), w2') ∧
  (∀ r err w, TestAlgorithm "hybrid-kyber768-aes256gcm" data w1
              = (Return (Some r) err, w) → Encrypted r = serialized1) ∧
  (∀ r err w, TestAlgorithm "hybrid-kyber768-aes256gcm" data w2
              = (Return (Some r) err, w) → Encrypted r = serialized2).
Proof.
  intros Hrun1 Hrun2 Hsecret dataCiphertext serialized1 serialized2.
  assert (Hsame : aead1 = aead2).
  { destruct Hrun1 as [? ? ? ? ? ? ? ? block1 ? ? ? ? ? ? ? ? ? ? Hblock1 Haead1].
    destruct Hrun2 as [? ? ? ? ? ? ? ? block2 ? ? ? ? ? ? ? ? ? ? Hblock2 Haead2].
    rewrite spec_payload_key_secret in Hblock1, Hblock2 by done.
    congruence. }
  pose proof (testHybridKyberAES_runs_decrypt _ data
                (blank "hybrid-kyber768-aes256gcm") _ _ _ _ _ _ _ _ _ _ Hrun1) as H1.
  pose proof (testHybridKyberAES_runs_decrypt _ data
                (blank "hybrid-kyber768-aes256gcm") _ _ _ _ _ _ _ _ _ _ Hrun2) as H2.
  rewrite <- Hsame in H2. rewrite !TestAlgorithm_hybrid.
  split; [by apply (spec_payload_key_secret sharedSecret aesKey1)|].
  split; [by apply (spec_payload_key_secret sharedSecret aesKey2)|].
  split; [done|]. split; [done|]. split; [done|].
  split; intros r err w Hreturned.
  - rewrite H1 in Hreturned. injection Hreturned as Hreturned _.
    by apply testHybridKyberAES_decrypt_Encrypted in Hreturned.
  - rewrite H2 in Hreturned. injection Hreturned as Hreturned _.
    by apply testHybridKyberAES_decrypt_Encrypted in Hreturned.
Qed.

End Properties.

(** * The reference runtime keeps the contracts *)

Module ToyLaws.

Lemma bxor_involutive (a b : byte) : Toy.bxor a (Toy.bxor a b) = b.
Proof.
  unfold Toy.bxor.
  destruct (Byte.to_bits a) as [a0 [a1 [a2 [a3 [a4 [a5 [a6 a7]]]]]]].
  destruct (Byte.to_bits b) as [b0 [b1 [b2 [b3 [b4 [b5 [b6 b7]]]]]]] eqn:Hb.
  rewrite Byte.to_bits_of_bits.
  assert (Hxor : ∀ x y, xorb x (xorb x y) = y) by (by intros [] []).
  rewrite !Hxor, <- Hb. apply Byte.of_bits_to_bits.
Qed.

Lemma unmask (key : bytes) (l : bytes) :
  Toy.bxor (Toy.mask key) <$> (Toy.bxor (Toy.mask key) <$> l) = l.
Proof.
  induction l as [|b l IH]; [done|].
  rewrite !fmap_cons, bxor_involutive. by f_equal.
Qed.

Lemma tag_length (key nonce : bytes) : length (Toy.tag key nonce) = 16.
Proof.
  unfold Toy.tag. rewrite length_take, !length_app, length_replicate. lia.
Qed.

Lemma aead_law (key : bytes) : AEAD_law (Toy.aead key) 12 16.
Proof.
  split; try done.
  - intros nonce plaintext ad. simpl.
    rewrite length_app, length_fmap, tag_length. lia.
  - intros nonce plaintext ad _. simpl.
    rewrite length_app, length_fmap, tag_length.
    rewrite decide_True by lia.
    replace (length plaintext + 16 - 16) with (length (Toy.bxor (Toy.mask key) <$> plaintext))
      by (rewrite length_fmap; lia).
    rewrite take_app_length, drop_app_length, decide_True by done.
    by rewrite unmask.
Qed.

Lemma rand_ok (cipher : bytes → cipher_AEAD) (pad : byte) :
  @rand_delivers (Toy.runtime_with cipher pad).
Proof. intros [[|b tape] n]; by eexists _, _. Qed.

Lemma gcm_ok (pad : byte) : @aes_gcm_law (Toy.runtime_with Toy.aead pad).
Proof.
  intros key Hkey. exists key, (Toy.aead key). simpl. unfold Toy.NewCipher.
  rewrite decide_True by auto. split; [done|]. split; [done|]. apply aead_law.
Qed.

Lemma gcm_nonce_ok (cipher : bytes → cipher_AEAD) (pad : byte) :
  (∀ key, NonceSize (cipher key) = 12) →
  @gcm_nonce_law (Toy.runtime_with cipher pad).
Proof. intros Hsize key block aead _ [= <-]. apply Hsize. Qed.

Lemma chacha_ok (pad : byte) : @chacha20poly1305_law (Toy.runtime_with Toy.aead pad).
Proof.
  intros key Hkey. exists (Toy.aead key). simpl. unfold Toy.New.
  rewrite decide_True by done. split; [done|]. apply aead_law.
Qed.

Lemma read_delivers n (w : bytes * nat) :
  ∃ buf w', io_ReadFull Toy.read n w = (Ok buf, w') ∧ length buf = n.
Proof.
  apply (@io_ReadFull_delivers (Toy.runtime_with Toy.aead x00) n w), rand_ok.
Qed.

Lemma scheme_ok K (sch := Toy.scheme x00 K) :
  32 ≤ K →
  ∀ w, ∃ public private w1,
    GenerateKeyPair sch w = (Ok (public, private), w1) ∧
    ∀ w2, ∃ ciphertext sharedSecret w3,
      Encapsulate sch public w2 = (Ok (ciphertext, sharedSecret), w3) ∧
      length ciphertext = CiphertextSize sch ∧
      length sharedSecret = 32 ∧
      Decapsulate sch private ciphertext = Ok sharedSecret.
Proof.
  intros HK w. subst sch. simpl.
  destruct (read_delivers 32 w) as (seed & w1 & -> & Hseed).
  exists seed, seed, w1. split; [done|]. intros w2.
  destruct (read_delivers 32 w2) as (secret & w3 & -> & Hsecret).
  eexists _, secret, w3. split; [done|].
  split; [rewrite length_app, length_fmap, length_replicate; lia|].
  split; [done|].
  rewrite drop_app_length' by (by rewrite length_fmap).
  rewrite decide_True by done.
  rewrite take_app_length' by (by rewrite length_fmap).
  by rewrite unmask.
Qed.

Lemma kyber768_ok : @kem_law Toy.runtime (@kyber768_Scheme Toy.runtime).
Proof. intros w. apply (scheme_ok 1088). lia. Qed.

Lemma kyber1024_ok : @kem_law Toy.runtime (@kyber1024_Scheme Toy.runtime).
Proof. intros w. apply (scheme_ok 1568). lia. Qed.

End ToyLaws.

(** * The engine on the reference runtime *)

Example aes256gcm_on_hello :
  @TestAlgorithm Toy.runtime "aes256gcm" Toy.hello Toy.fresh
  = (Return
       (Some {| result_Algorithm := "aes256gcm";
                Encrypted :=
                  [" "; "!"; "034"; "#"; "$"; "%"; "&"; "'"; "("; ")"; "*"; "+";
                   "h"; "e"; "l"; "l"; "o";
                   "000"; "001"; "002"; "003"; "004"; "005"; "006"; "007";
                   "008"; "009"; "010"; "011"; "012"; "013"; "014"; "015"]%byte;
                DecryptionSuccessful := true |})
       None, ([], 44)).
Proof. vm_compute. reflexivity. Qed.

Example lengths_on_hello :
  (λ algorithm,
     match @TestAlgorithm Toy.runtime algorithm Toy.hello Toy.fresh with
     | (Return (Some result) None, _) =>
         Some (length (Encrypted result), DecryptionSuccessful result)
     | _ => None
     end)
  <$> registered_names
  = [Some (33, true); Some (33, true); Some (1121, true); Some (1601, true);
     Some (1181, true)].
Proof. vm_compute. reflexivity. Qed.

Example lengths_on_empty_and_kilobyte :
  (λ data,
     match @TestAlgorithm Toy.runtime "hybrid-kyber768-aes256gcm" data Toy.fresh with
     | (Return (Some result) None, _) =>
         Some (length (Encrypted result), DecryptionSuccessful result)
     | _ => None
     end)
  <$> [Toy.empty; Toy.kilobyte]
  = [Some (1176, true); Some (2200, true)].
Proof. vm_compute. reflexivity. Qed.


Lemma TestAlgorithm_unsupported_witness :
  ("unsupported-algorithm" ∉ registered_names) ∧
  @TestAlgorithm Toy.runtime "unsupported-algorithm" Toy.hello Toy.fresh
  = (Return None (Some "unsupported algorithm: unsupported-algorithm"), Toy.fresh).
Proof.
  assert (Hnot : "unsupported-algorithm" ∉ registered_names)
    by (by intros [?|[?|[?|[?|?]]]]%registered_names_cases).
  split; [exact Hnot|].
  exact (proj1 (@TestAlgorithm_unsupported Toy.runtime
                  (ToyLaws.rand_ok Toy.aead x00) (ToyLaws.gcm_ok x00)
                  (ToyLaws.chacha_ok x00) ToyLaws.kyber768_ok ToyLaws.kyber1024_ok
                  "unsupported-algorithm" Toy.hello Toy.fresh) Hnot).
Defined.

Lemma Encrypted_length_witness :
  ∃ result w',
    @TestAlgorithm Toy.runtime "hybrid-kyber768-aes256gcm" Toy.hello Toy.fresh
    = (Return (Some result) None, w') ∧
    length (Encrypted result) = 1088 + 2 * 12 + 32 + 2 * 16 + 5.
Proof.
  exact (proj2 (proj2 (proj2 (proj2
           (@Encrypted_length Toy.runtime
              (ToyLaws.rand_ok Toy.aead x00) (ToyLaws.gcm_ok x00) (ToyLaws.chacha_ok x00)
              ToyLaws.kyber768_ok ToyLaws.kyber1024_ok Toy.hello Toy.fresh))))).
Defined.

Lemma hybrid_is_longest_witness :
  ∃ hybrid kem aes chacha w1 w2 w3 w4,
    @TestAlgorithm Toy.runtime "hybrid-kyber768-aes256gcm" Toy.hello Toy.fresh
    = (Return (Some hybrid) None, w1) ∧
    @TestAlgorithm Toy.runtime "kyber768" Toy.hello Toy.fresh
    = (Return (Some kem) None, w2) ∧
    @TestAlgorithm Toy.runtime "aes256gcm" Toy.hello Toy.fresh
    = (Return (Some aes) None, w3) ∧
    @TestAlgorithm Toy.runtime "chacha20poly1305" Toy.hello Toy.fresh
    = (Return (Some chacha) None, w4) ∧
    length (Encrypted kem) < length (Encrypted hybrid) ∧
    length (Encrypted aes) < length (Encrypted hybrid) ∧
    length (Encrypted chacha) < length (Encrypted hybrid).
Proof.
  exact (@hybrid_is_longest Toy.runtime
           (ToyLaws.rand_ok Toy.aead x00) (ToyLaws.gcm_ok x00) (ToyLaws.chacha_ok x00)
           ToyLaws.kyber768_ok Toy.hello Toy.fresh Toy.fresh Toy.fresh Toy.fresh).
Defined.

Lemma SetDefaultAlgorithm_validates_witness :
  (("kyber768" ∉ Name <$> ListClassicAlgorithms) ∧
   @SetDefaultAlgorithm Toy.runtime "kyber768" false ∅ ∅
   = (Some "invalid algorithm: kyber768", (∅, ∅))) ∧
  ("kyber768" ∈ Name <$> ListPostQuantumAlgorithms ∧
   @SetDefaultAlgorithm Toy.runtime "kyber768" true ∅ ∅
   = (None, ({["crypto.default_post_quantum" := "kyber768"]},
             {["crypto.default_post_quantum" := "kyber768"]}))).
Proof.
  assert (Hnot : "kyber768" ∉ Name <$> ListClassicAlgorithms).
  { simpl. rewrite !elem_of_cons, elem_of_nil. by intros [?|[?|?]]. }
  assert (Hin : "kyber768" ∈ Name <$> ListPostQuantumAlgorithms).
  { simpl. rewrite !elem_of_cons. auto. }
  split; (split; [done|]).
  - exact (proj1 (@SetDefaultAlgorithm_validates Toy.runtime "kyber768" false ∅ ∅) Hnot).
  - exact (proj2 (@SetDefaultAlgorithm_validates Toy.runtime "kyber768" true ∅ ∅) Hin).
Defined.

Lemma cryptographic_failure_is_soft_witness :
  (∃ buf w',
     @TestAlgorithm_fails Toy.deaf_runtime Toy.hello Toy.fresh "aes256gcm" buf w' ∧
     @TestAlgorithm Toy.deaf_runtime "aes256gcm" Toy.hello Toy.fresh
     = (Return (Some {| result_Algorithm := "aes256gcm"; Encrypted := buf;
                        DecryptionSuccessful := false |}) None, w')) ∧
  (∃ buf w',
     @TestAlgorithm_fails Toy.forgetful_runtime Toy.hello Toy.fresh
       "chacha20poly1305" buf w' ∧
     @TestAlgorithm Toy.forgetful_runtime "chacha20poly1305" Toy.hello Toy.fresh
     = (Return (Some {| result_Algorithm := "chacha20poly1305"; Encrypted := buf;
                        DecryptionSuccessful := false |}) None, w')) ∧
  (∃ buf w',
     @TestAlgorithm_fails Toy.unpadded_runtime Toy.hello Toy.fresh "kyber768" buf w' ∧
     @TestAlgorithm Toy.unpadded_runtime "kyber768" Toy.hello Toy.fresh
     = (Return (Some {| result_Algorithm := "kyber768"; Encrypted := buf;
                        DecryptionSuccessful := false |}) None, w')) ∧
  (∃ buf w',
     @TestAlgorithm_fails Toy.deaf_runtime Toy.hello Toy.fresh
       "hybrid-kyber768-aes256gcm" buf w' ∧
     @TestAlgorithm Toy.deaf_runtime "hybrid-kyber768-aes256gcm" Toy.hello Toy.fresh
     = (Return (Some {| result_Algorithm := "hybrid-kyber768-aes256gcm";
                        Encrypted := buf;
                        DecryptionSuccessful := false |}) None, w')).
Proof.
  assert (Haes : ∃ buf w',
    @TestAlgorithm_fails Toy.deaf_runtime Toy.hello Toy.fresh "aes256gcm" buf w').
  { eexists _, _. eapply @aes256gcm_fails.
    - econstructor; reflexivity.
    - eapply (classic_payload_fails _ _ _ (take 12 _) (drop 12 _)).
      + symmetry. apply take_drop.
      + reflexivity.
      + eapply authentication_fails. reflexivity. }
  assert (Hchacha : ∃ buf w',
    @TestAlgorithm_fails Toy.forgetful_runtime Toy.hello Toy.fresh
      "chacha20poly1305" buf w').
  { eexists _, _. eapply @chacha20poly1305_fails.
    - econstructor; reflexivity.
    - eapply (classic_payload_fails _ _ _ (take 12 _) (drop 12 _)).
      + symmetry. apply take_drop.
      + reflexivity.
      + eapply plaintext_differs; [reflexivity | discriminate]. }
  assert (Hkem : ∃ buf w',
    @TestAlgorithm_fails Toy.unpadded_runtime Toy.hello Toy.fresh "kyber768" buf w').
  { eexists _, _. eapply @kyber768_fails.
    - econstructor; reflexivity.
    - reflexivity.
    - eapply @testKyber_decapsulation_fails; reflexivity. }
  assert (Hhybrid : ∃ buf w',
    @TestAlgorithm_fails Toy.deaf_runtime Toy.hello Toy.fresh
      "hybrid-kyber768-aes256gcm" buf w').
  { eexists _, _. eapply @hybrid_fails.
    - econstructor; reflexivity.
    - reflexivity.
    - eapply @testHybridKyberAES_unwrap_fails; reflexivity. }
  destruct Haes as (buf1 & w1 & Haes).
  destruct Hchacha as (buf4 & w4 & Hchacha).
  destruct Hkem as (buf2 & w2 & Hkem).
  destruct Hhybrid as (buf3 & w3 & Hhybrid).
  split; [|split; [|split]].
  - exists buf1, w1. split; [exact Haes|].
    exact (@cryptographic_failure_is_soft Toy.deaf_runtime _ _ _ _ _ Haes).
  - exists buf4, w4. split; [exact Hchacha|].
    exact (@cryptographic_failure_is_soft Toy.forgetful_runtime _ _ _ _ _ Hchacha).
  - exists buf2, w2. split; [exact Hkem|].
    exact (@cryptographic_failure_is_soft Toy.unpadded_runtime _ _ _ _ _ Hkem).
  - exists buf3, w3. split; [exact Hhybrid|].
    exact (@cryptographic_failure_is_soft Toy.deaf_runtime _ _ _ _ _ Hhybrid).
Defined.


Lemma hybrid_wire_layout_witness :
  ∃ private aesKey ciphertext sharedSecret aead nonce aesKeyAead aesKeyNonce w',
    let scheme := @kyber768_Scheme Toy.runtime in
    let result := blank "hybrid-kyber768-aes256gcm" in
    let encryptedAesKey := Seal aesKeyAead [] aesKeyNonce aesKey [] in
    let encryptedData := Seal aead [] nonce Toy.hello [] in
    let serialized :=
      set_Encrypted
        (ciphertext ++ aesKeyNonce ++ encryptedAesKey ++ nonce ++ encryptedData)
        result in
    (@testHybridKyberAES_encrypts Toy.runtime scheme Toy.fresh private aesKey
       ciphertext sharedSecret aead nonce aesKeyAead aesKeyNonce w' ∧
     @gcm_nonce_law Toy.runtime ∧
     length ciphertext = 1088 ∧
     Overhead aesKeyAead = 16 ∧
     length encryptedAesKey = length aesKey + Overhead aesKeyAead) ∧
    @testHybridKyberAES Toy.runtime scheme Toy.hello result Toy.fresh
    = (@testHybridKyberAES_decrypt Toy.runtime scheme private Toy.hello serialized, w') ∧
    length aesKeyNonce = 12 ∧
    length encryptedAesKey = 48 ∧
    length nonce = 12 ∧
    @testHybridKyberAES_decrypt Toy.runtime scheme private Toy.hello serialized
    = @spec_hybrid_open Toy.runtime scheme private Toy.hello serialized
        ciphertext aesKeyNonce encryptedAesKey nonce encryptedData.
Proof.
  assert (Hrun : ∃ private aesKey ciphertext sharedSecret aead nonce
                   aesKeyAead aesKeyNonce w',
    @testHybridKyberAES_encrypts Toy.runtime (@kyber768_Scheme Toy.runtime) Toy.fresh
      private aesKey ciphertext sharedSecret aead nonce aesKeyAead aesKeyNonce w' ∧
    length ciphertext = 1088 ∧
    Overhead aesKeyAead = 16 ∧
    length (Seal aesKeyAead [] aesKeyNonce aesKey [])
    = length aesKey + Overhead aesKeyAead).
  { eexists _, _, _, _, _, _, _, _, _.
    split; [econstructor; reflexivity|]. by split; [|split]. }
  destruct Hrun as (private & aesKey & ciphertext & sharedSecret & aead & nonce
                    & aesKeyAead & aesKeyNonce & w' & Hrun & Hkem & Htag & Hsealed).
  pose proof (ToyLaws.gcm_nonce_ok Toy.aead x00 (λ _, eq_refl)) as Hgcm.
  exists private, aesKey, ciphertext, sharedSecret, aead, nonce,
    aesKeyAead, aesKeyNonce, w'.
  intros scheme result encryptedAesKey encryptedData serialized.
  split; [exact (conj Hrun (conj Hgcm (conj Hkem (conj Htag Hsealed))))|].
  destruct (@hybrid_wire_layout Toy.runtime scheme Toy.hello result Toy.fresh
              private aesKey ciphertext sharedSecret aead nonce aesKeyAead
              aesKeyNonce w' Hrun Hgcm Hkem Htag Hsealed)
    as (Hserialized & HkeyNonce & Hwrapped & Hnonce & Hparse).
  repeat (split; [assumption|]).
  by apply Hparse.
Defined.

Lemma hybrid_payload_key_witness :
  ∃ private aesKey ciphertext sharedSecret aead nonce aesKeyAead aesKeyNonce w',
    let scheme := @kyber768_Scheme Toy.runtime in
    let result := blank "hybrid-kyber768-aes256gcm" in
    let encryptedAesKey := Seal aesKeyAead [] aesKeyNonce aesKey [] in
    let encryptedData := Seal aead [] nonce Toy.hello [] in
    let serialized :=
      set_Encrypted
        (ciphertext ++ aesKeyNonce ++ encryptedAesKey ++ nonce ++ encryptedData)
        result in
    @testHybridKyberAES_encrypts Toy.runtime scheme Toy.fresh private aesKey
      ciphertext sharedSecret aead nonce aesKeyAead aesKeyNonce w' ∧
    (∃ block,
       @aes_NewCipher Toy.runtime (take 32 (sharedSecret ++ aesKey)) = Ok block ∧
       @cipher_NewGCM Toy.runtime block = Ok aead) ∧
    (∃ header,
       @testHybridKyberAES Toy.runtime scheme Toy.hello result Toy.fresh
       = (@testHybridKyberAES_decrypt Toy.runtime scheme private Toy.hello
            (set_Encrypted (header ++ nonce ++ encryptedData) result), w')) ∧
    @testHybridKyberAES_decrypt Toy.runtime scheme private Toy.hello serialized
    = match Open aead [] nonce encryptedData [] with
      | Err _ => soft serialized
      | Ok plaintext => verdict plaintext Toy.hello serialized
      end.
Proof.
  assert (Hrun : ∃ private aesKey ciphertext sharedSecret aead nonce
                   aesKeyAead aesKeyNonce w' keyBlock block,
    @testHybridKyberAES_encrypts Toy.runtime (@kyber768_Scheme Toy.runtime) Toy.fresh
      private aesKey ciphertext sharedSecret aead nonce aesKeyAead aesKeyNonce w' ∧
    length ciphertext = CiphertextSize (@kyber768_Scheme Toy.runtime) ∧
    Decapsulate (@kyber768_Scheme Toy.runtime) private ciphertext = Ok sharedSecret ∧
    @aes_NewCipher Toy.runtime sharedSecret = Ok keyBlock ∧
    @cipher_NewGCM Toy.runtime keyBlock = Ok aesKeyAead ∧
    length aesKeyNonce = NonceSize aesKeyAead ∧
    length (Seal aesKeyAead [] aesKeyNonce aesKey []) = 32 + 16 ∧
    Open aesKeyAead [] aesKeyNonce (Seal aesKeyAead [] aesKeyNonce aesKey []) []
    = Ok aesKey ∧
    32 ≤ length (sharedSecret ++ aesKey) ∧
    @aes_NewCipher Toy.runtime (take 32 (sharedSecret ++ aesKey)) = Ok block ∧
    @cipher_NewGCM Toy.runtime block = Ok aead ∧
    length nonce = NonceSize aead).
  { eexists _, _, _, _, _, _, _, _, _, _, _.
    split; [econstructor; reflexivity|].
    repeat (split; [reflexivity|]).
    split; [simpl; lia|]. by repeat (split; [reflexivity|]). }
  destruct Hrun as (private & aesKey & ciphertext & sharedSecret & aead & nonce
                    & aesKeyAead & aesKeyNonce & w' & keyBlock & block
                    & Hrun & Hkem & Hdecaps & HkeyBlock & HkeyAead & HkeyNonce
                    & Hwrapped & Hunwrap & Hlong & Hblock & Haead & Hnonce).
  exists private, aesKey, ciphertext, sharedSecret, aead, nonce,
    aesKeyAead, aesKeyNonce, w'.
  intros scheme result encryptedAesKey encryptedData serialized.
  destruct (@hybrid_payload_key Toy.runtime scheme Toy.hello result Toy.fresh
              private aesKey ciphertext sharedSecret aead nonce aesKeyAead
              aesKeyNonce w' Hrun)
    as (Hkeyed & Hserialized & Hopens).
  split; [exact Hrun|]. split; [exact Hkeyed|]. split; [exact Hserialized|].
  exact (Hopens serialized ciphertext aesKeyNonce encryptedAesKey nonce encryptedData
           sharedSecret keyBlock aesKeyAead aesKey block aead eq_refl
           Hkem Hdecaps HkeyBlock HkeyAead HkeyNonce Hwrapped Hunwrap Hlong
           Hblock Haead Hnonce).
Defined.

Lemma hybrid_symmetric_key_has_no_influence_witness :
  ∃ sharedSecret nonce
    private1 aesKey1 ciphertext1 aead1 aesKeyAead1 aesKeyNonce1 w1'
    private2 aesKey2 ciphertext2 aead2 aesKeyAead2 aesKeyNonce2 w2',
    let dataCiphertext := Seal aead1 [] nonce Toy.hello [] in
    let serialized1 :=
      spec_hybrid_layout ciphertext1 aesKeyNonce1
        (Seal aesKeyAead1 [] aesKeyNonce1 aesKey1 []) nonce dataCiphertext in
    let serialized2 :=
      spec_hybrid_layout ciphertext2 aesKeyNonce2
        (Seal aesKeyAead2 [] aesKeyNonce2 aesKey2 []) nonce dataCiphertext in
    (@testHybridKyberAES_encrypts Toy.runtime (@kyber768_Scheme Toy.runtime) Toy.fresh
       private1 aesKey1 ciphertext1 sharedSecret aead1 nonce
       aesKeyAead1 aesKeyNonce1 w1' ∧
     @testHybridKyberAES_encrypts Toy.runtime (@kyber768_Scheme Toy.runtime) Toy.other
       private2 aesKey2 ciphertext2 sharedSecret aead2 nonce
       aesKeyAead2 aesKeyNonce2 w2' ∧
     length sharedSecret = 32 ∧
     aesKey1 ≠ aesKey2) ∧
    take 32 (sharedSecret ++ aesKey1) = sharedSecret ∧
    take 32 (sharedSecret ++ aesKey2) = sharedSecret ∧
    aead1 = aead2 ∧
    (∀ r err w,
       @TestAlgorithm Toy.runtime "hybrid-kyber768-aes256gcm" Toy.hello Toy.fresh
       = (Return (Some r) err, w) → Encrypted r = serialized1) ∧
    (∀ r err w,
       @TestAlgorithm Toy.runtime "hybrid-kyber768-aes256gcm" Toy.hello Toy.other
       = (Return (Some r) err, w) → Encrypted r = serialized2).
Proof.
  assert (Hruns : ∃ sharedSecret nonce
                    private1 aesKey1 ciphertext1 aead1 aesKeyAead1 aesKeyNonce1 w1'
                    private2 aesKey2 ciphertext2 aead2 aesKeyAead2 aesKeyNonce2 w2',
    @testHybridKyberAES_encrypts Toy.runtime (@kyber768_Scheme Toy.runtime) Toy.fresh
      private1 aesKey1 ciphertext1 sharedSecret aead1 nonce
      aesKeyAead1 aesKeyNonce1 w1' ∧
    @testHybridKyberAES_encrypts Toy.runtime (@kyber768_Scheme Toy.runtime) Toy.other
      private2 aesKey2 ciphertext2 sharedSecret aead2 nonce
      aesKeyAead2 aesKeyNonce2 w2' ∧
    length sharedSecret = 32 ∧
    aesKey1 ≠ aesKey2).
  { eexists _, _, _, _, _, _, _, _, _, _, _, _, _, _, _, _.
    split; [econstructor; reflexivity|].
    split; [econstructor; reflexivity|].
    split; [reflexivity|]. lazy. discriminate. }
  destruct Hruns as (sharedSecret & nonce
                     & private1 & aesKey1 & ciphertext1 & aead1 & aesKeyAead1
                     & aesKeyNonce1 & w1'
                     & private2 & aesKey2 & ciphertext2 & aead2 & aesKeyAead2
                     & aesKeyNonce2 & w2'
                     & Hrun1 & Hrun2 & Hsecret & Hdistinct).
  exists sharedSecret, nonce,
    private1, aesKey1, ciphertext1, aead1, aesKeyAead1, aesKeyNonce1, w1',
    private2, aesKey2, ciphertext2, aead2, aesKeyAead2, aesKeyNonce2, w2'.
  intros dataCiphertext serialized1 serialized2.
  destruct (@hybrid_symmetric_key_has_no_influence Toy.runtime Toy.hello
              sharedSecret nonce
              Toy.fresh private1 aesKey1 ciphertext1 aead1 aesKeyAead1 aesKeyNonce1 w1'
              Toy.other private2 aesKey2 ciphertext2 aead2 aesKeyAead2 aesKeyNonce2 w2'
              Hrun1 Hrun2 Hsecret)
    as (Hkey1 & Hkey2 & Hsame & _ & _ & Hout1 & Hout2).
  split; [exact (conj Hrun1 (conj Hrun2 (conj Hsecret Hdistinct)))|].
  exact (conj Hkey1 (conj Hkey2 (conj Hsame (conj Hout1 Hout2)))).
Defined.

(** The two runs of the witness above return results, and the results end in
    the same 21 bytes of data ciphertext although their symmetric keys
    differ. *)
Example same_data_ciphertext :
  (λ w,
     match @TestAlgorithm Toy.runtime "hybrid-kyber768-aes256gcm" Toy.hello w with
     | (Return (Some result) None, _) =>
         Some (drop (1088 + 12 + 48 + 12) (Encrypted result))
     | _ => None
     end)
  <$> [Toy.fresh; Toy.other]
  = let dataCiphertext :=
      ["("; "%"; ","; ","; "/"; "@"; "A"; "B"; "C"; "D"; "E"; "F"; "G"; "H"; "I"; "J";
       "K"; "L"; "M"; "N"; "O"]%byte in
    [Some dataCiphertext; Some dataCiphertext].
Proof. vm_compute. reflexivity. Qed.


(** * More properties of the crypto package *)

Section MoreProperties.
Context `{RT : Runtime}.

Implicit Types (data buf nonce sealed kemCiphertext : bytes).
Implicit Types (result : TestResult) (w : Reader) (out : returned).
Implicit Types (scheme : kem_Scheme Reader kem_PublicKey kem_PrivateKey).

(** ** Every way through an executor *)

(** An executor ends fatally in its encryption half, or it gets through it
    and ends as its decryption half does on the serialized buffer. *)
Lemma testAES256GCM_reaches data result w out w' :
  testAES256GCM data result w = (out, w') →
  (∃ err, out = fatal err) ∨
  (∃ (aead : cipher_AEAD) nonce,
     testAES256GCM_encrypts w aead nonce w' ∧
     out = testAES256GCM_decrypt aead data (Seal aead nonce nonce data [])
             (set_Encrypted (Seal aead nonce nonce data []) result)).
Proof.
  unfold testAES256GCM.
  destruct (io_ReadFull rand_Reader 32 w) as [[key|?] w1] eqn:Hkey;
    [|intros [= <- <-]; eauto].
  destruct (aes_NewCipher key) as [block|?] eqn:Hblock; [|intros [= <- <-]; eauto].
  destruct (cipher_NewGCM block) as [aead|?] eqn:Haead; [|intros [= <- <-]; eauto].
  destruct (io_ReadFull rand_Reader (NonceSize aead) w1) as [[nonce|?] w2] eqn:Hnonce;
    intros [= <- <-]; [|eauto].
  right. exists aead, nonce. split; [by econstructor|done].
Qed.

Lemma testChaCha20Poly1305_reaches data result w out w' :
  testChaCha20Poly1305 data result w = (out, w') →
  (∃ err, out = fatal err) ∨
  (∃ (aead : cipher_AEAD) nonce,
     testChaCha20Poly1305_encrypts w aead nonce w' ∧
     out = testChaCha20Poly1305_decrypt aead data (Seal aead nonce nonce data [])
             (set_Encrypted (Seal aead nonce nonce data []) result)).
Proof.
  unfold testChaCha20Poly1305.
  destruct (io_ReadFull rand_Reader chacha20poly1305_KeySize w)
    as [[key|?] w1] eqn:Hkey; [|intros [= <- <-]; eauto].
  destruct (chacha20poly1305_New key) as [aead|?] eqn:Haead;
    [|intros [= <- <-]; eauto].
  destruct (io_ReadFull rand_Reader (NonceSize aead) w1) as [[nonce|?] w2] eqn:Hnonce;
    intros [= <- <-]; [|eauto].
  right. exists aead, nonce. split; [by econstructor|done].
Qed.

Lemma testKyber_reaches scheme data result w out w' :
  testKyber scheme data result w = (out, w') →
  (∃ err, out = fatal err) ∨
  (∃ private ciphertext sharedSecret (aead : cipher_AEAD) nonce,
     testKyber_encrypts scheme w private ciphertext sharedSecret aead nonce w' ∧
     out = testKyber_decrypt scheme private data
             (set_Encrypted
                (spec_kem_layout ciphertext nonce (Seal aead [] nonce data []))
                result)).
Proof.
  unfold testKyber.
  destruct (GenerateKeyPair scheme w) as [[[public private]|?] w1] eqn:Hpair;
    [|intros [= <- <-]; eauto].
  destruct (Encapsulate scheme public w1) as [[[ciphertext sharedSecret]|?] w2]
    eqn:Hencaps; [|intros [= <- <-]; eauto].
  destruct (aes_NewCipher sharedSecret) as [block|?] eqn:Hblock;
    [|intros [= <- <-]; eauto].
  destruct (cipher_NewGCM block) as [aead|?] eqn:Haead; [|intros [= <- <-]; eauto].
  destruct (io_ReadFull rand_Reader (NonceSize aead) w2) as [[nonce|?] w3] eqn:Hnonce;
    intros [= <- <-]; [|eauto].
  right. exists private, ciphertext, sharedSecret, aead, nonce.
  split; [by econstructor|done].
Qed.

Lemma testHybridKyberAES_reaches scheme data result w out w' :
  testHybridKyberAES scheme data result w = (out, w') →
  (∃ err, out = fatal err) ∨
  (∃ private aesKey ciphertext sharedSecret (aead : cipher_AEAD) nonce
     (aesKeyAead : cipher_AEAD) aesKeyNonce,
     testHybridKyberAES_encrypts scheme w private aesKey ciphertext sharedSecret
       aead nonce aesKeyAead aesKeyNonce w' ∧
     out = testHybridKyberAES_decrypt scheme private data
             (set_Encrypted
                (spec_hybrid_layout ciphertext aesKeyNonce
                   (Seal aesKeyAead [] aesKeyNonce aesKey []) nonce
                   (Seal aead [] nonce data []))
                result)).
Proof.
  unfold testHybridKyberAES.
  destruct (GenerateKeyPair scheme w) as [[[public private]|?] w1] eqn:Hpair;
    [|intros [= <- <-]; eauto].
  destruct (io_ReadFull rand_Reader 32 w1) as [[aesKey|?] w2] eqn:Hkey;
    [|intros [= <- <-]; eauto].
  destruct (Encapsulate scheme public w2) as [[[ciphertext sharedSecret]|?] w3]
    eqn:Hencaps; [|intros [= <- <-]; eauto].
  rewrite slice_to_payload_key
    by (apply io_ReadFull_length in Hkey; rewrite length_app; lia).
  destruct (aes_NewCipher (spec_payload_key sharedSecret aesKey)) as [block|?]
    eqn:Hblock; [|intros [= <- <-]; eauto].
  destruct (cipher_NewGCM block) as [aead|?] eqn:Haead; [|intros [= <- <-]; eauto].
  destruct (io_ReadFull rand_Reader (NonceSize aead) w3) as [[nonce|?] w4] eqn:Hnonce;
    [|intros [= <- <-]; eauto].
  destruct (aes_NewCipher sharedSecret) as [aesKeyBlock|?] eqn:HkeyBlock;
    [|intros [= <- <-]; eauto].
  destruct (cipher_NewGCM aesKeyBlock) as [aesKeyAead|?] eqn:HkeyAead;
    [|intros [= <- <-]; eauto].
  destruct (io_ReadFull rand_Reader (NonceSize aesKeyAead) w4)
    as [[aesKeyNonce|?] w5] eqn:HkeyNonce; intros [= <- <-]; [|eauto].
  right. exists private, aesKey, ciphertext, sharedSecret, aead, nonce,
    aesKeyAead, aesKeyNonce.
  split; [by econstructor|done].
Qed.

(** ** Every way through a decryption half *)

(** What one AEAD layer over the payload does: it fails or it recovers. *)
Lemma payload_cases (aead : cipher_AEAD) data nonce sealed result :
  (payload_fails aead data nonce sealed ∧
   match Open aead [] nonce sealed [] with
   | Err _ => soft result
   | Ok plaintext => verdict plaintext data result
   end = soft result) ∨
  (Open aead [] nonce sealed [] = Ok data ∧
   match Open aead [] nonce sealed [] with
   | Err _ => soft result
   | Ok plaintext => verdict plaintext data result
   end = success result).
Proof.
  destruct (Open aead [] nonce sealed []) as [plaintext|err] eqn:Hopen.
  - destruct (decide (plaintext = data)) as [->|Hdiff].
    + right. split; [done|]. apply verdict_same.
    + left. split; [by eapply plaintext_differs|]. by apply verdict_differs.
  - left. split; [by eapply authentication_fails|done].
Qed.

Lemma testAES256GCM_decrypt_cases (aead : cipher_AEAD) data buf result :
  let out := testAES256GCM_decrypt aead data buf result in
  (∃ err, out = fatal err) ∨
  (classic_fails aead data buf ∧ out = soft result) ∨
  (classic_recovers aead data buf ∧ out = success result).
Proof.
  intros out. subst out.
  destruct (decide (length buf < NonceSize aead)) as [Hshort|Hlong].
  { left. eexists. by apply testAES256GCM_decrypt_truncated. }
  right.
  assert (Hnonce : length (take (NonceSize aead) buf) = NonceSize aead)
    by (rewrite length_take; lia).
  rewrite <- (take_drop (NonceSize aead) buf).
  generalize dependent (take (NonceSize aead) buf).
  generalize (drop (NonceSize aead) buf). clear buf Hlong.
  intros sealed nonce Hnonce.
  fold (spec_classic_layout nonce sealed).
  rewrite testAES256GCM_decrypt_fields by done. unfold spec_classic_layout.
  destruct (payload_cases aead data nonce sealed result) as [[Hfails ->]|[Hopen ->]].
  - left. split; [by econstructor|done].
  - right. split; [by econstructor|done].
Qed.

Lemma testChaCha20Poly1305_decrypt_cases (aead : cipher_AEAD) data buf result :
  let out := testChaCha20Poly1305_decrypt aead data buf result in
  (∃ err, out = fatal err) ∨
  (classic_fails aead data buf ∧ out = soft result) ∨
  (classic_recovers aead data buf ∧ out = success result).
Proof.
  intros out. subst out.
  destruct (decide (length buf < NonceSize aead)) as [Hshort|Hlong].
  { left. eexists. by apply testChaCha20Poly1305_decrypt_truncated. }
  right.
  assert (Hnonce : length (take (NonceSize aead) buf) = NonceSize aead)
    by (rewrite length_take; lia).
  rewrite <- (take_drop (NonceSize aead) buf).
  generalize dependent (take (NonceSize aead) buf).
  generalize (drop (NonceSize aead) buf). clear buf Hlong.
  intros sealed nonce Hnonce.
  fold (spec_classic_layout nonce sealed).
  rewrite testChaCha20Poly1305_decrypt_fields by done. unfold spec_classic_layout.
  destruct (payload_cases aead data nonce sealed result) as [[Hfails ->]|[Hopen ->]].
  - left. split; [by econstructor|done].
  - right. split; [by econstructor|done].
Qed.

Lemma testKyber_decrypt_cases scheme private data result :
  let out := testKyber_decrypt scheme private data result in
  (∃ err, out = fatal err) ∨
  (testKyber_fails scheme private data (Encrypted result) ∧ out = soft result) ∨
  (testKyber_recovers scheme private data (Encrypted result) ∧ out = success result).
Proof.
  intros out. subst out. unfold testKyber_decrypt.
  set (K := CiphertextSize scheme). set (buf := Encrypted result).
  case_decide as HK; [left; eauto|].
  assert (Hkem : length (take K buf) = K) by (rewrite length_take; lia).
  destruct (Decapsulate scheme private (take K buf)) as [sharedSecret|err] eqn:Hdecaps.
  2: { right. left. split; [|done].
       eapply testKyber_decapsulation_fails; [|exact Hkem|exact Hdecaps].
       by rewrite take_drop. }
  destruct (aes_NewCipher sharedSecret) as [block|err] eqn:Hblock; [|left; eauto].
  destruct (cipher_NewGCM block) as [aead|err] eqn:Haead; [|left; eauto].
  set (N := NonceSize aead).
  case_decide as HN; [left; eauto|].
  assert (Hnonce : length (take N (drop K buf)) = N) by (rewrite length_take; lia).
  assert (Hbuf : buf = take K buf ++ take N (drop K buf) ++ drop N (drop K buf))
    by (by rewrite !take_drop).
  destruct (payload_cases aead data (take N (drop K buf)) (drop N (drop K buf)) result)
    as [[Hfails ->]|[Hopen ->]]; right.
  - left. split; [|done]. by eapply testKyber_payload_fails.
  - right. split; [|done]. by econstructor.
Qed.

Lemma testHybridKyberAES_decrypt_overruns scheme private data result :
  testHybridKyberAES_overruns scheme private (Encrypted result) →
  testHybridKyberAES_decrypt scheme private data result
  = Panic "slice bounds out of range".
Proof.
  intros [kemCiphertext keyNonce wrappedKey rest sharedSecret keyBlock keyAead
            symmetricKey Hbuf Hkem Hdecaps HkeyBlock HkeyAead HkeyNonce Hwrapped
            Hunwrap Hshort].
  erewrite testHybridKyberAES_decrypt_unwraps by eauto.
  by rewrite Hunwrap, slice_to_None.
Qed.

Lemma testHybridKyberAES_decrypt_cases scheme private data result :
  let out := testHybridKyberAES_decrypt scheme private data result in
  (∃ err, out = fatal err) ∨
  (testHybridKyberAES_fails scheme private data (Encrypted result) ∧
   out = soft result) ∨
  (testHybridKyberAES_recovers scheme private data (Encrypted result) ∧
   out = success result) ∨
  (testHybridKyberAES_overruns scheme private (Encrypted result) ∧
   out = Panic "slice bounds out of range").
Proof.
  intros out. subst out. unfold testHybridKyberAES_decrypt.
  set (K := CiphertextSize scheme). set (buf := Encrypted result).
  case_decide as HK; [left; eauto|].
  assert (Hkem : length (take K buf) = K) by (rewrite length_take; lia).
  destruct (Decapsulate scheme private (take K buf)) as [sharedSecret|err] eqn:Hdecaps.
  2: { right. left. split; [|done].
       eapply testHybridKyberAES_decapsulation_fails; [|exact Hkem|exact Hdecaps].
       by rewrite take_drop. }
  destruct (aes_NewCipher sharedSecret) as [keyBlock|err] eqn:HkeyBlock;
    [|left; eauto].
  destruct (cipher_NewGCM keyBlock) as [keyAead|err] eqn:HkeyAead; [|left; eauto].
  set (N := NonceSize keyAead).
  case_decide as HN; [left; eauto|].
  assert (HkeyNonce : length (take N (drop K buf)) = N) by (rewrite length_take; lia).
  set (rest := drop N (drop K buf)).
  case_decide as HW; [left; eauto|].
  assert (Hwrapped : length (take (32 + 16) rest) = 32 + 16)
    by (rewrite length_take; lia).
  assert (Hbuf : buf = take K buf ++ take N (drop K buf) ++ take (32 + 16) rest
                       ++ drop (32 + 16) rest)
    by (subst rest; by rewrite !take_drop).
  destruct (Open keyAead [] (take N (drop K buf)) (take (32 + 16) rest) [])
    as [symmetricKey|err] eqn:Hunwrap.
  2: { right. left. split; [|done]. by eapply testHybridKyberAES_unwrap_fails. }
  unfold slice_to. case_decide as Hlong.
  2: { do 3 right. split; [|done]. econstructor; eauto. lia. }
  fold (spec_payload_key sharedSecret symmetricKey).
  destruct (aes_NewCipher (spec_payload_key sharedSecret symmetricKey))
    as [block|err] eqn:Hblock; [|left; eauto].
  destruct (cipher_NewGCM block) as [aead|err] eqn:Haead; [|left; eauto].
  set (M := NonceSize aead). set (tail := drop (32 + 16) rest).
  case_decide as HM; [left; eauto|].
  assert (HdataNonce : length (take M tail) = M) by (rewrite length_take; lia).
  assert (Hlayout : buf = spec_hybrid_layout (take K buf) (take N (drop K buf))
                            (take (32 + 16) rest) (take M tail) (drop M tail)).
  { unfold spec_hybrid_layout. subst tail. by rewrite take_drop. }
  destruct (payload_cases aead data (take M tail) (drop M tail) result)
    as [[Hfails ->]|[Hopen ->]]; right.
  - left. split; [|done]. by eapply testHybridKyberAES_payload_fails.
  - right. left. split; [|done]. by econstructor.
Qed.

(** ** Every way through [TestAlgorithm] *)

Lemma TestAlgorithm_fails_serializes data w algorithm buf w' :
  TestAlgorithm_fails data w algorithm buf w' →
  TestAlgorithm_serializes data w algorithm buf w'.
Proof. intros [| | | |]; subst; by econstructor. Qed.

Lemma TestAlgorithm_recovers_serializes data w algorithm buf w' :
  TestAlgorithm_recovers data w algorithm buf w' →
  TestAlgorithm_serializes data w algorithm buf w'.
Proof. intros [| | | |]; subst; by econstructor. Qed.

(** A call of [TestAlgorithm] ends in one of four ways: with an error, with
    a result after a cryptographic failure, with a result after the input
    came back, or in the slice of the hybrid executor. *)
Lemma TestAlgorithm_cases algorithm data w out w' :
  TestAlgorithm algorithm data w = (out, w') →
  (∃ err, out = fatal err) ∨
  (∃ buf, TestAlgorithm_fails data w algorithm buf w' ∧
          out = soft (set_Encrypted buf (blank algorithm))) ∨
  (∃ buf, TestAlgorithm_recovers data w algorithm buf w' ∧
          out = success (set_Encrypted buf (blank algorithm))) ∨
  (algorithm = "hybrid-kyber768-aes256gcm" ∧
   testHybridKyberAES_panics kyber768_Scheme data w w' ∧
   out = Panic "slice bounds out of range").
Proof.
  unfold TestAlgorithm. fold (blank algorithm).
  repeat case_decide; subst; intros Hrun.
  - apply testAES256GCM_reaches in Hrun as [?|(aead & nonce & Henc & ->)]; [by left|].
    destruct (testAES256GCM_decrypt_cases aead data (Seal aead nonce nonce data [])
                (set_Encrypted (Seal aead nonce nonce data []) (blank "aes256gcm")))
      as [?|[[? ?]|[? ?]]]; [by left| |].
    + right. left. eexists. split; [by econstructor|done].
    + right. right. left. eexists. split; [by econstructor|done].
  - apply testChaCha20Poly1305_reaches in Hrun as [?|(aead & nonce & Henc & ->)];
      [by left|].
    destruct (testChaCha20Poly1305_decrypt_cases aead data
                (Seal aead nonce nonce data [])
                (set_Encrypted (Seal aead nonce nonce data [])
                   (blank "chacha20poly1305")))
      as [?|[[? ?]|[? ?]]]; [by left| |].
    + right. left. eexists. split; [by econstructor|done].
    + right. right. left. eexists. split; [by econstructor|done].
  - apply testKyber_reaches in Hrun
      as [?|(private & ct & ss & aead & nonce & Henc & ->)]; [by left|].
    match goal with |- context [testKyber_decrypt ?s ?p ?d ?r] =>
      destruct (testKyber_decrypt_cases s p d r) as [?|[[? ?]|[? ?]]] end;
      [by left| |].
    + right. left. eexists. split; [by eapply @kyber768_fails|done].
    + right. right. left. eexists. split; [by eapply @kyber768_recovers|done].
  - apply testKyber_reaches in Hrun
      as [?|(private & ct & ss & aead & nonce & Henc & ->)]; [by left|].
    match goal with |- context [testKyber_decrypt ?s ?p ?d ?r] =>
      destruct (testKyber_decrypt_cases s p d r) as [?|[[? ?]|[? ?]]] end;
      [by left| |].
    + right. left. eexists. split; [by eapply @kyber1024_fails|done].
    + right. right. left. eexists. split; [by eapply @kyber1024_recovers|done].
  - apply testHybridKyberAES_reaches in Hrun
      as [?|(private & aesKey & ct & ss & aead & nonce & keyAead & keyNonce
             & Henc & ->)]; [by left|].
    match goal with |- context [testHybridKyberAES_decrypt ?s ?p ?d ?r] =>
      destruct (testHybridKyberAES_decrypt_cases s p d r)
        as [?|[[? ?]|[[? ?]|[? ?]]]] end; [by left| | |].
    + right. left. eexists. split; [by eapply @hybrid_fails|done].
    + right. right. left. eexists. split; [by eapply @hybrid_recovers|done].
    + do 3 right. split; [done|]. split; [by econstructor|done].
  - left. injection Hrun as <- <-. eauto.
Qed.

(** The decryption halves, when the input comes back. *)
Lemma testAES256GCM_decrypt_recovers (aead : cipher_AEAD) data buf result :
  classic_recovers aead data buf →
  testAES256GCM_decrypt aead data buf result = success result.
Proof.
  intros [nonce sealed -> Hnonce Hopen].
  fold (spec_classic_layout nonce sealed).
  rewrite testAES256GCM_decrypt_fields, Hopen by done. apply verdict_same.
Qed.

Lemma testChaCha20Poly1305_decrypt_recovers (aead : cipher_AEAD) data buf result :
  classic_recovers aead data buf →
  testChaCha20Poly1305_decrypt aead data buf result = success result.
Proof.
  intros [nonce sealed -> Hnonce Hopen].
  fold (spec_classic_layout nonce sealed).
  rewrite testChaCha20Poly1305_decrypt_fields, Hopen by done. apply verdict_same.
Qed.

Lemma testKyber_decrypt_recovers scheme private data result :
  testKyber_recovers scheme private data (Encrypted result) →
  testKyber_decrypt scheme private data result = success result.
Proof.
  intros [kemCiphertext nonce sealed sharedSecret block aead
            Hbuf Hkem Hdecaps Hblock Haead Hnonce Hopen].
  erewrite testKyber_decrypt_fields by eauto. rewrite Hopen. apply verdict_same.
Qed.

Lemma testHybridKyberAES_decrypt_recovers scheme private data result :
  testHybridKyberAES_recovers scheme private data (Encrypted result) →
  testHybridKyberAES_decrypt scheme private data result = success result.
Proof.
  intros [kemCiphertext keyNonce wrappedKey dataNonce sealed
            sharedSecret keyBlock keyAead symmetricKey block aead
            Hbuf Hkem Hdecaps HkeyBlock HkeyAead HkeyNonce Hwrapped Hunwrap
            Hlong Hblock Haead HdataNonce Hopen].
  erewrite testHybridKyberAES_decrypt_fields by eauto.
  rewrite Hopen. apply verdict_same.
Qed.

Lemma TestAlgorithm_fails_soft data w algorithm buf w' :
  TestAlgorithm_fails data w algorithm buf w' →
  TestAlgorithm algorithm data w = (soft (set_Encrypted buf (blank algorithm)), w').
Proof.
  intros [aead nonce w1 Hrun Hfails
         | aead nonce w1 Hrun Hfails
         | private ciphertext sharedSecret aead nonce w1 buf' Hrun -> Hfails
         | private ciphertext sharedSecret aead nonce w1 buf' Hrun -> Hfails
         | private aesKey ciphertext sharedSecret aead nonce aesKeyAead aesKeyNonce
             w1 buf' Hrun -> Hfails].
  - rewrite TestAlgorithm_aes256gcm.
    erewrite testAES256GCM_runs_decrypt by done.
    by rewrite testAES256GCM_decrypt_fails.
  - rewrite TestAlgorithm_chacha20poly1305.
    erewrite testChaCha20Poly1305_runs_decrypt by done.
    by rewrite testChaCha20Poly1305_decrypt_fails.
  - rewrite TestAlgorithm_kyber768.
    erewrite testKyber_runs_decrypt by done.
    by rewrite testKyber_decrypt_fails.
  - rewrite TestAlgorithm_kyber1024.
    erewrite testKyber_runs_decrypt by done.
    by rewrite testKyber_decrypt_fails.
  - rewrite TestAlgorithm_hybrid.
    erewrite testHybridKyberAES_runs_decrypt by done.
    by rewrite testHybridKyberAES_decrypt_fails.
Qed.

Lemma TestAlgorithm_recovers_success data w algorithm buf w' :
  TestAlgorithm_recovers data w algorithm buf w' →
  TestAlgorithm algorithm data w
  = (success (set_Encrypted buf (blank algorithm)), w').
Proof.
  intros [aead nonce w1 Hrun Hrec
         | aead nonce w1 Hrun Hrec
         | private ciphertext sharedSecret aead nonce w1 buf' Hrun -> Hrec
         | private ciphertext sharedSecret aead nonce w1 buf' Hrun -> Hrec
         | private aesKey ciphertext sharedSecret aead nonce aesKeyAead aesKeyNonce
             w1 buf' Hrun -> Hrec].
  - rewrite TestAlgorithm_aes256gcm.
    erewrite testAES256GCM_runs_decrypt by done.
    by rewrite testAES256GCM_decrypt_recovers.
  - rewrite TestAlgorithm_chacha20poly1305.
    erewrite testChaCha20Poly1305_runs_decrypt by done.
    by rewrite testChaCha20Poly1305_decrypt_recovers.
  - rewrite TestAlgorithm_kyber768.
    erewrite testKyber_runs_decrypt by done.
    by rewrite testKyber_decrypt_recovers.
  - rewrite TestAlgorithm_kyber1024.
    erewrite testKyber_runs_decrypt by done.
    by rewrite testKyber_decrypt_recovers.
  - rewrite TestAlgorithm_hybrid.
    erewrite testHybridKyberAES_runs_decrypt by done.
    by rewrite testHybridKyberAES_decrypt_recovers.
Qed.

Lemma testHybridKyberAES_panics_Panic scheme data result w w' :
  testHybridKyberAES_panics scheme data w w' →
  testHybridKyberAES scheme data result w = (Panic "slice bounds out of range", w').
Proof.
  intros [private aesKey ciphertext sharedSecret aead nonce aesKeyAead aesKeyNonce
            w1 Hrun Hover].
  erewrite testHybridKyberAES_runs_decrypt by done.
  by rewrite testHybridKyberAES_decrypt_overruns.
Qed.

(** X1. Whatever the libraries do, a call of [TestAlgorithm] that returns
    gives back either a result and a nil error, or a nil result and an
    error: never both, never neither. *)
Theorem TestAlgorithm_result_or_error algorithm data w
    (returned_result : option TestResult) (err : option error) w' :
  TestAlgorithm algorithm data w = (Return returned_result err, w') →
  (is_Some returned_result ∧ err = None) ∨ (returned_result = None ∧ is_Some err).
Proof.
  intros Hrun.
  destruct (TestAlgorithm_cases _ _ _ _ _ Hrun)
    as [[e [= -> ->]]|[(buf & _ & [= -> ->])|[(buf & _ & [= -> ->])|(_ & _ & ?)]]];
    [right|left|left|done]; eauto.
Qed.

(** X2. Whatever the libraries do, a result that [TestAlgorithm] returns,
    flagged successful or not, carries the requested name and the buffer
    that a completed encryption half serialized. *)
Theorem TestAlgorithm_result_serialized algorithm data w (t : TestResult)
    (err : option error) w' :
  TestAlgorithm algorithm data w = (Return (Some t) err, w') →
  result_Algorithm t = algorithm ∧
  TestAlgorithm_serializes data w algorithm (Encrypted t) w'.
Proof.
  intros Hrun.
  destruct (TestAlgorithm_cases _ _ _ _ _ Hrun)
    as [[e [=]]|[(buf & Hfails & [= -> _])|[(buf & Hrec & [= -> _])|(_ & _ & ?)]]];
    [| |done]; (split; [done|]); simpl.
  - by apply TestAlgorithm_fails_serializes.
  - by apply TestAlgorithm_recovers_serializes.
Qed.

(** X3. Whatever the libraries do, the flag of a returned result is true
    exactly when the decryption self-test opened the serialized buffer to
    the input, and false exactly when the decapsulation or an
    authentication failed or the plaintext differed. *)
Theorem DecryptionSuccessful_iff algorithm data w (t : TestResult)
    (err : option error) w' :
  TestAlgorithm algorithm data w = (Return (Some t) err, w') →
  (DecryptionSuccessful t = true ↔
   TestAlgorithm_recovers data w algorithm (Encrypted t) w') ∧
  (DecryptionSuccessful t = false ↔
   TestAlgorithm_fails data w algorithm (Encrypted t) w').
Proof.
  intros Hrun. split; split.
  - intros Hflag.
    destruct (TestAlgorithm_cases _ _ _ _ _ Hrun)
      as [[e [=]]|[(buf & _ & [= -> _])|[(buf & Hrec & [= -> _])|(_ & _ & ?)]]];
      done.
  - intros Hrec. apply TestAlgorithm_recovers_success in Hrec.
    rewrite Hrun in Hrec. by injection Hrec as ->.
  - intros Hflag.
    destruct (TestAlgorithm_cases _ _ _ _ _ Hrun)
      as [[e [=]]|[(buf & Hfails & [= -> _])|[(buf & _ & [= -> _])|(_ & _ & ?)]]];
      done.
  - intros Hfails. apply TestAlgorithm_fails_soft in Hfails.
    rewrite Hrun in Hfails. by injection Hfails as ->.
Qed.

(** X4. The one slice that is cut without a length check is
    [hybridKeyDecrypt[:32]]: [TestAlgorithm] panics exactly for the hybrid
    name, when its decryption self-test has decapsulated a secret and
    unwrapped a key that together have fewer than 32 bytes. The four other
    names never panic on a slice. *)
Theorem TestAlgorithm_panics_iff algorithm data w msg w' :
  TestAlgorithm algorithm data w = (Panic msg, w') ↔
  algorithm = "hybrid-kyber768-aes256gcm" ∧
  testHybridKyberAES_panics kyber768_Scheme data w w' ∧
  msg = "slice bounds out of range".
Proof.
  split.
  - intros Hrun.
    destruct (TestAlgorithm_cases _ _ _ _ _ Hrun)
      as [[e [=]]|[(buf & _ & [=])|[(buf & _ & [=])|(-> & Hpanics & [= ->])]]].
    done.
  - intros (-> & Hpanics & ->). rewrite TestAlgorithm_hybrid.
    by apply testHybridKyberAES_panics_Panic.
Qed.

(** X5. Whatever the libraries do, a result returned for a KEM-based name,
    flagged successful or not, has at least as many bytes as the KEM
    ciphertext of its scheme. *)
Theorem Encrypted_holds_kem_ciphertext algorithm data w (t : TestResult)
    (err : option error) w' :
  TestAlgorithm algorithm data w = (Return (Some t) err, w') →
  (algorithm = "kyber768" ∨ algorithm = "hybrid-kyber768-aes256gcm" →
   CiphertextSize kyber768_Scheme ≤ length (Encrypted t)) ∧
  (algorithm = "kyber1024" →
   CiphertextSize kyber1024_Scheme ≤ length (Encrypted t)).
Proof.
  intros Hrun.
  assert (Hkyber : ∀ scheme private buf,
    testKyber_fails scheme private data buf ∨ testKyber_recovers scheme private data buf →
    CiphertextSize scheme ≤ length buf).
  { intros scheme private buf [[| ]|[]]; subst buf; rewrite length_app; lia. }
  assert (Hhybrid : ∀ scheme private buf,
    testHybridKyberAES_fails scheme private data buf ∨
    testHybridKyberAES_recovers scheme private data buf →
    CiphertextSize scheme ≤ length buf).
  { intros scheme private buf [[| |]|[]]; subst buf; unfold spec_hybrid_layout;
      rewrite length_app; lia. }
  destruct (TestAlgorithm_cases _ _ _ _ _ Hrun)
    as [[e [=]]|[(buf & Hcase & [= -> _])|[(buf & Hcase & [= -> _])|(_ & _ & ?)]]];
    [| |done]; simpl;
    (split; [intros [->| ->]| intros ->]); inversion Hcase; subst; eauto.
Qed.

(** X6. With a KEM that keeps its contract for kyber768, [TestAlgorithm]
    never panics, whatever the random source and the ciphers do: the
    decapsulated secret alone has the 32 bytes that
    [hybridKeyDecrypt[:32]] needs. *)
Theorem TestAlgorithm_never_panics algorithm data w msg w' :
  kem_law kyber768_Scheme →
  TestAlgorithm algorithm data w ≠ (Panic msg, w').
Proof.
  intros Hkem Hrun.
  destruct (TestAlgorithm_cases _ _ _ _ _ Hrun)
    as [[e [=]]|[(buf & _ & [=])|[(buf & _ & [=])|(_ & Hpanics & _)]]].
  destruct Hpanics as [private aesKey ciphertext sharedSecret aead nonce
                         aesKeyAead aesKeyNonce w5 Henc Hover].
  destruct Henc as [public private w1 aesKey w2 ciphertext sharedSecret w3 block
                      aead nonce w4 aesKeyBlock aesKeyAead aesKeyNonce w5
                      Hpair Hkey Hencaps _ _ _ _ _ _].
  destruct (Hkem w) as (public' & private' & w1' & Hpair' & Hlaw).
  rewrite Hpair in Hpair'. injection Hpair' as <- <- <-.
  destruct (Hlaw w2) as (ciphertext' & sharedSecret' & w3' & Hencaps' & Hsize & Hlen
                         & Hdecaps).
  rewrite Hencaps in Hencaps'. injection Hencaps' as <- <- <-.
  destruct Hover as [kemCiphertext keyNonce wrappedKey rest decapsulated keyBlock
                       keyAead symmetricKey Hbuf Hcut Hdecaps' _ _ _ _ _ Hshort].
  unfold spec_hybrid_layout in Hbuf.
  apply app_inj_1 in Hbuf as [<- _]; [|congruence].
  rewrite Hdecaps in Hdecaps'. injection Hdecaps' as <-.
  rewrite length_app in Hshort. lia.
Qed.

End MoreProperties.

(** * Properties of the default algorithms *)

Section DefaultProperties.
Context `{RT : Runtime}.
Variable below : string → string.

Lemma listed_nonempty (algorithm : string) (postQuantum : bool) :
  algorithm ∈ Name <$> (if postQuantum then ListPostQuantumAlgorithms
                        else ListClassicAlgorithms) →
  algorithm ≠ "".
Proof.
  destruct postQuantum; simpl; rewrite !elem_of_cons, elem_of_nil;
    intros Hin ->; intuition discriminate.
Qed.

Lemma SetDefaultAlgorithm_settings (algorithm : string) (postQuantum : bool)
    (settings : gmap string string) (file : ConfigFile) :
  algorithm ∈ Name <$> (if postQuantum then ListPostQuantumAlgorithms
                        else ListClassicAlgorithms) →
  (SetDefaultAlgorithm algorithm postQuantum settings file).2.1
  = <[default_key postQuantum := algorithm]> settings.
Proof.
  intros Hin. unfold SetDefaultAlgorithm, default_key, viper_Set.
  destruct postQuantum; apply name_listed_elem_of in Hin; rewrite Hin; simpl;
    by destruct (viper_WriteConfig _ file).
Qed.

(** X7. After [SetDefaultAlgorithm] has taken a name of the category,
    [GetDefaultAlgorithm] returns this name for the category, also when
    writing the configuration file failed and [SetDefaultAlgorithm]
    returned the error; the default of the other category is what it was. *)
Theorem GetDefaultAlgorithm_after_Set (algorithm : string) (postQuantum : bool)
    (settings : gmap string string) (file : ConfigFile) :
  algorithm ∈ Name <$> (if postQuantum then ListPostQuantumAlgorithms
                        else ListClassicAlgorithms) →
  let settings' := (SetDefaultAlgorithm algorithm postQuantum settings file).2.1 in
  GetDefaultAlgorithm below postQuantum settings' = algorithm ∧
  GetDefaultAlgorithm below (negb postQuantum) settings'
  = GetDefaultAlgorithm below (negb postQuantum) settings.
Proof.
  intros Hin settings'. subst settings'.
  rewrite SetDefaultAlgorithm_settings by done.
  apply listed_nonempty in Hin.
  unfold GetDefaultAlgorithm, viper_GetString, default_key.
  destruct postQuantum; simpl.
  - rewrite lookup_insert_eq, decide_False by done.
    by rewrite lookup_insert_ne.
  - rewrite lookup_insert_eq, decide_False by done.
    by rewrite lookup_insert_ne.
Qed.


End DefaultProperties.


(** * Properties of the tunnel package *)

Section TunnelProperties.
Context `{P : tunnel.Platform}.

(** ** validateConfig *)

(** What [validateConfig] lets through. *)
Lemma validateConfig_None_iff (config : tunnel.Config) :
  tunnel.validateConfig config = None ↔
  tunnel.Name config ≠ "" ∧ tunnel.LocalIP config ≠ "" ∧
  tunnel.RemoteIP config ≠ "" ∧ tunnel.LocalSubnet config ≠ "" ∧
  tunnel.RemoteSubnet config ≠ "" ∧
  (tunnel.Encryption config = "" ∨
   tunnel.Encryption config ∈ Name <$> ListClassicAlgorithms ∨
   (tunnel.PostQuantum config = true ∧
    tunnel.Encryption config ∈ Name <$> ListPostQuantumAlgorithms)).
Proof.
  unfold tunnel.validateConfig. rewrite <- !name_listed_elem_of.
  repeat case_decide; try (split; [done | tauto]).
  - split; [tauto | done].
  - destruct (name_listed _ ListClassicAlgorithms), (tunnel.PostQuantum config),
      (name_listed _ ListPostQuantumAlgorithms); simpl;
      split; try done; try tauto; intros (_ & _ & _ & _ & _ & [?|[?|[? ?]]]); done.
Qed.

(** X9. [validateConfig] accepts a configuration exactly when its name
    and its four address fields are not empty and its encryption is empty,
    or a classic name, or a post-quantum name in a configuration flagged
    post-quantum. *)
Theorem validateConfig_accepts_iff (config : tunnel.Config) :
  tunnel.validateConfig config = None ↔
  tunnel.Name config ≠ "" ∧ tunnel.LocalIP config ≠ "" ∧
  tunnel.RemoteIP config ≠ "" ∧ tunnel.LocalSubnet config ≠ "" ∧
  tunnel.RemoteSubnet config ≠ "" ∧
  (tunnel.Encryption config = "" ∨
   tunnel.Encryption config ∈ Name <$> ListClassicAlgorithms ∨
   (tunnel.PostQuantum config = true ∧
    tunnel.Encryption config ∈ Name <$> ListPostQuantumAlgorithms)).
Proof. apply validateConfig_None_iff. Qed.

(** X10. Every encryption that [validateConfig] accepts and that is not
    empty is a name that [TestAlgorithm] dispatches. *)
Theorem validateConfig_accepts_registered (config : tunnel.Config) :
  tunnel.validateConfig config = None →
  tunnel.Encryption config ≠ "" →
  tunnel.Encryption config ∈ registered_names.
Proof.
  intros (_ & _ & _ & _ & _ & Henc)%validateConfig_None_iff Hnonempty.
  unfold registered_names. rewrite fmap_app, elem_of_app. tauto.
Qed.

(** X11. A post-quantum name is rejected in a configuration that does not
    set [PostQuantum]: the second list is consulted only under the flag. *)
Theorem validateConfig_post_quantum_needs_flag (config : tunnel.Config) :
  tunnel.Encryption config ∈ Name <$> ListPostQuantumAlgorithms →
  tunnel.PostQuantum config = false →
  is_Some (tunnel.validateConfig config).
Proof.
  intros Hin Hflag.
  destruct (tunnel.validateConfig config) as [?|] eqn:Hvalid; [done|].
  apply validateConfig_None_iff in Hvalid as (_ & _ & _ & _ & _ & Henc).
  rewrite Hflag in Henc. revert Hin Henc. simpl.
  rewrite !elem_of_cons, !elem_of_nil.
  intros [->|[->|[->|[]]]] [?|[[?|[?|[]]]|[? _]]]; discriminate.
Qed.

(** ** Get *)

Lemma getTunnelStatus_cases (t : tunnel.Tunnel) (w : tunnel.World) :
  (tunnel.getTunnelStatus t w).2 = None ∧
  (tunnel.runtime_GOOS = "darwin" →
   (tunnel.getTunnelStatus t w).1 = tunnel.tunnel_Status t) ∧
  (tunnel.runtime_GOOS ≠ "darwin" →
   (tunnel.getTunnelStatus t w).1 = tunnel.StatusUp ∨
   (tunnel.getTunnelStatus t w).1 = tunnel.StatusDown).
Proof.
  unfold tunnel.getTunnelStatus. case_decide; [by repeat split|].
  destruct (tunnel.netlink_LinkByName _ w) as [link|?];
    [destruct (tunnel.FlagUp link)|]; repeat split; try done; auto.
Qed.

(** X12. A tunnel that [Get] returns is the tunnel [loadTunnel] read, but
    for its status: on macOS the stored status stays, elsewhere the status
    is UP or DOWN whatever the file stores. [getTunnelStatus] never fails,
    so [Get] never sets UNKNOWN itself. *)
Theorem Get_status (name : string) (w w' : tunnel.World) (t : tunnel.Tunnel) :
  tunnel.Get name w = (Ok t, w') →
  ∃ stored,
    tunnel.loadTunnel name w = (Ok stored, w') ∧
    t = tunnel.set_Status (tunnel.tunnel_Status t) stored ∧
    (tunnel.runtime_GOOS = "darwin" →
     tunnel.tunnel_Status t = tunnel.tunnel_Status stored) ∧
    (tunnel.runtime_GOOS ≠ "darwin" →
     tunnel.tunnel_Status t = tunnel.StatusUp ∨
     tunnel.tunnel_Status t = tunnel.StatusDown).
Proof.
  unfold tunnel.Get.
  destruct (tunnel.loadTunnel name w) as [[stored|?] w1]; [|done].
  destruct (getTunnelStatus_cases stored w1) as (Hnil & Hdarwin & Hother).
  destruct (tunnel.getTunnelStatus stored w1) as [status err]. simpl in *. subst err.
  intros [= <- <-]. exists stored. simpl. by repeat split; auto.
Qed.

(** ** Delete *)

(** X13. With [force], [Delete] always ends in [deleteTunnelConfig] for the
    name: whether the tunnel is found or not, whether stopping it or
    removing its interface fails or not. *)
Theorem Delete_force_deletes_config (name : string) (w : tunnel.World) :
  ∃ w1, tunnel.Delete name true w = tunnel.deleteTunnelConfig name w1.
Proof.
  unfold tunnel.Delete.
  destruct (tunnel.Get name w) as [[t|?] w1]; [|by eexists].
  rewrite andb_false_r.
  match goal with |- context [tunnel.deleteTunnelInterface t ?w2] =>
    destruct (tunnel.deleteTunnelInterface t w2) as [[?|] w3] end; by eexists.
Qed.

(** X14. Without [force], [Delete] of a tunnel that [Get] reports UP returns
    the error "tunnel is active, stop it first or use --force" and leaves
    the machine as [Get] left it: nothing is stopped or removed. *)
Theorem Delete_refuses_active (name : string) (w w1 : tunnel.World)
    (t : tunnel.Tunnel) :
  tunnel.Get name w = (Ok t, w1) →
  tunnel.tunnel_Status t = tunnel.StatusUp →
  tunnel.Delete name false w
  = (Some "tunnel is active, stop it first or use --force", w1).
Proof.
  intros Hget Hup. unfold tunnel.Delete. rewrite Hget.
  by rewrite bool_decide_eq_true_2.
Qed.

(** ** Create *)

(** X15. [Create] returns a tunnel or an error, never both and never
    neither. A tunnel is returned only for a configuration that
    [validateConfig] accepts and a name that [Get] does not find; it has
    the status UP and the fields of the configuration as they are. In
    particular an empty encryption stays empty: the default that
    [validateConfig] assigns does not reach the tunnel. *)
Theorem Create_returns (config : tunnel.Config) (w w' : tunnel.World)
    (r : option tunnel.Tunnel) (e : option error) :
  tunnel.Create config w = ((r, e), w') →
  (r = None ∧ is_Some e) ∨
  (∃ t, r = Some t ∧ e = None ∧
     tunnel.validateConfig config = None ∧
     (∃ err w1, tunnel.Get (tunnel.Name config) w = (Err err, w1)) ∧
     tunnel.tunnel_Name t = tunnel.Name config ∧
     tunnel.tunnel_LocalIP t = tunnel.LocalIP config ∧
     tunnel.tunnel_RemoteIP t = tunnel.RemoteIP config ∧
     tunnel.tunnel_LocalSubnet t = tunnel.LocalSubnet config ∧
     tunnel.tunnel_RemoteSubnet t = tunnel.RemoteSubnet config ∧
     tunnel.tunnel_Encryption t = tunnel.Encryption config ∧
     tunnel.tunnel_PostQuantum t = tunnel.PostQuantum config ∧
     tunnel.tunnel_Status t = tunnel.StatusUp).
Proof.
  unfold tunnel.Create.
  destruct (tunnel.validateConfig config) as [?|] eqn:Hvalid;
    [intros [= <- <- <-]; left; eauto|].
  destruct (tunnel.Get (tunnel.Name config) w) as [[?|err] w1] eqn:Hget;
    [intros [= <- <- <-]; left; eauto|].
  destruct (tunnel.time_Now w1) as [createdAt w2].
  destruct (tunnel.time_Now w2) as [updatedAt w3].
  match goal with |- context [tunnel.saveTunnel ?t w3] =>
    set (tunnel0 := t); destruct (tunnel.saveTunnel tunnel0 w3) as [[?|] w4] end;
    [intros [= <- <- <-]; left; eauto|].
  destruct (tunnel.createTunnelInterface tunnel0 w4) as [[?|] w5].
  { destruct (tunnel.deleteTunnelConfig _ w5). intros [= <- <- <-]. left. eauto. }
  destruct (tunnel.startTunnel tunnel0 w5) as [[?|] w6].
  { destruct (tunnel.deleteTunnelInterface tunnel0 w6) as [? w7].
    destruct (tunnel.deleteTunnelConfig _ w7). intros [= <- <- <-]. left. eauto. }
  destruct (tunnel.saveTunnel _ w6) as [[?|] w7];
    intros [= <- <- <-]; [left; eauto|].
  right. eexists. repeat split; eauto.
Qed.

(** ** Start and Stop *)

(** X16. [Start] returns nil only for a tunnel that [Get] finds and that
    either is reported UP, and then nothing else happens, or has been
    started and saved with the status UP. [Stop] returns nil only for a
    tunnel that is reported DOWN, and then nothing else happens, or has
    been stopped and saved with the status DOWN. *)
Theorem Start_Stop_succeed (name : string) (w w' : tunnel.World) :
  (tunnel.Start name w = (None, w') →
   ∃ t w1, tunnel.Get name w = (Ok t, w1) ∧
     ((tunnel.tunnel_Status t = tunnel.StatusUp ∧ w' = w1) ∨
      (tunnel.tunnel_Status t ≠ tunnel.StatusUp ∧
       ∃ w2 now w3,
         tunnel.startTunnel t w1 = (None, w2) ∧
         tunnel.time_Now w2 = (now, w3) ∧
         tunnel.saveTunnel
           (tunnel.set_UpdatedAt now (tunnel.set_Status tunnel.StatusUp t)) w3
         = (None, w')))) ∧
  (tunnel.Stop name w = (None, w') →
   ∃ t w1, tunnel.Get name w = (Ok t, w1) ∧
     ((tunnel.tunnel_Status t = tunnel.StatusDown ∧ w' = w1) ∨
      (tunnel.tunnel_Status t ≠ tunnel.StatusDown ∧
       ∃ w2 now w3,
         tunnel.stopTunnel t w1 = (None, w2) ∧
         tunnel.time_Now w2 = (now, w3) ∧
         tunnel.saveTunnel
           (tunnel.set_UpdatedAt now (tunnel.set_Status tunnel.StatusDown t)) w3
         = (None, w')))).
Proof.
  split.
  - unfold tunnel.Start.
    destruct (tunnel.Get name w) as [[t|?] w1]; [|done].
    case_decide as Hup.
    { intros [= <-]. exists t, w1. split; [done|]. by left. }
    destruct (tunnel.startTunnel t w1) as [[?|] w2] eqn:Hstart; [done|].
    destruct (tunnel.time_Now w2) as [now w3] eqn:Hnow.
    destruct (tunnel.saveTunnel _ w3) as [[?|] w4] eqn:Hsave; [done|].
    intros [= <-]. exists t, w1. split; [done|]. right. split; [done|].
    by exists w2, now, w3.
  - unfold tunnel.Stop.
    destruct (tunnel.Get name w) as [[t|?] w1]; [|done].
    case_decide as Hdown.
    { intros [= <-]. exists t, w1. split; [done|]. by left. }
    destruct (tunnel.stopTunnel t w1) as [[?|] w2] eqn:Hstop; [done|].
    destruct (tunnel.time_Now w2) as [now w3] eqn:Hnow.
    destruct (tunnel.saveTunnel _ w3) as [[?|] w4] eqn:Hsave; [done|].
    intros [= <-]. exists t, w1. split; [done|]. right. split; [done|].
    by exists w2, now, w3.
Qed.

(** ** ListAll *)

Lemma ListAll_loop_lists (files : list string) (acc tunnels : list tunnel.Tunnel)
    (err : option error) (w w' : tunnel.World) :
  tunnel.ListAll_loop files acc w = (tunnel.Listed tunnels err, w') →
  err = None ∧
  ∃ new, tunnels = acc ++ new ∧ length new ≤ length files ∧
    Forall (λ t, ∃ file name w1 w2,
               file ∈ files ∧
               tunnel.drop_extension (tunnel.filepath_Base file) = Some name ∧
               tunnel.Get name w1 = (Ok t, w2)) new.
Proof.
  revert acc w. induction files as [|file files IH]; intros acc w; simpl.
  - intros [= <- <- <-]. split; [done|]. exists []. by rewrite app_nil_r.
  - destruct (tunnel.drop_extension (tunnel.filepath_Base file)) as [name|] eqn:Hname;
      [|done].
    destruct (tunnel.Get name w) as [[t|?] w1] eqn:Hget; intros Hloop.
    + destruct (IH _ _ Hloop) as (-> & new & -> & Hlen & Hall).
      split; [done|]. exists (t :: new). rewrite <- app_assoc. split; [done|].
      split; [simpl; lia|]. constructor.
      * exists file, name, w, w1. split; [left|done].
      * eapply Forall_impl; [exact Hall|].
        intros t' (f & n & w2 & w3 & Hin & ? & ?). exists f, n, w2, w3.
        split; [by right|done].
    + destruct (IH _ _ Hloop) as (-> & new & -> & Hlen & Hall).
      split; [done|]. exists new. split; [done|]. split; [lia|].
      eapply Forall_impl; [exact Hall|].
      intros t' (f & n & w2 & w3 & Hin & ? & ?). exists f, n, w2, w3.
      split; [by right|done].
Qed.

(** X17. [ListAll] fails only when the configuration directory or the
    listing of its files fails, and then with no tunnel; a file that [Get]
    cannot load is skipped. Otherwise every listed tunnel was returned by
    [Get] for a listed file, and there are no more tunnels than files. *)
Theorem ListAll_lists (w w' : tunnel.World) (tunnels : list tunnel.Tunnel)
    (err : option error) :
  tunnel.ListAll w = (tunnel.Listed tunnels err, w') →
  match err with
  | Some e =>
      tunnels = [] ∧
      (tunnel.getConfigDir w = (Err e, w') ∨
       ∃ configDir,
         tunnel.getConfigDir w = (Ok configDir, w') ∧
         tunnel.filepath_Glob
           (tunnel.filepath_Join [configDir; "tunnels"; "*.json"]) w' = Err e)
  | None =>
      ∃ configDir w1 files,
        tunnel.getConfigDir w = (Ok configDir, w1) ∧
        tunnel.filepath_Glob
          (tunnel.filepath_Join [configDir; "tunnels"; "*.json"]) w1 = Ok files ∧
        length tunnels ≤ length files ∧
        Forall (λ t, ∃ file name w2 w3,
                   file ∈ files ∧
                   tunnel.drop_extension (tunnel.filepath_Base file) = Some name ∧
                   tunnel.Get name w2 = (Ok t, w3)) tunnels
  end.
Proof.
  unfold tunnel.ListAll.
  destruct (tunnel.getConfigDir w) as [[configDir|e] w1] eqn:Hdir.
  2: { intros [= <- <- <-]. split; [done|]. by left. }
  destruct (tunnel.filepath_Glob _ w1) as [files|e] eqn:Hglob.
  2: { intros [= <- <- <-]. split; [done|]. right. by exists configDir. }
  intros Hloop. apply ListAll_loop_lists in Hloop as (-> & new & -> & Hlen & Hall).
  by exists configDir, w1, files.
Qed.

(** ** createTunnelInterface *)



(** ** A tunnel without its interface *)

(** X19. Off macOS, for a tunnel whose file loads and whose interface
    "ipsec-<name>", named after the name stored in the file, does not
    exist, the status in the file does not count: [Stop] returns nil and
    does nothing more, and [Start] fails with
    "tunnel interface not found: <error>" and saves nothing. *)
Theorem missing_interface (name : string) (w w1 : tunnel.World)
    (stored : tunnel.Tunnel) (err : error) :
  tunnel.runtime_GOOS ≠ "darwin" →
  tunnel.loadTunnel name w = (Ok stored, w1) →
  tunnel.netlink_LinkByName ("ipsec-" +:+ tunnel.tunnel_Name stored) w1 = Err err →
  tunnel.Get name w = (Ok (tunnel.set_Status tunnel.StatusDown stored), w1) ∧
  tunnel.Stop name w = (None, w1) ∧
  tunnel.Start name w = (Some ("tunnel interface not found: " +:+ err), w1).
Proof.
  intros Hos Hload Hlink.
  assert (Hget : tunnel.Get name w
                 = (Ok (tunnel.set_Status tunnel.StatusDown stored), w1)).
  { unfold tunnel.Get, tunnel.getTunnelStatus.
    by rewrite Hload, decide_False, Hlink by done. }
  split; [done|]. split.
  - unfold tunnel.Stop. rewrite Hget. by rewrite decide_True.
  - unfold tunnel.Start. rewrite Hget. rewrite decide_False by done.
    unfold tunnel.startTunnel. simpl. by rewrite decide_False, Hlink by done.
Qed.

End TunnelProperties.

(** * The defaults and the tunnels *)

Section DefaultsAndTunnels.
Context `{RT : Runtime}.
Variable below : string → string.

(** X20. A name that [SetDefaultAlgorithm] has taken for a category, read
    back with [GetDefaultAlgorithm], is an encryption that [validateConfig]
    accepts in a configuration of this category. *)
Theorem default_algorithm_accepted (algorithm : string) (postQuantum : bool)
    (settings : gmap string string) (file : ConfigFile) (config : tunnel.Config) :
  algorithm ∈ Name <$> (if postQuantum then ListPostQuantumAlgorithms
                        else ListClassicAlgorithms) →
  tunnel.Name config ≠ "" → tunnel.LocalIP config ≠ "" →
  tunnel.RemoteIP config ≠ "" → tunnel.LocalSubnet config ≠ "" →
  tunnel.RemoteSubnet config ≠ "" →
  tunnel.PostQuantum config = postQuantum →
  tunnel.Encryption config
  = GetDefaultAlgorithm below postQuantum
      (SetDefaultAlgorithm algorithm postQuantum settings file).2.1 →
  tunnel.validateConfig config = None.
Proof.
  intros Hin ? ? ? ? ? Hflag Henc.
  rewrite SetDefaultAlgorithm_settings in Henc by done.
  assert (Hget : GetDefaultAlgorithm below postQuantum
                   (<[default_key postQuantum := algorithm]> settings) = algorithm).
  { apply listed_nonempty in Hin as Hnonempty.
    unfold GetDefaultAlgorithm, viper_GetString, default_key.
    destruct postQuantum; by rewrite lookup_insert_eq, decide_False. }
  rewrite Hget in Henc. apply validateConfig_None_iff.
  repeat (split; [done|]). rewrite Henc, Hflag. right.
  destruct postQuantum; [by right | by left].
Qed.

End DefaultsAndTunnels.

(** * The tunnel package on the reference machine *)

Example Create_on_boot :
  ∃ t w',
    @tunnel.Create Host.platform Host.office Host.boot = ((Some t, None), w') ∧
    tunnel.tunnel_Status t = "UP" ∧ tunnel.tunnel_Encryption t = "" ∧
    Host.links w' = [("ipsec-office", true)] ∧
    fst <$> Host.files w' = ["/root/.ipsec-vpn/tunnels/office.json"].
Proof. by eexists _, _. Qed.

Example fnv32a_vectors :
  tunnel.fnv32a "" = 2166136261%Z ∧ tunnel.fnv32a "a" = 3826002220%Z ∧
  tunnel.fnv32a "foobar" = 3214735720%Z.
Proof. by vm_compute. Qed.

Example lifecycle_on_two_tunnels :
  let listed := @tunnel.ListAll Host.platform Host.two_tunnels in
  let stopped := tunnel.Stop "lab" listed.2 in
  let deleted := tunnel.Delete "lab" false stopped.2 in
  let forced := tunnel.Delete "office" true deleted.2 in
  match listed.1 with
  | tunnel.Listed tunnels None => tunnel.tunnel_Name <$> tunnels = ["office"; "lab"]
  | _ => False
  end ∧
  stopped.1 = None ∧
  Host.links stopped.2 = [("ipsec-office", true); ("ipsec-lab", false)] ∧
  deleted.1 = None ∧ Host.links deleted.2 = [("ipsec-office", true)] ∧
  forced.1 = None ∧ Host.links forced.2 = [] ∧ Host.files forced.2 = [].
Proof. vm_compute. by repeat split. Qed.

(** * Witnesses of the further properties *)

Lemma TestAlgorithm_result_or_error_witness :
  (∃ r err w',
     @TestAlgorithm Toy.runtime "aes256gcm" Toy.hello Toy.fresh = (Return r err, w') ∧
     ((is_Some r ∧ err = None) ∨ (r = None ∧ is_Some err))) ∧
  (∃ r err w',
     @TestAlgorithm Toy.mute_runtime "kyber1024" Toy.hello Toy.fresh
     = (Return r err, w') ∧
     ((is_Some r ∧ err = None) ∨ (r = None ∧ is_Some err))).
Proof.
  assert (Hgood : ∃ r err w',
    @TestAlgorithm Toy.runtime "aes256gcm" Toy.hello Toy.fresh = (Return r err, w'))
    by (vm_compute; by eexists _, _, _).
  assert (Hbad : ∃ r err w',
    @TestAlgorithm Toy.mute_runtime "kyber1024" Toy.hello Toy.fresh
    = (Return r err, w'))
    by (vm_compute; by eexists _, _, _).
  destruct Hgood as (r1 & err1 & w1 & Hgood). destruct Hbad as (r2 & err2 & w2 & Hbad).
  split.
  - exists r1, err1, w1. split; [exact Hgood|].
    exact (@TestAlgorithm_result_or_error Toy.runtime _ _ _ _ _ _ Hgood).
  - exists r2, err2, w2. split; [exact Hbad|].
    exact (@TestAlgorithm_result_or_error Toy.mute_runtime _ _ _ _ _ _ Hbad).
Defined.

Lemma TestAlgorithm_result_serialized_witness :
  ∃ t w',
    @TestAlgorithm Toy.runtime "kyber768" Toy.hello Toy.fresh
    = (Return (Some t) None, w') ∧
    result_Algorithm t = "kyber768" ∧
    @TestAlgorithm_serializes Toy.runtime Toy.hello Toy.fresh "kyber768"
      (Encrypted t) w'.
Proof.
  assert (Hrun : ∃ t w',
    @TestAlgorithm Toy.runtime "kyber768" Toy.hello Toy.fresh
    = (Return (Some t) None, w'))
    by (vm_compute; by eexists _, _).
  destruct Hrun as (t & w' & Hrun). exists t, w'. split; [exact Hrun|].
  exact (@TestAlgorithm_result_serialized Toy.runtime _ _ _ _ _ _ Hrun).
Defined.

Lemma DecryptionSuccessful_iff_witness :
  ∃ t w',
    @TestAlgorithm Toy.deaf_runtime "chacha20poly1305" Toy.hello Toy.fresh
    = (Return (Some t) None, w') ∧
    (DecryptionSuccessful t = true ↔
     @TestAlgorithm_recovers Toy.deaf_runtime Toy.hello Toy.fresh
       "chacha20poly1305" (Encrypted t) w') ∧
    (DecryptionSuccessful t = false ↔
     @TestAlgorithm_fails Toy.deaf_runtime Toy.hello Toy.fresh
       "chacha20poly1305" (Encrypted t) w').
Proof.
  assert (Hrun : ∃ t w',
    @TestAlgorithm Toy.deaf_runtime "chacha20poly1305" Toy.hello Toy.fresh
    = (Return (Some t) None, w'))
    by (vm_compute; by eexists _, _).
  destruct Hrun as (t & w' & Hrun). exists t, w'. split; [exact Hrun|].
  exact (@DecryptionSuccessful_iff Toy.deaf_runtime _ _ _ _ _ _ Hrun).
Defined.

Lemma TestAlgorithm_panics_iff_witness :
  ∃ w',
    @testHybridKyberAES_panics Faults.short_runtime
      (@kyber768_Scheme Faults.short_runtime) Toy.hello Toy.fresh w' ∧
    @TestAlgorithm Faults.short_runtime "hybrid-kyber768-aes256gcm" Toy.hello Toy.fresh
    = (Panic "slice bounds out of range", w').
Proof.
  assert (Hpanics : ∃ w',
    @testHybridKyberAES_panics Faults.short_runtime
      (@kyber768_Scheme Faults.short_runtime) Toy.hello Toy.fresh w').
  { eexists. econstructor.
    - econstructor; reflexivity.
    - eapply @testHybridKyberAES_overruns_intro;
        [reflexivity | reflexivity | reflexivity | reflexivity | reflexivity
        | reflexivity | reflexivity | reflexivity | simpl; lia]. }
  destruct Hpanics as (w' & Hpanics). exists w'. split; [exact Hpanics|].
  exact (proj2 (@TestAlgorithm_panics_iff Faults.short_runtime
                  "hybrid-kyber768-aes256gcm" Toy.hello Toy.fresh
                  "slice bounds out of range" w')
           (conj eq_refl (conj Hpanics eq_refl))).
Defined.

Lemma Encrypted_holds_kem_ciphertext_witness :
  ∃ t w',
    @TestAlgorithm Toy.unpadded_runtime "kyber1024" Toy.empty Toy.fresh
    = (Return (Some t) None, w') ∧
    1568 ≤ length (Encrypted t).
Proof.
  assert (Hrun : ∃ t w',
    @TestAlgorithm Toy.unpadded_runtime "kyber1024" Toy.empty Toy.fresh
    = (Return (Some t) None, w'))
    by (vm_compute; by eexists _, _).
  destruct Hrun as (t & w' & Hrun). exists t, w'. split; [exact Hrun|].
  exact (proj2 (@Encrypted_holds_kem_ciphertext Toy.unpadded_runtime _ _ _ _ _ _ Hrun)
           eq_refl).
Defined.

Lemma TestAlgorithm_never_panics_witness :
  @kem_law Toy.deaf_runtime (@kyber768_Scheme Toy.deaf_runtime) ∧
  ∀ msg w',
    @TestAlgorithm Toy.deaf_runtime "hybrid-kyber768-aes256gcm" Toy.hello Toy.fresh
    ≠ (Panic msg, w').
Proof.
  assert (Hkem : @kem_law Toy.deaf_runtime (@kyber768_Scheme Toy.deaf_runtime))
    by exact ToyLaws.kyber768_ok.
  split; [exact Hkem|]. intros msg w'.
  exact (@TestAlgorithm_never_panics Toy.deaf_runtime _ _ _ msg w' Hkem).
Defined.

Lemma GetDefaultAlgorithm_after_Set_witness :
  "kyber1024" ∈ Name <$> ListPostQuantumAlgorithms ∧
  (@SetDefaultAlgorithm Faults.readonly_runtime "kyber1024" true ∅ ∅).1
  = Some "read-only file system" ∧
  GetDefaultAlgorithm Faults.nothing_below true
    (@SetDefaultAlgorithm Faults.readonly_runtime "kyber1024" true ∅ ∅).2.1
  = "kyber1024" ∧
  GetDefaultAlgorithm Faults.nothing_below false
    (@SetDefaultAlgorithm Faults.readonly_runtime "kyber1024" true ∅ ∅).2.1
  = GetDefaultAlgorithm Faults.nothing_below false ∅.
Proof.
  assert (Hin : "kyber1024" ∈ Name <$> ListPostQuantumAlgorithms).
  { simpl. rewrite !elem_of_cons. auto. }
  split; [exact Hin|]. split; [reflexivity|].
  exact (@GetDefaultAlgorithm_after_Set Faults.readonly_runtime Faults.nothing_below
           "kyber1024" true ∅ ∅ Hin).
Defined.


Lemma validateConfig_accepts_iff_witness :
  tunnel.validateConfig Host.office = None ∧
  tunnel.validateConfig (Host.lab true) = None.
Proof.
  split.
  - apply (proj2 (validateConfig_accepts_iff Host.office)).
    repeat (split; [done|]). by left.
  - apply (proj2 (validateConfig_accepts_iff (Host.lab true))).
    repeat (split; [done|]). right. right. split; [done|].
    simpl. rewrite !elem_of_cons. auto.
Defined.

Lemma validateConfig_accepts_registered_witness :
  tunnel.validateConfig (Host.lab true) = None ∧
  tunnel.Encryption (Host.lab true) ≠ "" ∧
  tunnel.Encryption (Host.lab true) ∈ registered_names.
Proof.
  assert (Hnonempty : tunnel.Encryption (Host.lab true) ≠ "") by done.
  split; [reflexivity|]. split; [exact Hnonempty|].
  exact (validateConfig_accepts_registered (Host.lab true) eq_refl Hnonempty).
Defined.

Lemma validateConfig_post_quantum_needs_flag_witness :
  tunnel.Encryption (Host.lab false) ∈ Name <$> ListPostQuantumAlgorithms ∧
  tunnel.PostQuantum (Host.lab false) = false ∧
  is_Some (tunnel.validateConfig (Host.lab false)).
Proof.
  assert (Hin : tunnel.Encryption (Host.lab false) ∈ Name <$> ListPostQuantumAlgorithms).
  { simpl. rewrite !elem_of_cons. auto. }
  split; [exact Hin|]. split; [reflexivity|].
  exact (validateConfig_post_quantum_needs_flag (Host.lab false) Hin eq_refl).
Defined.

Lemma Get_status_witness :
  ∃ t w',
    @tunnel.Get Host.platform "office" Host.one_tunnel = (Ok t, w') ∧
    ∃ stored,
      @tunnel.loadTunnel Host.platform "office" Host.one_tunnel = (Ok stored, w') ∧
      t = tunnel.set_Status (tunnel.tunnel_Status t) stored ∧
      (@tunnel.runtime_GOOS Host.platform = "darwin" →
       tunnel.tunnel_Status t = tunnel.tunnel_Status stored) ∧
      (@tunnel.runtime_GOOS Host.platform ≠ "darwin" →
       tunnel.tunnel_Status t = tunnel.StatusUp ∨
       tunnel.tunnel_Status t = tunnel.StatusDown).
Proof.
  assert (Hget : ∃ t w',
    @tunnel.Get Host.platform "office" Host.one_tunnel = (Ok t, w'))
    by (vm_compute; by eexists _, _).
  destruct Hget as (t & w' & Hget). exists t, w'. split; [exact Hget|].
  exact (@Get_status Host.platform _ _ _ _ Hget).
Defined.

Lemma Delete_force_deletes_config_witness :
  ∃ w1,
    @tunnel.Delete Host.platform "office" true Host.one_tunnel
    = tunnel.deleteTunnelConfig "office" w1.
Proof. exact (@Delete_force_deletes_config Host.platform "office" Host.one_tunnel). Defined.

Lemma Delete_refuses_active_witness :
  ∃ t w1,
    @tunnel.Get Host.platform "office" Host.one_tunnel = (Ok t, w1) ∧
    tunnel.tunnel_Status t = tunnel.StatusUp ∧
    @tunnel.Delete Host.platform "office" false Host.one_tunnel
    = (Some "tunnel is active, stop it first or use --force", w1).
Proof.
  assert (Hget : ∃ t w1,
    @tunnel.Get Host.platform "office" Host.one_tunnel = (Ok t, w1) ∧
    tunnel.tunnel_Status t = tunnel.StatusUp)
    by (vm_compute; by eexists _, _).
  destruct Hget as (t & w1 & Hget & Hup). exists t, w1.
  split; [exact Hget|]. split; [exact Hup|].
  exact (@Delete_refuses_active Host.platform _ _ _ _ Hget Hup).
Defined.

Lemma Create_returns_witness :
  ∃ r e w',
    @tunnel.Create Host.platform Host.office Host.boot = ((r, e), w') ∧
    ((r = None ∧ is_Some e) ∨
     (∃ t, r = Some t ∧ e = None ∧
        tunnel.validateConfig Host.office = None ∧
        (∃ err w1,
           @tunnel.Get Host.platform (tunnel.Name Host.office) Host.boot
           = (Err err, w1)) ∧
        tunnel.tunnel_Name t = tunnel.Name Host.office ∧
        tunnel.tunnel_LocalIP t = tunnel.LocalIP Host.office ∧
        tunnel.tunnel_RemoteIP t = tunnel.RemoteIP Host.office ∧
        tunnel.tunnel_LocalSubnet t = tunnel.LocalSubnet Host.office ∧
        tunnel.tunnel_RemoteSubnet t = tunnel.RemoteSubnet Host.office ∧
        tunnel.tunnel_Encryption t = tunnel.Encryption Host.office ∧
        tunnel.tunnel_PostQuantum t = tunnel.PostQuantum Host.office ∧
        tunnel.tunnel_Status t = tunnel.StatusUp)).
Proof.
  assert (Hcreate : ∃ r e w',
    @tunnel.Create Host.platform Host.office Host.boot = ((r, e), w'))
    by (vm_compute; by eexists _, _, _).
  destruct Hcreate as (r & e & w' & Hcreate). exists r, e, w'.
  split; [exact Hcreate|].
  exact (@Create_returns Host.platform _ _ _ _ _ Hcreate).
Defined.

Lemma Start_Stop_succeed_witness :
  ∃ w' t w1,
    @tunnel.Stop Host.platform "office" Host.one_tunnel = (None, w') ∧
    @tunnel.Get Host.platform "office" Host.one_tunnel = (Ok t, w1) ∧
    ((tunnel.tunnel_Status t = tunnel.StatusDown ∧ w' = w1) ∨
     (tunnel.tunnel_Status t ≠ tunnel.StatusDown ∧
      ∃ w2 now w3,
        tunnel.stopTunnel t w1 = (None, w2) ∧
        tunnel.time_Now w2 = (now, w3) ∧
        tunnel.saveTunnel
          (tunnel.set_UpdatedAt now (tunnel.set_Status tunnel.StatusDown t)) w3
        = (None, w'))).
Proof.
  assert (Hstop : ∃ w',
    @tunnel.Stop Host.platform "office" Host.one_tunnel = (None, w'))
    by (vm_compute; by eexists).
  destruct Hstop as (w' & Hstop).
  destruct (proj2 (@Start_Stop_succeed Host.platform "office" Host.one_tunnel w') Hstop)
    as (t & w1 & Hget & Hcases).
  by exists w', t, w1.
Defined.

Lemma ListAll_lists_witness :
  ∃ tunnels w',
    @tunnel.ListAll Host.platform Host.two_tunnels = (tunnel.Listed tunnels None, w') ∧
    ∃ configDir w1 files,
      @tunnel.getConfigDir Host.platform Host.two_tunnels = (Ok configDir, w1) ∧
      tunnel.filepath_Glob
        (@tunnel.filepath_Join Host.platform [configDir; "tunnels"; "*.json"]) w1
      = Ok files ∧
      length tunnels ≤ length files ∧
      Forall (λ t, ∃ file name w2 w3,
                 file ∈ files ∧
                 tunnel.drop_extension (@tunnel.filepath_Base Host.platform file)
                 = Some name ∧
                 @tunnel.Get Host.platform name w2 = (Ok t, w3)) tunnels.
Proof.
  assert (Hlist : ∃ tunnels w',
    @tunnel.ListAll Host.platform Host.two_tunnels = (tunnel.Listed tunnels None, w'))
    by (vm_compute; by eexists _, _).
  destruct Hlist as (tunnels & w' & Hlist). exists tunnels, w'.
  split; [exact Hlist|].
  exact (@ListAll_lists Host.platform _ _ _ None Hlist).
Defined.


Lemma missing_interface_witness :
  ∃ stored w1,
    @tunnel.runtime_GOOS Host.platform ≠ "darwin" ∧
    @tunnel.loadTunnel Host.platform "office" Host.unplugged = (Ok stored, w1) ∧
    tunnel.tunnel_Status stored = tunnel.StatusUp ∧
    tunnel.netlink_LinkByName ("ipsec-" +:+ tunnel.tunnel_Name stored) w1
    = Err "Link not found" ∧
    @tunnel.Get Host.platform "office" Host.unplugged
    = (Ok (tunnel.set_Status tunnel.StatusDown stored), w1) ∧
    @tunnel.Stop Host.platform "office" Host.unplugged = (None, w1) ∧
    @tunnel.Start Host.platform "office" Host.unplugged
    = (Some "tunnel interface not found: Link not found", w1).
Proof.
  assert (Hos : @tunnel.runtime_GOOS Host.platform ≠ "darwin") by done.
  assert (Hload : ∃ stored w1,
    @tunnel.loadTunnel Host.platform "office" Host.unplugged = (Ok stored, w1) ∧
    tunnel.tunnel_Status stored = tunnel.StatusUp ∧
    tunnel.netlink_LinkByName ("ipsec-" +:+ tunnel.tunnel_Name stored) w1
    = Err "Link not found")
    by (vm_compute; by eexists _, _).
  destruct Hload as (stored & w1 & Hload & Hup & Hlink). exists stored, w1.
  split; [exact Hos|]. split; [exact Hload|]. split; [exact Hup|].
  split; [exact Hlink|].
  exact (@missing_interface Host.platform "office" _ _ _ _ Hos Hload Hlink).
Defined.

Lemma default_algorithm_accepted_witness :
  "kyber1024" ∈ Name <$> ListPostQuantumAlgorithms ∧
  tunnel.Encryption (Host.lab true)
  = GetDefaultAlgorithm Faults.nothing_below true
      (@SetDefaultAlgorithm Toy.runtime "kyber1024" true ∅ ∅).2.1 ∧
  tunnel.validateConfig (Host.lab true) = None.
Proof.
  assert (Hin : "kyber1024" ∈ Name <$> ListPostQuantumAlgorithms).
  { simpl. rewrite !elem_of_cons. auto. }
  split; [exact Hin|]. split; [reflexivity|].
  apply (@default_algorithm_accepted Toy.runtime Faults.nothing_below
           "kyber1024" true ∅ ∅ (Host.lab true) Hin); done.
Defined.
